(** * PDP checker: a shallow embedding of [pdp_checker.py]

    The script scans a header row of a spreadsheet for the last dated
    column, inserts a fresh column to its right, and then, for every query
    of a fixed range, drives a browser, scrapes a result count and writes
    it into the new column.

    Python [str] values are modelled as [string] (texts are taken in the
    ASCII range, where [\d] is [0-9] and [str.lower] only touches [A-Z]).
    The spreadsheet is a grid of cells; the browser, the clock, the SMTP
    server and the Sheets API are an abstract [World] whose answers the
    program consumes; every external call is recorded in a trace.

    Conventions of the model:
    - times are integers, in milliseconds;
    - an exception is an instance of [Exception], the class caught by
      [except Exception]; a library call may raise any of them;
    - reading the clock, the page source or the text of an element
      observes the world without changing it, so two reads with no call
      and no sleep between them see the same thing; reading the page
      source is a command to the driver and may raise;
    - logging and printing are events and never fail;
    - the waiting loop of the CAPTCHA handler runs on fuel, one unit per
      evaluation of its condition; the lemmas give the fuel that
      suffices;
    - values read from the [config] module, which is not among the
      sources, are parameters. *)

From Stdlib Require Import List String Ascii ZArith Lia Bool Arith.
Import ListNotations.
Local Open Scope string_scope.
Local Open Scope list_scope.
Local Open Scope nat_scope.

(** ** Python string primitives *)

Module PyStr.

(** [\d] of the [re] module, on ASCII. *)
Definition is_digit (c : ascii) : bool :=
  let n := nat_of_ascii c in (48 <=? n) && (n <=? 57).

(** [str.isspace] on a single ASCII character: the characters removed by
    [str.strip()] called without argument. *)
Definition is_space (c : ascii) : bool :=
  let n := nat_of_ascii c in
  ((9 <=? n) && (n <=? 13)) || ((28 <=? n) && (n <=? 32)).

(** Case folding used by [re.IGNORECASE] on ASCII letters. *)
Definition lower_ascii (c : ascii) : ascii :=
  let n := nat_of_ascii c in
  if (65 <=? n) && (n <=? 90) then ascii_of_nat (n + 32) else c.

Fixpoint lower (s : string) : string :=
  match s with
  | EmptyString => EmptyString
  | String c r => String (lower_ascii c) (lower r)
  end.

Fixpoint existsb (p : ascii -> bool) (s : string) : bool :=
  match s with
  | EmptyString => false
  | String c r => p c || existsb p r
  end.

Fixpoint forallb (p : ascii -> bool) (s : string) : bool :=
  match s with
  | EmptyString => true
  | String c r => p c && forallb p r
  end.

(** [needle in hay] *)
Fixpoint contains (needle hay : string) : bool :=
  prefix needle hay ||
  match hay with
  | EmptyString => false
  | String _ r => contains needle r
  end.

(** [c in s] for a one-character needle, as in ['-' in cell_value]. *)
Definition contains_char (c : ascii) (s : string) : bool :=
  existsb (Ascii.eqb c) s.

Fixpoint lstrip (s : string) : string :=
  match s with
  | EmptyString => EmptyString
  | String c r => if is_space c then lstrip r else s
  end.

Fixpoint rstrip (s : string) : string :=
  match s with
  | EmptyString => EmptyString
  | String c r =>
      let r' := rstrip r in
      if is_space c && (r' =? "")%string then EmptyString else String c r'
  end.

(** [s.strip()] *)
Definition strip (s : string) : string := rstrip (lstrip s).

(** Truth value of a [str] in a condition. *)
Definition truthy (s : string) : bool := negb (s =? "")%string.

End PyStr.

(** ** The two regular expressions of the script *)

Module Re.
Import PyStr.

(** [re.search(r'\d', s)] is truthy. *)
Definition search_digit (s : string) : bool := existsb is_digit s.

(** The class [[\d,]]. *)
Definition is_count_char (c : ascii) : bool :=
  is_digit c || Ascii.eqb c ","%char.

(** [s] starts with [lit], letter case ignored. *)
Fixpoint istarts_with (lit s : string) : bool :=
  match lit, s with
  | EmptyString, _ => true
  | String _ _, EmptyString => false
  | String a lit', String b s' =>
      Ascii.eqb (lower_ascii a) (lower_ascii b) && istarts_with lit' s'
  end.

(** [([\d,]+) result] anchored at the head of [s]; the answer is group 1.
    The class run is greedy: at every class character the engine first
    tries to extend the run and only then to stop and match the literal. *)
Fixpoint match_here (s : string) : option string :=
  match s with
  | EmptyString => None
  | String c r =>
      if is_count_char c then
        match match_here r with
        | Some g => Some (String c g)
        | None => if istarts_with " result" r then Some (String c "") else None
        end
      else None
  end.

(** [re.search(r'([\d,]+) result', s, re.IGNORECASE)], then [group(1)]:
    the leftmost start position at which the pattern matches. *)
Fixpoint search_count (s : string) : option string :=
  match match_here s with
  | Some g => Some g
  | None =>
      match s with
      | EmptyString => None
      | String _ r => search_count r
      end
  end.

End Re.

(** ** The spreadsheet

    The remote worksheet, as the gspread calls of the script see it: a grid
    of text cells addressed from 1, every cell outside the stored rows
    being empty. *)

Module Sheet.

Record Worksheet := { title : string; grid : list (list string) }.

Definition is_nil {A} (l : list A) : bool :=
  match l with [] => true | _ => false end.

Definition is_empty (v : string) : bool := (v =? "")%string.

Definition row (ws : Worksheet) (r : nat) : list string :=
  nth (r - 1) (grid ws) [].

Definition cell (ws : Worksheet) (r c : nat) : string :=
  nth (c - 1) (row ws r) "".

(** The Sheets API leaves out trailing empty values. *)
Fixpoint rtrim {A} (empty : A -> bool) (l : list A) : list A :=
  match l with
  | [] => []
  | x :: r =>
      let r' := rtrim empty r in
      if empty x && is_nil r' then [] else x :: r'
  end.

(** [worksheet.row_values(r)] *)
Definition row_values (ws : Worksheet) (r : nat) : list string :=
  rtrim is_empty (row ws r).

(** [worksheet.get("<c><r1>:<c><r2>")] on a one-column range: one list
    per row, empty for a row whose cell is empty, trailing empty rows
    left out. *)
Definition get_column (ws : Worksheet) (c r1 r2 : nat) : list (list string) :=
  rtrim is_nil
    (map (fun r => rtrim is_empty [cell ws r c]) (seq r1 (r2 + 1 - r1))).

Definition insert_at {A} (n : nat) (x : A) (l : list A) : list A :=
  firstn n l ++ x :: skipn n l.

(** [worksheet.insert_cols([[]], col=col, inherit_from_before=True)]:
    an empty column at index [col]; the cells at [col] and to its right
    move one column right. *)
Definition insert_cols (ws : Worksheet) (col : nat) : Worksheet :=
  {| title := title ws; grid := map (insert_at (col - 1) "") (grid ws) |}.

(** Store [x] at index [n], filling a too short list with [d]. *)
Fixpoint set_nth {A} (n : nat) (x d : A) (l : list A) : list A :=
  match n, l with
  | 0, [] => [x]
  | 0, _ :: r => x :: r
  | S n', [] => d :: set_nth n' x d []
  | S n', y :: r => y :: set_nth n' x d r
  end.

(** [worksheet.update_cell(r, c, v)] *)
Definition update_cell (ws : Worksheet) (r c : nat) (v : string) : Worksheet :=
  {| title := title ws;
     grid := set_nth (r - 1) (set_nth (c - 1) v "" (row ws r)) [] (grid ws) |}.

(** Column index of a one-letter A1 column name. *)
Definition a1_column (letter : ascii) : nat := nat_of_ascii letter - 64.

End Sheet.

(** ** Dates: [datetime.now().strftime('%d-%b-%Y')] *)

Module Date.

Record datetime := { day : nat; month : nat; year : nat }.

Definition digit_char (k : nat) : ascii := ascii_of_nat (48 + k mod 10).

(** [%d]: day of the month, two digits. *)
Definition fmt_d (d : nat) : string :=
  String (digit_char (d / 10)) (String (digit_char d) "").

(** [%b]: abbreviated month name (C locale). *)
Definition fmt_b (m : nat) : string :=
  nth (m - 1)
    ["Jan"; "Feb"; "Mar"; "Apr"; "May"; "Jun";
     "Jul"; "Aug"; "Sep"; "Oct"; "Nov"; "Dec"] "".

(** [%Y]: year with century, four digits. *)
Definition fmt_Y (y : nat) : string :=
  String (digit_char (y / 1000)) (String (digit_char (y / 100))
    (String (digit_char (y / 10)) (String (digit_char y) ""))).

Definition strftime_d_b_Y (t : datetime) : string :=
  (fmt_d (day t) ++ "-" ++ fmt_b (month t) ++ "-" ++ fmt_Y (year t))%string.

End Date.

(** ** Script-specific configuration (lines 29-41, 64-67) *)

Definition PDP_SPREADSHEET_ID : string := "1MMiZkAm8I8jumzuYghTZFgCdqylZppEURq2ulT8aey8".
Definition PDP_SHEET_NAME : string := "PDPs".
Definition PDP_QUERIES_COLUMN : ascii := "D"%char.
Definition PDP_START_ROW : nat := 4.
Definition PDP_END_ROW : nat := 32.
Definition DATE_HEADER_ROW : nat := 2.

(** Delays, in milliseconds. *)
Definition DELAY_TYPING : Z * Z := (50, 150)%Z.
Definition DELAY_AFTER_PAGE_LOAD : Z * Z := (3000, 5000)%Z.
Definition DELAY_BETWEEN_QUERIES : Z * Z := (7000, 15000)%Z.

Definition SEARCH_INPUT_SELECTOR : string := "[name='q']".
Definition TOOLS_BUTTON_SELECTOR : string := "#hdtb-tls".
Definition RESULT_STATS_SELECTOR : string := "#result-stats".
Definition NO_RESULTS_TEXT : string := "No results found for".

(** The settings read from the shared [config] module, which is not part
    of the sources: they are parameters of the model.  Times are in
    milliseconds. *)
Record Config := {
  ENABLE_EMAIL_NOTIFICATIONS : bool;
  RECIPIENT_EMAIL : list string;
  CAPTCHA_WAIT_TIMEOUT : Z;
  CAPTCHA_CHECK_INTERVAL : Z
}.

(** ** Exceptions, calls and the trace *)

(** Instances of [Exception] (what [except Exception] catches). *)
Inductive exn :=
| TimeoutException
| ElementClickInterceptedException
| ValueError
| OverflowError
| PyException (msg : string)      (* [raise Exception(msg)] of the script *)
| LibraryError (name : string).   (* any other exception of a library call *)

(** A Python value that is a [str] or [None]. *)
Definition pyval := option string.

(** [str(v)] *)
Definition py_str (v : pyval) : string :=
  match v with Some s => s | None => "None" end.

Inductive browser_call :=
| InstallChromeDriver
| LaunchChrome
| SetPageLoadTimeout (seconds : nat)
| Get (url : string)
| WaitPresence (selector : string)      (* WebDriverWait(driver, 10).until(...) *)
| WaitClickable (selector : string)
| WaitVisible (selector : string)
| Clear (selector : string)
| SendKeys (selector : string) (keys : string)
| SendReturn (selector : string)
| Click (selector : string)
| Text (selector : string)
| QuitDriver.

Inductive sheets_call :=
| Authorize
| OpenByKey (id : string)
| SelectWorksheet (name : string)
| RowValues (r : nat)
| GetRange (column : ascii) (r1 r2 : nat)
| InsertCols (col : nat)
| UpdateCell (r c : nat) (v : string).

Inductive level := INFO | WARNING | ERROR | CRITICAL.

(** The log lines of the script, with the values they interpolate. *)
Inductive message :=
| MsgStart | MsgFinished | MsgClosingWebDriver
| MsgConnecting | MsgConnected
| MsgPreparingSheet (title : string)
| MsgInserting (last new : nat) | MsgInserted
| MsgWroteDate (today : string) (r c : nat)
| MsgPrepareFailed (e : exn)
| MsgFetching (column : ascii) (r1 r2 : nat)
| MsgFound (n : nat)
| MsgInitWebDriver
| MsgProcessing (i n : nat) (query : string) (r : nat)
| MsgSkippingEmpty (r : nat)
| MsgScraped (v : pyval)
| MsgUpdated (r c : nat)
| MsgSearchBoxNotFound
| MsgClickedTools | MsgNoResults | MsgScrapeFailed
| MsgScrapeUnexpected (e : exn)
| MsgCaptchaDetected | MsgCaptchaSolved
| MsgCaptchaTimeout (timeout : Z)
| MsgPreparingEmail (recipients : list string)
| MsgEmailSent
| MsgEmailFailed (e : exn)
| MsgCritical (e : exn).                (* the error and its traceback *)

Inductive email_body :=
| CaptchaBody (keyword : string)
| CrashBody (e : exn).                  (* the error and its traceback *)

Inductive event :=
| Log (l : level) (m : message)
| Stdout (text : string)
| SendMail (subject : string) (body : email_body)   (* the SMTP session *)
| Sheets (c : sheets_call)
| Browser (c : browser_call).

(** ** The outside world

    The clock, the browser, the Sheets API and the SMTP server.  Reads
    ([time_time], [driver_page_source], ...) observe the current state; a
    call moves the world on and returns normally ([None]) or raises. *)
Class World (W : Type) := {
  time_time : W -> Z;                                 (* [time.time()], ms *)
  datetime_now : W -> Date.datetime;
  after_sleep : Z -> W -> W;                          (* [time.sleep(d)] *)
  after_pause : Z * Z -> W -> W;    (* [time.sleep(random.uniform(lo, hi))] *)
  driver_page_source : W -> exn + string;             (* [driver.page_source] *)
  element_text : string -> W -> string;               (* [element.text] *)
  webdriver : browser_call -> W -> option exn * W;
  sheets_api : sheets_call -> W -> option exn * W;
  smtp : string -> email_body -> W -> option exn * W
}.

(** The page source as the driver returns it; empty when the command
    raises. *)
Definition page_source {W : Type} `{World W} (w : W) : string :=
  match driver_page_source w with
  | inr src => src
  | inl _ => ""
  end.

(** The clock never runs backwards while the script waits. *)
Class Clock (W : Type) `{World W} : Prop := {
  sleep_advances : forall d w, (time_time w + d <= time_time (after_sleep d w))%Z;
  smtp_monotone : forall subj body w,
    (time_time w <= time_time (snd (smtp subj body w)))%Z
}.

(** ** The monad of the script

    A computation reads and changes the run state, emits events, and
    returns a value, raises an exception, or is cut off because the fuel
    of a waiting loop ran out. *)

Inductive WebDriver := ChromeSession.

Record Run (W : Type) := mkRun {
  world : W;
  sheet : Sheet.Worksheet;
  driver : option WebDriver       (* the local variable [driver] of [main] *)
}.
Arguments mkRun {W}.
Arguments world {W}.
Arguments sheet {W}.
Arguments driver {W}.

Inductive outcome (A : Type) :=
| Ok (a : A)
| Raise (e : exn)
| OutOfFuel.
Arguments Ok {A}.
Arguments Raise {A}.
Arguments OutOfFuel {A}.

Record result (W A : Type) := mkResult {
  res : outcome A;
  st : Run W;
  out : list event
}.
Arguments mkResult {W A}.
Arguments res {W A}.
Arguments st {W A}.
Arguments out {W A}.

Definition M (W A : Type) : Type := Run W -> result W A.

Definition ret {W A} (a : A) : M W A := fun s => mkResult (Ok a) s [].

Definition bind {W A B} (m : M W A) (f : A -> M W B) : M W B :=
  fun s =>
    match m s with
    | mkResult (Ok a) s' o =>
        match f a s' with
        | mkResult r s'' o' => mkResult r s'' (o ++ o')
        end
    | mkResult (Raise e) s' o => mkResult (Raise e) s' o
    | mkResult OutOfFuel s' o => mkResult OutOfFuel s' o
    end.

Declare Scope run_scope.
Delimit Scope run_scope with run.
Notation "x <- m ;; k" := (bind m (fun x => k))
  (at level 100, m at next level, right associativity) : run_scope.
Notation "m ;; k" := (bind m (fun _ => k))
  (at level 100, right associativity) : run_scope.
Local Open Scope run_scope.

Definition raise {W A} (e : exn) : M W A := fun s => mkResult (Raise e) s [].
Definition out_of_fuel {W A} : M W A := fun s => mkResult OutOfFuel s [].
Definition emit {W} (e : event) : M W unit := fun s => mkResult (Ok tt) s [e].
Definition gets {W A} (f : Run W -> A) : M W A := fun s => mkResult (Ok (f s)) s [].
Definition modify {W} (f : Run W -> Run W) : M W unit :=
  fun s => mkResult (Ok tt) (f s) [].

(** [try: m except ...: h]: the handler says which exceptions it catches. *)
Definition try_except {W A} (m : M W A) (h : exn -> option (M W A)) : M W A :=
  fun s =>
    match m s with
    | mkResult (Raise e) s' o =>
        match h e with
        | Some k =>
            match k s' with
            | mkResult r s'' o' => mkResult r s'' (o ++ o')
            end
        | None => mkResult (Raise e) s' o
        end
    | r => r
    end.

(** [try: m finally: fin]: [fin] runs after [m] returned or raised; an
    exception of [m] is raised again afterwards, unless [fin] raises
    itself. *)
Definition try_finally {W A} (m : M W A) (fin : M W unit) : M W A :=
  fun s =>
    match m s with
    | mkResult OutOfFuel s' o => mkResult OutOfFuel s' o
    | mkResult r s' o =>
        match fin s' with
        | mkResult (Ok _) s'' o' => mkResult r s'' (o ++ o')
        | mkResult (Raise e) s'' o' => mkResult (Raise e) s'' (o ++ o')
        | mkResult OutOfFuel s'' o' => mkResult OutOfFuel s'' (o ++ o')
        end
    end.

Definition set_world {W} (w : W) (s : Run W) : Run W :=
  mkRun w (sheet s) (driver s).
Definition set_sheet {W} (ws : Sheet.Worksheet) (s : Run W) : Run W :=
  mkRun (world s) ws (driver s).
Definition set_driver {W} (d : option WebDriver) (s : Run W) : Run W :=
  mkRun (world s) (sheet s) d.

(** What the loop body hands to the code after the [if]/[else]: a result to
    write, or the [continue] of line 209. *)
Inductive step := Continue | Result (v : pyval).

(** ** The script *)

(** The longest sleep, in milliseconds, that fits 64 bits of
    nanoseconds. *)
Definition SLEEP_MAX : Z := 9223372036854.

(** What [time.sleep(d)] raises, if anything. *)
Definition sleep_error (d : Z) : option exn :=
  if (d <? 0)%Z then Some ValueError
  else if (SLEEP_MAX <? d)%Z then Some OverflowError
  else None.

Section Script.
Context {W : Type} `{World W}.
Variable config : Config.

Definition logging (l : level) (m : message) : M W unit := emit (Log l m).
Definition print (text : string) : M W unit := emit (Stdout text).

(** An external call: recorded, then answered by the world. *)
Definition call (e : event) (answer : W -> option exn * W) : M W unit :=
  fun s =>
    let (r, w) := answer (world s) in
    mkResult (match r with None => Ok tt | Some x => Raise x end)
             (set_world w s) [e].

Definition browser (c : browser_call) : M W unit := call (Browser c) (webdriver c).
Definition sheets (c : sheets_call) : M W unit := call (Sheets c) (sheets_api c).

(** [time.sleep(d)]: a negative argument is a [ValueError], and one that
    does not fit the 64-bit count of nanoseconds the interpreter keeps is
    an [OverflowError]. *)
Definition time_sleep (d : Z) : M W unit :=
  match sleep_error d with
  | Some e => raise e
  | None => modify (fun s => set_world (after_sleep d (world s)) s)
  end.

(** [time.sleep(random.uniform(lo, hi))] *)
Definition pause (range : Z * Z) : M W unit :=
  modify (fun s => set_world (after_pause range (world s)) s).

(** [driver.page_source]: the source of the page, or the exception of
    the command. *)
Definition read_page_source : M W string :=
  fun s =>
    match driver_page_source (world s) with
    | inr src => mkResult (Ok src) s []
    | inl e => mkResult (Raise e) s []
    end.

(** Lines 71-83. *)
Definition send_error_email (subject : string) (body : email_body) : M W unit :=
  if negb (ENABLE_EMAIL_NOTIFICATIONS config) then ret tt
  else
    logging INFO (MsgPreparingEmail (RECIPIENT_EMAIL config)) ;;
    try_except
      (call (SendMail subject body) (smtp subject body) ;;
       logging INFO MsgEmailSent)
      (fun e => Some (logging ERROR (MsgEmailFailed e))).

(** The prompt printed for the operator (lines 92-93). *)
Definition ACTION_REQUIRED : string :=
  "ACTION REQUIRED: Please solve the CAPTCHA in the browser.".

Definition CAPTCHA_SUBJECT : string := "PDP Checker Alert: CAPTCHA - Action Required".
Definition CRASH_SUBJECT : string := "PDP Checker Alert: SCRIPT CRASHED".

(** The [while] loop of lines 88-97; one unit of fuel per evaluation of
    its condition. *)
Fixpoint captcha_wait (fuel : nat) (start_time : Z) (keyword : string)
         (alert_sent : bool) : M W bool :=
  match fuel with
  | O => out_of_fuel
  | S fuel' =>
      now <- gets (fun s => time_time (world s)) ;;
      if (now - start_time <? CAPTCHA_WAIT_TIMEOUT config)%Z then
        clear <- (src1 <- read_page_source ;;
                  if negb (PyStr.contains "reCAPTCHA" src1) then
                    src2 <- read_page_source ;;
                    ret (negb (PyStr.contains "unusual traffic" src2))
                  else ret false) ;;
        if clear
        then logging INFO MsgCaptchaSolved ;; ret true
        else
          (if negb alert_sent then
             print ACTION_REQUIRED ;;
             send_error_email CAPTCHA_SUBJECT (CaptchaBody keyword)
           else ret tt) ;;
          time_sleep (CAPTCHA_CHECK_INTERVAL config) ;;
          print "." ;;
          captcha_wait fuel' start_time keyword true
      else
        logging ERROR (MsgCaptchaTimeout (CAPTCHA_WAIT_TIMEOUT config)) ;;
        ret false
  end.

(** Lines 85-98. *)
Definition handle_captcha (fuel : nat) (keyword : string) : M W bool :=
  start_time <- gets (fun s => time_time (world s)) ;;
  logging WARNING MsgCaptchaDetected ;;
  captcha_wait fuel start_time keyword false.

(** Lines 100-105. *)
Definition connect_to_google_sheets : M W unit :=
  logging INFO MsgConnecting ;;
  sheets Authorize ;;
  logging INFO MsgConnected.

(** Lines 107-116. *)
Definition get_webdriver : M W WebDriver :=
  logging INFO MsgInitWebDriver ;;
  browser InstallChromeDriver ;;
  browser LaunchChrome ;;
  browser (SetPageLoadTimeout 60) ;;
  ret ChromeSession.

(** [driver.quit()]: the Chromium driver swallows the exceptions of the
    remote call and stops its service. *)
Definition driver_quit : M W unit :=
  try_except (browser QuitDriver) (fun _ => Some (ret tt)).

(** Lines 118-121. *)
Fixpoint human_like_typing (selector : string) (text : string) : M W unit :=
  match text with
  | EmptyString => ret tt
  | String c rest =>
      browser (SendKeys selector (String c "")) ;;
      pause DELAY_TYPING ;;
      human_like_typing selector rest
  end.

(** Lines 123-129. *)
Definition find_and_type_in_search_box (text : string) : M W bool :=
  try_except
    (browser (WaitPresence SEARCH_INPUT_SELECTOR) ;;
     browser (Clear SEARCH_INPUT_SELECTOR) ;;
     human_like_typing SEARCH_INPUT_SELECTOR text ;;
     browser (SendReturn SEARCH_INPUT_SELECTOR) ;;
     ret true)
    (fun e =>
       match e with
       | TimeoutException => Some (logging ERROR MsgSearchBoxNotFound ;; ret false)
       | _ => None
       end).

(** Line 138: the test of a tracking-date header. *)
Definition is_date_header (cell_value : string) : bool :=
  Re.search_digit cell_value
  && (PyStr.contains_char "-"%char cell_value
      || PyStr.contains_char "/"%char cell_value).

(** Lines 135-139: the scan, [i] being the index given by [enumerate]. *)
Fixpoint scan_date_row (i : nat) (date_row_values : list string)
         (last_tracking_col_index : nat) : nat :=
  match date_row_values with
  | [] => last_tracking_col_index
  | cell_value :: rest =>
      scan_date_row (S i) rest
        (if is_date_header cell_value then i + 1 else last_tracking_col_index)
  end.

Definition last_tracking_col_index (date_row_values : list string) : nat :=
  scan_date_row 0 date_row_values 0.

Definition NO_DATE_HEADER : string :=
  "Could not find any date-like headers in row 2 to determine where to insert the new column.".

(** Lines 131-154. *)
Definition prepare_sheet_and_get_target_column : M W nat :=
  title <- gets (fun s => Sheet.title (sheet s)) ;;
  logging INFO (MsgPreparingSheet title) ;;
  try_except
    (sheets (RowValues DATE_HEADER_ROW) ;;
     date_row_values <- gets (fun s => Sheet.row_values (sheet s) DATE_HEADER_ROW) ;;
     let last := last_tracking_col_index date_row_values in
     if last =? 0 then raise (PyException NO_DATE_HEADER)
     else
       let new_col_index := last + 1 in
       logging INFO (MsgInserting last new_col_index) ;;
       sheets (InsertCols new_col_index) ;;
       modify (fun s => set_sheet (Sheet.insert_cols (sheet s) new_col_index) s) ;;
       logging INFO MsgInserted ;;
       today_date <- gets (fun s => Date.strftime_d_b_Y (datetime_now (world s))) ;;
       sheets (UpdateCell DATE_HEADER_ROW new_col_index today_date) ;;
       modify (fun s => set_sheet
         (Sheet.update_cell (sheet s) DATE_HEADER_ROW new_col_index today_date) s) ;;
       logging INFO (MsgWroteDate today_date DATE_HEADER_ROW new_col_index) ;;
       ret new_col_index)
    (fun e => Some (logging ERROR (MsgPrepareFailed e) ;; raise e)).

(** Lines 156-178.  Leaving the [try] block without a [return] makes the
    function return [None]. *)
Definition scrape_result_count : M W pyval :=
  try_except
    (browser (WaitClickable TOOLS_BUTTON_SELECTOR) ;;
     browser (Click TOOLS_BUTTON_SELECTOR) ;;
     logging INFO MsgClickedTools ;;
     time_sleep 1000 ;;
     browser (WaitVisible RESULT_STATS_SELECTOR) ;;
     browser (Text RESULT_STATS_SELECTOR) ;;
     stats_text <- gets (fun s => element_text RESULT_STATS_SELECTOR (world s)) ;;
     match Re.search_count stats_text with
     | Some group1 =>
         if PyStr.truthy group1 then ret (Some group1) else ret None
     | None => ret None
     end)
    (fun e =>
       match e with
       | TimeoutException | ElementClickInterceptedException =>
           Some (src <- read_page_source ;;
                 if PyStr.contains NO_RESULTS_TEXT src
                 then logging WARNING MsgNoResults ;; ret (Some "0")
                 else logging ERROR MsgScrapeFailed ;; ret (Some "Scrape Failed"))
       | _ =>
           Some (logging ERROR (MsgScrapeUnexpected e) ;; ret (Some "Scrape Failed"))
       end).

(** Line 193: [[item[0] for item in queries_data if item]]. *)
Fixpoint first_cells (queries_data : list (list string)) : list string :=
  match queries_data with
  | [] => []
  | [] :: rest => first_cells rest
  | (cell0 :: _) :: rest => cell0 :: first_cells rest
  end.

(** Lines 213-219: the check for a block page, then the scrape. *)
Definition detect_and_scrape (fuel : nat) (query : string) : M W pyval :=
  detected <- (src1 <- read_page_source ;;
               if PyStr.contains "unusual traffic" src1 then ret true
               else
                 src2 <- read_page_source ;;
                 ret (PyStr.contains "reCAPTCHA" src2)) ;;
  if detected then
    solved <- handle_captcha fuel query ;;
    if negb solved then ret (Some "CAPTCHA FAILED")
    else scrape_result_count
  else scrape_result_count.

(** Lines 202-219: the [if]/[else] of the loop body. *)
Definition run_query (fuel : nat) (current_row : nat) (query : string) : M W step :=
  if negb (PyStr.truthy (PyStr.strip query)) then
    logging WARNING (MsgSkippingEmpty current_row) ;;
    ret (Result (Some ""))
  else
    browser (Get "https://www.google.com") ;;
    pause (1000, 2000)%Z ;;
    found <- find_and_type_in_search_box query ;;
    if negb found then ret Continue
    else
      pause DELAY_AFTER_PAGE_LOAD ;;
      result_count <- detect_and_scrape fuel query ;;
      ret (Result result_count).

(** Lines 221-227: the result goes to the sheet at once. *)
Definition write_result (target_col current_row : nat) (result_count : pyval)
  : M W unit :=
  logging INFO (MsgScraped result_count) ;;
  sheets (UpdateCell current_row target_col (py_str result_count)) ;;
  modify (fun s => set_sheet
    (Sheet.update_cell (sheet s) current_row target_col (py_str result_count)) s) ;;
  logging INFO (MsgUpdated current_row target_col) ;;
  pause DELAY_BETWEEN_QUERIES.

(** Lines 199-227: one turn of the [for] loop. *)
Definition process_query (fuel : nat) (target_col n i : nat) (query : string)
  : M W unit :=
  let current_row := PDP_START_ROW + i in
  logging INFO (MsgProcessing (i + 1) n query current_row) ;;
  r <- run_query fuel current_row query ;;
  match r with
  | Continue => ret tt
  | Result result_count => write_result target_col current_row result_count
  end.

(** Line 198: [for i, query in enumerate(queries)], from index [i] on. *)
Fixpoint for_queries (fuel : nat) (target_col n i : nat) (queries : list string)
  : M W unit :=
  match queries with
  | [] => ret tt
  | query :: rest =>
      process_query fuel target_col n i query ;;
      for_queries fuel target_col n (S i) rest
  end.

(** Lines 184-227: the body of the [try] of [main]. *)
Definition main_body (fuel : nat) : M W unit :=
  connect_to_google_sheets ;;
  sheets (OpenByKey PDP_SPREADSHEET_ID) ;;
  sheets (SelectWorksheet PDP_SHEET_NAME) ;;
  target_col <- prepare_sheet_and_get_target_column ;;
  logging INFO (MsgFetching PDP_QUERIES_COLUMN PDP_START_ROW PDP_END_ROW) ;;
  sheets (GetRange PDP_QUERIES_COLUMN PDP_START_ROW PDP_END_ROW) ;;
  queries_data <- gets (fun s =>
    Sheet.get_column (sheet s) (Sheet.a1_column PDP_QUERIES_COLUMN)
                     PDP_START_ROW PDP_END_ROW) ;;
  let queries := first_cells queries_data in
  logging INFO (MsgFound (List.length queries)) ;;
  d <- get_webdriver ;;
  modify (set_driver (Some d)) ;;
  for_queries fuel target_col (List.length queries) 0 queries.

(** Lines 229-232: the [except Exception as e] block of [main]. *)
Definition report_crash (e : exn) : M W unit :=
  logging CRITICAL (MsgCritical e) ;;
  send_error_email CRASH_SUBJECT (CrashBody e).

(** Lines 234-237: the [finally] block of [main]. *)
Definition cleanup : M W unit :=
  d <- gets driver ;;
  (match d with
   | Some _ => logging INFO MsgClosingWebDriver ;; driver_quit
   | None => ret tt
   end) ;;
  logging INFO MsgFinished.

(** Lines 180-237. *)
Definition main (fuel : nat) : M W unit :=
  logging INFO MsgStart ;;
  modify (set_driver None) ;;
  try_finally
    (try_except (main_body fuel) (fun e => Some (report_crash e)))
    cleanup.

End Script.

(** ** Reading a trace *)

(** The cells written by [update_cell], in order. *)
Definition cells_written (tr : list event) : list (nat * nat * string) :=
  flat_map (fun e =>
    match e with Sheets (UpdateCell r c v) => [(r, c, v)] | _ => [] end) tr.

Definition is_browser (e : event) : bool :=
  match e with Browser _ => true | _ => false end.

(** The error line of [find_and_type_in_search_box]. *)
Definition is_search_failure (e : event) : bool :=
  match e with Log ERROR MsgSearchBoxNotFound => true | _ => false end.

Definition is_critical (e : event) : bool :=
  match e with Log CRITICAL _ => true | _ => false end.

Definition is_captcha_mail (e : event) : bool :=
  match e with SendMail _ (CaptchaBody _) => true | _ => false end.

Definition is_crash_mail (e : event) : bool :=
  match e with SendMail _ (CrashBody _) => true | _ => false end.

Definition is_sheets (e : event) : bool :=
  match e with Sheets _ => true | _ => false end.

Definition is_quit (e : event) : bool :=
  match e with Browser QuitDriver => true | _ => false end.

Definition count (p : event -> bool) (tr : list event) : nat :=
  List.length (filter p tr).

(** Events of the [try] body of [main]: no critical line, no crash mail,
    no release of the browser. *)
Definition body_event (e : event) : bool :=
  negb (is_critical e) && negb (is_crash_mail e) && negb (is_quit e).

Definition not_sheets (e : event) : bool := negb (is_sheets e).
Definition not_search_failure (e : event) : bool := negb (is_search_failure e).
Definition not_browser (e : event) : bool := negb (is_browser e).

(** ** What the specification calls things *)

(** The character [c] occurs in [v]. *)
Definition char_in (c : ascii) (v : string) : Prop :=
  exists pre post, v = (pre ++ String c post)%string.

(** A cell value is date-like when it contains at least one digit and a
    dash or a slash. *)
Definition date_like (v : string) : Prop :=
  (exists c, PyStr.is_digit c = true /\ char_in c v)
  /\ (char_in "-"%char v \/ char_in "/"%char v).

(** [k] is the 1-based index of the rightmost cell of [cells] that is a
    tracking-date header. *)
Definition rightmost_date_header (cells : list string) (k : nat) : Prop :=
  1 <= k
  /\ (exists v, nth_error cells (k - 1) = Some v /\ is_date_header v = true)
  /\ (forall j v, k <= j -> nth_error cells j = Some v -> is_date_header v = false).

Definition no_date_header (cells : list string) : Prop :=
  forall v, In v cells -> is_date_header v = false.

(** [tok] is a token of digits and commas that sits in [text] right after
    [pre] and right before a blank and the word "result" in any letter
    case. *)
Definition count_before_result (text pre tok : string) : Prop :=
  exists word post,
    text = (pre ++ tok ++ " " ++ word ++ post)%string
    /\ tok <> ""
    /\ PyStr.forallb Re.is_count_char tok = true
    /\ PyStr.lower word = "result".

(** [tok] is the first such token of [text]. *)
Definition first_count_before_result (text tok : string) : Prop :=
  exists pre,
    count_before_result text pre tok
    /\ forall pre' tok', count_before_result text pre' tok' ->
         String.length pre <= String.length pre'.

(** The block markers of the CAPTCHA page (lines 89 and 213). *)
Definition blocked (src : string) : bool :=
  PyStr.contains "reCAPTCHA" src || PyStr.contains "unusual traffic" src.

Section Polls.
Context {W : Type} `{World W}.
Variable config : Config.

(** The world one turn of the waiting loop later, when the poll found the
    block markers: the alert of the first turn, then the sleep. *)
Definition after_blocked_poll (first : bool) (keyword : string) (w : W) : W :=
  after_sleep (CAPTCHA_CHECK_INTERVAL config)
    (if first && ENABLE_EMAIL_NOTIFICATIONS config
     then snd (smtp CAPTCHA_SUBJECT (CaptchaBody keyword) w)
     else w).

(** The world at poll number [k] (from 0), all earlier polls having found
    the markers; [first] says that the alert is still to be sent. *)
Fixpoint poll_world (first : bool) (k : nat) (keyword : string) (w : W) : W :=
  match k with
  | O => w
  | S k' => poll_world false k' keyword (after_blocked_poll first keyword w)
  end.

(** Fuel for the waiting loop when each of its turns takes at least
    [tick] on the clock. *)
Definition fuel_for (tick : Z) : nat :=
  Z.to_nat (CAPTCHA_WAIT_TIMEOUT config / tick) + 2.

(** The waiting loops of a run come to an end within the fuel: the sleep
    of a turn raises, or every turn that finds the markers takes at least
    some positive time [tick], and the fuel covers the timeout at that
    pace. *)
Definition fuel_suffices (fuel : nat) : Prop :=
  1 <= fuel
  /\ (sleep_error (CAPTCHA_CHECK_INTERVAL config) <> None
      \/ exists tick,
           (0 < tick)%Z /\ fuel_for tick <= fuel
           /\ forall first keyword w,
                (time_time w + tick
                 <= time_time (after_blocked_poll first keyword w))%Z).

End Polls.

(** ** A scripted world, to run the model

    The page shown depends on how many navigations were made and on the
    clock; the answers of the browser depend on the navigation count. *)

Module Sim.

Record t := mk {
  clock : Z;
  navs : nat;
  today : Date.datetime;
  page : nat -> Z -> string;
  stats : nat -> string;
  browser_answer : nat -> browser_call -> option exn;
  sheets_answer : sheets_call -> option exn;
  smtp_answer : option exn;
  page_error : nat -> Z -> option exn    (* the page source cannot be read *)
}.

Definition tick (d : Z) (w : t) : t :=
  mk (clock w + d) (navs w) (today w) (page w) (stats w)
     (browser_answer w) (sheets_answer w) (smtp_answer w)
     (page_error w).

Definition navigate (w : t) : t :=
  mk (clock w) (S (navs w)) (today w) (page w) (stats w)
     (browser_answer w) (sheets_answer w) (smtp_answer w)
     (page_error w).

Definition read_page (w : t) : exn + string :=
  match page_error w (navs w) (clock w) with
  | Some e => inl e
  | None => inr (page w (navs w) (clock w))
  end.

Definition do_browser (c : browser_call) (w : t) : option exn * t :=
  let w' := match c with Get _ => navigate w | _ => w end in
  (browser_answer w' (navs w') c, w').

#[global] Instance sim_world : World t := {|
  time_time := clock;
  datetime_now := today;
  after_sleep := tick;
  after_pause := fun range => tick (fst range);
  driver_page_source := read_page;
  element_text := fun _ w => stats w (navs w);
  webdriver := do_browser;
  sheets_api := fun c w => (sheets_answer w c, w);
  smtp := fun _ _ w => (smtp_answer w, w)
|}.

(** A world in which every call succeeds, showing [src] as page source
    and [text] as result statistics. *)
Definition calm (src : nat -> Z -> string) (text : nat -> string) : t :=
  mk 0 0 {| Date.day := 25; Date.month := 5; Date.year := 2024 |}
     src text (fun _ _ => None) (fun _ => None) None (fun _ _ => None).

Definition with_browser (f : nat -> browser_call -> option exn) (w : t) : t :=
  mk (clock w) (navs w) (today w) (page w) (stats w) f
     (sheets_answer w) (smtp_answer w) (page_error w).

Definition with_sheets (f : sheets_call -> option exn) (w : t) : t :=
  mk (clock w) (navs w) (today w) (page w) (stats w) (browser_answer w)
     f (smtp_answer w) (page_error w).

Definition with_page_error (f : nat -> Z -> option exn) (w : t) : t :=
  mk (clock w) (navs w) (today w) (page w) (stats w) (browser_answer w)
     (sheets_answer w) (smtp_answer w) f.

(** The worksheet of the examples: dated columns E and F, queries in
    column D from row 4 on. *)
Definition worksheet (queries : list string) : Sheet.Worksheet :=
  {| Sheet.title := PDP_SHEET_NAME;
     Sheet.grid :=
       [ ["PDP tracker"];
         [""; ""; ""; "Query"; "01-Jan-24"; "15-Jan-24"];
         [] ]
       ++ map (fun q => [""; ""; ""; q; "10"; "12"]) queries |}.

Definition start (w : t) (queries : list string) : Run t :=
  mkRun w (worksheet queries) None.

Definition config (email : bool) (timeout interval : Z) : Config :=
  {| ENABLE_EMAIL_NOTIFICATIONS := email;
     RECIPIENT_EMAIL := ["ops@example.org"];
     CAPTCHA_WAIT_TIMEOUT := timeout;
     CAPTCHA_CHECK_INTERVAL := interval |}.

End Sim.

(** The scripted world on a machine where every sleep takes a millisecond
    more than asked for. *)
Module Busy.

Record t := mk { sim : Sim.t }.

Definition lift {A} (r : A * Sim.t) : A * t := (fst r, mk (snd r)).

#[global] Instance busy_world : World t := {|
  time_time := fun w => Sim.clock (sim w);
  datetime_now := fun w => Sim.today (sim w);
  after_sleep := fun d w => mk (Sim.tick (d + 1) (sim w));
  after_pause := fun range w => mk (Sim.tick (fst range) (sim w));
  driver_page_source := fun w => Sim.read_page (sim w);
  element_text := fun _ w => Sim.stats (sim w) (Sim.navs (sim w));
  webdriver := fun c w => lift (Sim.do_browser c (sim w));
  sheets_api := fun c w => (Sim.sheets_answer (sim w) c, w);
  smtp := fun _ _ w => (Sim.smtp_answer (sim w), w)
|}.

Definition start (w : Sim.t) (queries : list string) : Run t :=
  mkRun (mk w) (Sim.worksheet queries) None.

End Busy.

(** ** Relations between the state before a computation, the state after it
    and the events it emitted *)

Definition step_rel (W : Type) : Type := Run W -> Run W -> list event -> Prop.

(** Relations that hold of doing nothing and of doing one thing after
    another. *)
Class Composable {W : Type} (R : step_rel W) : Prop := {
  rel_refl : forall s, R s s [];
  rel_trans : forall s1 s2 s3 o1 o2,
    R s1 s2 o1 -> R s2 s3 o2 -> R s1 s3 (o1 ++ o2)
}.

Definition respects {W A : Type} (R : step_rel W) (m : M W A) : Prop :=
  forall s, R s (st (m s)) (out (m s)).

(** Every event emitted passes the test [p]. *)
Definition events_in {W : Type} (p : event -> bool) : step_rel W :=
  fun _ _ o => forallb p o = true.

(** The component [f] of the state is left as it was. *)
Definition same {W B : Type} (f : Run W -> B) : step_rel W :=
  fun s s' _ => f s' = f s.

(** No cell other than [(r0, c0)] changes. *)
Definition cell_frame {W : Type} (r0 c0 : nat) : step_rel W :=
  fun s s' _ =>
    forall r c, 1 <= r -> 1 <= c -> r <> r0 \/ c <> c0 ->
      Sheet.cell (sheet s') r c = Sheet.cell (sheet s) r c.

Definition terminates {W A : Type} (m : M W A) : Prop :=
  forall s, res (m s) <> OutOfFuel.


(** The four events of a turn whose search box was not found. *)
Definition search_failure_trace (n i : nat) (query : string) : list event :=
  [ Log INFO (MsgProcessing (i + 1) n query (PDP_START_ROW + i));
    Browser (Get "https://www.google.com");
    Browser (WaitPresence SEARCH_INPUT_SELECTOR);
    Log ERROR MsgSearchBoxNotFound ].

(** A browser whose search box never shows up. *)
Definition no_search_box (k : nat) (c : browser_call) : option exn :=
  match c with WaitPresence _ => Some TimeoutException | _ => None end.


(** The events of a preparation that went through: [last] is the index of
    the last tracking column, [today] the stamp. *)
Definition prepare_trace (title : string) (last : nat) (today : string) : list event :=
  [ Log INFO (MsgPreparingSheet title);
    Sheets (RowValues DATE_HEADER_ROW);
    Log INFO (MsgInserting last (last + 1));
    Sheets (InsertCols (last + 1));
    Log INFO MsgInserted;
    Sheets (UpdateCell DATE_HEADER_ROW (last + 1) today);
    Log INFO (MsgWroteDate today DATE_HEADER_ROW (last + 1)) ].

(** The events of a preparation that failed before it changed anything. *)
Definition prepare_failure_trace (title : string) (e : exn) : list event :=
  [ Log INFO (MsgPreparingSheet title);
    Sheets (RowValues DATE_HEADER_ROW);
    Log ERROR (MsgPrepareFailed e) ].

(** Nothing reaches the browser, and the sheet and the variable [driver]
    stay as they are. *)
Definition quiet {W : Type} : step_rel W :=
  fun s s' o =>
    forallb not_browser o = true /\ sheet s' = sheet s /\ driver s' = driver s.

(** A run that ends in an exception, quietly. *)
Definition aborts {W A : Type} (s : Run W) (r : result W A) : Prop :=
  (exists e, res r = Raise e) /\ quiet s (st r) (out r).


(** The events of [send_error_email], [answer] being what the SMTP session
    did. *)
Definition email_trace (config : Config) (subject : string) (body : email_body)
    (answer : option exn) : list event :=
  if ENABLE_EMAIL_NOTIFICATIONS config then
    [ Log INFO (MsgPreparingEmail (RECIPIENT_EMAIL config));
      SendMail subject body;
      match answer with
      | None => Log INFO MsgEmailSent
      | Some x => Log ERROR (MsgEmailFailed x)
      end ]
  else [].

(** The events of the [finally] block. *)
Definition cleanup_trace (d : option WebDriver) : list event :=
  match d with
  | Some _ => [Log INFO MsgClosingWebDriver; Browser QuitDriver; Log INFO MsgFinished]
  | None => [Log INFO MsgFinished]
  end.


(** The values of the date row, as the preparation reads them. *)
Definition header_row {W : Type} (s : Run W) : list string :=
  Sheet.row_values (sheet s) DATE_HEADER_ROW.

(** A sheet without any dated column. *)
Definition undated_sheet : Sheet.Worksheet :=
  {| Sheet.title := PDP_SHEET_NAME;
     Sheet.grid := [ ["PDP tracker"]; [""; ""; ""; "Query"; "Notes"]; [];
                     [""; ""; ""; "alpha"] ] |}.


(** The events of a scrape whose four waits and clicks went through. *)
Definition scrape_trace : list event :=
  [ Browser (WaitClickable TOOLS_BUTTON_SELECTOR);
    Browser (Click TOOLS_BUTTON_SELECTOR);
    Log INFO MsgClickedTools;
    Browser (WaitVisible RESULT_STATS_SELECTOR);
    Browser (Text RESULT_STATS_SELECTOR) ].


(** One cell per query, in the order of the queries: the cell of the query
    at index [i] is in row [PDP_START_ROW + i] of the target column, and
    holds the empty string when the query is blank. *)
Fixpoint written_in_order (i col : nat) (queries : list string)
         (cells : list (nat * nat * string)) : Prop :=
  match queries, cells with
  | [], [] => True
  | query :: queries', (r, c, v) :: cells' =>
      r = PDP_START_ROW + i /\ c = col
      /\ (PyStr.forallb PyStr.is_space query = true -> v = "")
      /\ written_in_order (S i) col queries' cells'
  | _, _ => False
  end.

(** A browser whose search box does not show up after the second
    navigation. *)
Definition second_search_fails (k : nat) (c : browser_call) : option exn :=
  if k =? 2 then no_search_box k c else None.

(** The [try] block of [find_and_type_in_search_box] (lines 125-127). *)
(** Lines 206-211: the navigation and the search, up to the check for a
    block page; [true] when the search was submitted. *)
Definition search_for {W : Type} `{World W} (query : string) : M W bool :=
  browser (Get "https://www.google.com") ;;
  pause (1000, 2000)%Z ;;
  found <- find_and_type_in_search_box query ;;
  if negb found then ret false
  else pause DELAY_AFTER_PAGE_LOAD ;; ret true.

Definition typing_block {W : Type} `{World W} (text : string) : M W bool :=
  browser (WaitPresence SEARCH_INPUT_SELECTOR) ;;
  browser (Clear SEARCH_INPUT_SELECTOR) ;;
  human_like_typing SEARCH_INPUT_SELECTOR text ;;
  browser (SendReturn SEARCH_INPUT_SELECTOR) ;;
  ret true.


Section Alert.
Context {W : Type} `{World W}.
Variable config : Config.

(** The events of the alert of the waiting loop (lines 91-96). *)
Definition alert_trace (alert_sent : bool) (keyword : string)
    (answer : option exn) : list event :=
  if alert_sent then []
  else Stdout ACTION_REQUIRED
       :: email_trace config CAPTCHA_SUBJECT (CaptchaBody keyword) answer.

(** The state after the alert. *)
Definition after_alert (alert_sent : bool) (keyword : string) (s : Run W) : Run W :=
  if negb alert_sent && ENABLE_EMAIL_NOTIFICATIONS config
  then set_world (snd (smtp CAPTCHA_SUBJECT (CaptchaBody keyword) (world s))) s
  else s.

End Alert.

(** A page that shows the CAPTCHA until the clock reaches [solved_at]. *)
Definition captcha_until (solved_at : Z) (k : nat) (t : Z) : string :=
  if (t <? solved_at)%Z
  then "<html>Our systems have detected unusual traffic (reCAPTCHA)</html>"
  else "<html>results</html>".


(** A Sheets API that refuses the writes to row 4. *)
Definition refuse_row_4 (c : sheets_call) : option exn :=
  match c with
  | UpdateCell 4 _ _ => Some (LibraryError "APIError")
  | _ => None
  end.

(** Any email. *)
Definition is_mail (e : event) : bool :=
  match e with SendMail _ _ => true | _ => false end.

Definition not_mail (e : event) : bool := negb (is_mail e).


(** The characters sent to an element by the [send_keys] calls of a trace,
    in order. *)
Fixpoint keys_sent (tr : list event) : string :=
  match tr with
  | [] => ""
  | Browser (SendKeys _ keys) :: tr' => (keys ++ keys_sent tr')%string
  | _ :: tr' => keys_sent tr'
  end.

Definition is_send_keys (e : event) : bool :=
  match e with Browser (SendKeys _ _) => true | _ => false end.

(** A browser that times out when the search box is cleared. *)
Definition clear_times_out (k : nat) (c : browser_call) : option exn :=
  match c with Clear _ => Some TimeoutException | _ => None end.


(** A world whose SMTP server refuses the session. *)
Definition smtp_down (w : Sim.t) : Sim.t :=
  Sim.mk (Sim.clock w) (Sim.navs w) (Sim.today w) (Sim.page w) (Sim.stats w)
         (Sim.browser_answer w) (Sim.sheets_answer w)
         (Some (LibraryError "SMTPException"))
         (Sim.page_error w).

(** A page that never stops showing the CAPTCHA. *)
Definition captcha_page (k : nat) (t : Z) : string :=
  "<html>Our systems have detected unusual traffic (reCAPTCHA)</html>".


(** The [try] block of [scrape_result_count] (lines 159-170). *)
Definition scrape_block {W : Type} `{World W} : M W pyval :=
  browser (WaitClickable TOOLS_BUTTON_SELECTOR) ;;
  browser (Click TOOLS_BUTTON_SELECTOR) ;;
  logging INFO MsgClickedTools ;;
  time_sleep 1000 ;;
  browser (WaitVisible RESULT_STATS_SELECTOR) ;;
  browser (Text RESULT_STATS_SELECTOR) ;;
  stats_text <- gets (fun s => element_text RESULT_STATS_SELECTOR (world s)) ;;
  match Re.search_count stats_text with
  | Some group1 =>
      if PyStr.truthy group1 then ret (Some group1) else ret None
  | None => ret None
  end.

(** The exceptions of the first [except] clause of the scrape (line 172). *)
Definition is_scrape_timeout (e : exn) : bool :=
  match e with
  | TimeoutException | ElementClickInterceptedException => true
  | _ => false
  end.

(** What the scrape can return: nothing, one of its two sentinels, or a
    run of digits and commas. *)
Definition scrape_value (v : pyval) : Prop :=
  v = None \/ v = Some "0" \/ v = Some "Scrape Failed"
  \/ exists tok, v = Some tok /\ tok <> ""
                 /\ PyStr.forallb Re.is_count_char tok = true.

(** What a turn of the loop can write into its cell. *)
Definition cell_value (v : string) : Prop :=
  v = "" \/ v = "CAPTCHA FAILED" \/ v = "0" \/ v = "Scrape Failed" \/ v = "None"
  \/ (v <> "" /\ PyStr.forallb Re.is_count_char v = true).

(** Cells of column [col] in rows that increase strictly within
    [lo <= r < hi], each holding a value of the loop. *)
Fixpoint loop_writes (col lo hi : nat) (cells : list (nat * nat * string)) : Prop :=
  match cells with
  | [] => True
  | (r, c, v) :: rest =>
      c = col /\ lo <= r < hi /\ cell_value v /\ loop_writes col (S r) hi rest
  end.

(** A browser that refuses the click on "Tools". *)
Definition click_intercepted (k : nat) (c : browser_call) : option exn :=
  match c with
  | Click _ => Some ElementClickInterceptedException
  | _ => None
  end.

(** A browser whose session is lost when "Tools" is clicked. *)
Definition click_crashes (k : nat) (c : browser_call) : option exn :=
  match c with
  | Click _ => Some (LibraryError "WebDriverException")
  | _ => None
  end.

(** A page without results. *)
Definition no_results_page (k : nat) (t : Z) : string :=
  "<html>No results found for alpha</html>".


(** Events other than a write of a cell. *)
Definition not_update (e : event) : bool :=
  match e with Sheets (UpdateCell _ _ _) => false | _ => true end.

(** The cells a whole run sends to the sheet: none, or the stamp in the
    date row of the column right of the last dated one, followed by the
    cells of the loop in that column, within the rows of the queries. *)
Definition run_writes (k : nat) (cells : list (nat * nat * string)) : Prop :=
  cells = []
  \/ exists t rest,
       cells = (DATE_HEADER_ROW, k + 1, Date.strftime_d_b_Y t) :: rest
       /\ k <> 0
       /\ loop_writes (k + 1) PDP_START_ROW (PDP_END_ROW + 1) rest.

(** A sheet whose only dated column, C, is left of the queries in D. *)
Definition dates_left_sheet : Sheet.Worksheet :=
  {| Sheet.title := PDP_SHEET_NAME;
     Sheet.grid :=
       [ ["PDP tracker"];
         [""; ""; "01-Jan-24"; "Query"];
         [];
         [""; ""; "10"; "alpha"];
         [""; ""; "12"; "beta"] ] |}.


(** A navigation, [driver.get(url)]. *)
Definition is_navigation (e : event) : bool :=
  match e with Browser (Get _) => true | _ => false end.

Definition not_navigation (e : event) : bool := negb (is_navigation e).

(** The test of line 202, negated: the query has a character that is not
    white space. *)
Definition has_text (query : string) : bool := PyStr.truthy (PyStr.strip query).

(** The error line of a failed preparation (line 154). *)
Definition is_prepare_failure (e : event) : bool :=
  match e with Log ERROR (MsgPrepareFailed _) => true | _ => false end.

(** A Sheets API that refuses the write of the stamp. *)
Definition refuse_stamp (c : sheets_call) : option exn :=
  match c with
  | UpdateCell 2 _ _ => Some (LibraryError "APIError")
  | _ => None
  end.


(** The dot printed after each sleep of the waiting loop (line 97). *)
Definition is_dot (e : event) : bool :=
  match e with Stdout text => (text =? ".")%string | _ => false end.

(** A driver that cannot read the page source from time [t0] on. *)
Definition session_lost_at (t0 : Z) (k : nat) (t : Z) : option exn :=
  if (t0 <=? t)%Z then Some (LibraryError "WebDriverException") else None.

(** * Properties *)

(** ** Strings *)

Module StringFacts.
Import PyStr.

(** Two splits of a text at the same offset are the same split. *)
Lemma append_same_length (a b a' b' : string) :
  (a ++ b)%string = (a' ++ b')%string ->
  String.length a = String.length a' ->
  a = a' /\ b = b'.
Proof.
  revert a'. induction a as [|x a IH]; intros [|x' a'] E L; simpl in *;
    try discriminate.
  - now split.
  - injection E as -> E. injection L as L.
    destruct (IH _ E L) as [-> ->]. now split.
Qed.

Lemma lstrip_all_space (s : string) :
  forallb is_space s = true -> lstrip s = "".
Proof.
  induction s as [|c s IH]; simpl; [reflexivity|].
  intros [Hc Hs]%andb_true_iff. rewrite Hc. auto.
Qed.

Lemma rstrip_empty_all_space (s : string) :
  rstrip s = "" -> forallb is_space s = true.
Proof.
  induction s as [|c s IH]; simpl; [reflexivity|].
  destruct (is_space c); simpl; [|discriminate].
  destruct (rstrip s); simpl; [auto | discriminate].
Qed.

Lemma lstrip_head (s : string) :
  match lstrip s with
  | EmptyString => forallb is_space s = true
  | String c _ => is_space c = false
  end.
Proof.
  induction s as [|c s IH]; simpl; [reflexivity|].
  destruct (is_space c) eqn:E; simpl; assumption.
Qed.

(** [not s.strip()] holds exactly for the texts made of whitespace. *)
Lemma strip_empty_iff (s : string) :
  strip s = "" <-> forallb is_space s = true.
Proof.
  unfold strip. split.
  - intros E. pose proof (lstrip_head s) as Hh.
    destruct (lstrip s) as [|c r]; [assumption|].
    apply rstrip_empty_all_space in E. simpl in E.
    rewrite Hh in E. discriminate.
  - intros Hs. now rewrite (lstrip_all_space _ Hs).
Qed.

Lemma truthy_strip_blank (s : string) :
  forallb is_space s = true -> truthy (strip s) = false.
Proof.
  intros Hs. apply strip_empty_iff in Hs. unfold truthy. now rewrite Hs.
Qed.

(** Case folding moves no character onto the blank. *)
Lemma lower_ascii_space (b : ascii) :
  lower_ascii b = " "%char -> b = " "%char.
Proof.
  destruct b as [[] [] [] [] [] [] [] []]; vm_compute; intros E;
    first [reflexivity | discriminate E].
Qed.

End StringFacts.

(** ** The result-count pattern *)

Module ReFacts.
Import PyStr Re StringFacts.

Lemma istarts_with_split (lit s : string) :
  istarts_with lit s = true ->
  exists word post, s = (word ++ post)%string /\ lower word = lower lit.
Proof.
  revert s. induction lit as [|a lit IH]; intros s Hs.
  - exists "", s. now split.
  - destruct s as [|b s]; simpl in Hs; [discriminate|].
    apply andb_true_iff in Hs as [Hab Hs].
    apply Ascii.eqb_eq in Hab.
    destruct (IH _ Hs) as (word & post & -> & Hw).
    exists (String b word), post. simpl. now rewrite Hw, Hab.
Qed.

Lemma istarts_with_append (lit word post : string) :
  lower word = lower lit -> istarts_with lit (word ++ post) = true.
Proof.
  revert word. induction lit as [|a lit IH]; intros word Hw.
  - reflexivity.
  - destruct word as [|b word]; simpl in Hw; [discriminate|].
    injection Hw as Hb Hw. simpl.
    rewrite Hb, Ascii.eqb_refl. simpl. now apply IH.
Qed.

Lemma istarts_with_cons (a b : ascii) (lit s : string) :
  istarts_with (String a lit) (String b s)
  = Ascii.eqb (lower_ascii a) (lower_ascii b) && istarts_with lit s.
Proof. reflexivity. Qed.

(** What follows the token: a blank, then "result" in any letter case. *)
Lemma starts_with_result_iff (rest : string) :
  istarts_with " result" rest = true <->
  exists word post, rest = (" " ++ word ++ post)%string /\ lower word = "result".
Proof.
  split.
  - intros Hr. destruct rest as [|b rest]; [discriminate|].
    rewrite istarts_with_cons in Hr. apply andb_true_iff in Hr as [Hb Hr].
    apply Ascii.eqb_eq in Hb.
    change (lower_ascii " ") with " "%char in Hb. symmetry in Hb.
    apply lower_ascii_space in Hb. subst b.
    destruct (istarts_with_split "result" rest Hr) as (word & post & -> & Hw).
    now exists word, post.
  - intros (word & post & -> & Hw).
    change (" " ++ word ++ post)%string with (String " " (word ++ post)).
    rewrite istarts_with_cons, Ascii.eqb_refl.
    now apply istarts_with_append.
Qed.

Lemma blank_not_count_char (rest : string) :
  istarts_with " result" rest = true -> match_here rest = None.
Proof.
  intros Hr. apply starts_with_result_iff in Hr as (word & post & -> & _).
  reflexivity.
Qed.

(** The anchored match: group 1 is a non-empty run of class characters
    followed by the literal. *)
Lemma match_here_sound (s g : string) :
  match_here s = Some g ->
  g <> "" /\ forallb is_count_char g = true
  /\ exists rest, s = (g ++ rest)%string /\ istarts_with " result" rest = true.
Proof.
  revert g. induction s as [|c s IH]; intros g Hm; cbn [match_here] in Hm;
    [discriminate|].
  destruct (is_count_char c) eqn:Hc; [|discriminate].
  destruct (match_here s) as [g'|] eqn:Hs.
  - injection Hm as <-. destruct (IH _ eq_refl) as (_ & Hall & rest & -> & Hr).
    repeat split; [discriminate | simpl; now rewrite Hc | ].
    now exists rest.
  - destruct (istarts_with " result" s) eqn:Hr; [|discriminate].
    injection Hm as <-.
    repeat split; [discriminate | simpl; now rewrite Hc | ].
    now exists s.
Qed.

Lemma match_here_complete (g rest : string) :
  g <> "" -> forallb is_count_char g = true ->
  istarts_with " result" rest = true ->
  match_here (g ++ rest) = Some g.
Proof.
  intros Hg Hall Hr. induction g as [|c g IH]; [congruence|].
  simpl in Hall. apply andb_true_iff in Hall as [Hc Hall].
  cbn [append match_here]. rewrite Hc. destruct g as [|c' g].
  - cbn [append]. rewrite (blank_not_count_char _ Hr), Hr. reflexivity.
  - rewrite IH; [reflexivity | discriminate | assumption].
Qed.

(** The search stops at the leftmost offset at which the anchored match
    succeeds. *)
Lemma search_count_some (s g : string) :
  search_count s = Some g <->
  exists pre rest,
    s = (pre ++ rest)%string /\ match_here rest = Some g
    /\ forall pre' rest', s = (pre' ++ rest')%string ->
         String.length pre' < String.length pre -> match_here rest' = None.
Proof.
  revert g. induction s as [|c s IH]; intros g.
  - simpl. split; [discriminate|].
    intros (pre & rest & E & Hm & _).
    destruct pre; [|discriminate]. simpl in E. subst rest. discriminate.
  - cbn [search_count]. destruct (match_here (String c s)) as [g0|] eqn:Hm.
    + split.
      * intros [= <-]. exists "", (String c s). repeat split; [assumption|].
        intros pre' rest' _ Hlt. simpl in Hlt. lia.
      * intros (pre & rest & E & Hg & Hmin).
        destruct pre as [|x pre].
        -- simpl in E. subst rest. congruence.
        -- assert (Hn : match_here (String c s) = None).
           { apply (Hmin "" (String c s)); [reflexivity | simpl; lia]. }
           congruence.
    + rewrite IH. split.
      * intros (pre & rest & -> & Hg & Hmin).
        exists (String c pre), rest. repeat split; [assumption|].
        intros [|x pre'] rest' E Hlt; simpl in E.
        -- now subst rest'.
        -- injection E as -> E. apply (Hmin pre' rest' E). simpl in Hlt. lia.
      * intros (pre & rest & E & Hg & Hmin).
        destruct pre as [|x pre]; simpl in E.
        -- subst rest. congruence.
        -- injection E as <- ->. exists pre, rest. repeat split; [assumption|].
           intros pre' rest' E' Hlt.
           apply (Hmin (String c pre') rest'); simpl; [now rewrite E' | lia].
Qed.

Lemma search_count_none (s : string) :
  search_count s = None ->
  forall pre rest, s = (pre ++ rest)%string -> match_here rest = None.
Proof.
  induction s as [|c s IH]; intros Hs pre rest E.
  - destruct pre; [|discriminate]. simpl in E. now subst rest.
  - cbn [search_count] in Hs.
    destruct (match_here (String c s)) eqn:Hm; [discriminate|].
    destruct pre as [|x pre]; simpl in E.
    + now subst rest.
    + injection E as _ E. now apply (IH Hs pre rest).
Qed.

Lemma count_before_result_match (text pre tok : string) :
  count_before_result text pre tok <->
  exists rest, text = (pre ++ rest)%string /\ match_here rest = Some tok.
Proof.
  split.
  - intros (word & post & -> & Hne & Hall & Hw).
    exists (tok ++ " " ++ word ++ post)%string. split; [reflexivity|].
    apply match_here_complete; try assumption.
    apply starts_with_result_iff. now exists word, post.
  - intros (rest & -> & Hm).
    apply match_here_sound in Hm as (Hne & Hall & rest' & -> & Hr).
    apply starts_with_result_iff in Hr as (word & post & -> & Hw).
    exists word, post. now repeat split.
Qed.

(** The search returns the first token of digits and commas that stands
    right before " result". *)
Lemma search_count_first (text tok : string) :
  search_count text = Some tok <-> first_count_before_result text tok.
Proof.
  split.
  - intros Hs. apply search_count_some in Hs as (pre & rest & E & Hm & Hmin).
    exists pre. split.
    + apply count_before_result_match. now exists rest.
    + intros pre' tok' H'.
      apply count_before_result_match in H' as (rest' & E' & Hm').
      destruct (Nat.le_gt_cases (String.length pre) (String.length pre'))
        as [Hle|Hlt]; [assumption|].
      rewrite (Hmin pre' rest' E' Hlt) in Hm'. discriminate.
  - intros (pre & Hc & Hfirst).
    apply count_before_result_match in Hc as (rest & E & Hm).
    destruct (search_count text) as [g|] eqn:Hs.
    + apply search_count_some in Hs as (pre0 & rest0 & E0 & Hm0 & Hmin0).
      assert (Hle : String.length pre <= String.length pre0).
      { apply (Hfirst pre0 g). apply count_before_result_match. now exists rest0. }
      assert (Hge : String.length pre0 <= String.length pre).
      { destruct (Nat.le_gt_cases (String.length pre0) (String.length pre))
          as [?|Hlt]; [assumption|].
        rewrite (Hmin0 pre rest E Hlt) in Hm. discriminate. }
      rewrite E in E0.
      destruct (append_same_length _ _ _ _ E0) as [_ <-]; [lia|].
      congruence.
    + rewrite (search_count_none _ Hs pre rest E) in Hm. discriminate.
Qed.

(** Group 1 of a match is never empty, so the test [match.group(1)] of
    line 169 never fails. *)
Lemma search_count_truthy (text tok : string) :
  search_count text = Some tok -> truthy tok = true.
Proof.
  intros Hs. apply search_count_first in Hs as (pre & (w & p & _ & Hne & _) & _).
  unfold truthy. destruct tok; [congruence | reflexivity].
Qed.

End ReFacts.

(** ** The grid *)

Module SheetFacts.
Import Sheet.

Lemma nth_set_nth {A} (k n : nat) (x d : A) (l : list A) :
  nth k (set_nth n x d l) d = if k =? n then x else nth k l d.
Proof.
  revert k l. induction n as [|n IH]; intros k l.
  - destruct l, k as [|k]; simpl; try reflexivity. now destruct k.
  - destruct l as [|y l], k as [|k]; simpl; try reflexivity.
    + rewrite IH. now destruct k.
    + now rewrite IH.
Qed.

Lemma row_update_cell (ws : Worksheet) (r c r' : nat) (v : string) :
  row (update_cell ws r c v) r'
  = if r' - 1 =? r - 1 then set_nth (c - 1) v "" (row ws r) else row ws r'.
Proof. unfold row at 1, update_cell. simpl. apply nth_set_nth. Qed.

(** [update_cell] stores the value in its cell and keeps every other
    cell. *)
Lemma cell_update_cell (ws : Worksheet) (r c r' c' : nat) (v : string) :
  cell (update_cell ws r c v) r' c'
  = if (r' - 1 =? r - 1) && (c' - 1 =? c - 1) then v else cell ws r' c'.
Proof.
  unfold cell. rewrite row_update_cell.
  destruct (r' - 1 =? r - 1) eqn:Er; simpl; [|reflexivity].
  rewrite nth_set_nth. apply Nat.eqb_eq in Er.
  unfold row. now rewrite Er.
Qed.

Lemma cell_update_cell_other (ws : Worksheet) (r c r' c' : nat) (v : string) :
  1 <= r -> 1 <= c -> 1 <= r' -> 1 <= c' -> r' <> r \/ c' <> c ->
  cell (update_cell ws r c v) r' c' = cell ws r' c'.
Proof.
  intros Hr Hc Hr' Hc' Hne. rewrite cell_update_cell.
  destruct (r' - 1 =? r - 1) eqn:Er, (c' - 1 =? c - 1) eqn:Ec; simpl;
    try reflexivity.
  apply Nat.eqb_eq in Er, Ec. lia.
Qed.

Lemma cell_update_cell_same (ws : Worksheet) (r c : nat) (v : string) :
  cell (update_cell ws r c v) r c = v.
Proof. rewrite cell_update_cell. now rewrite !Nat.eqb_refl. Qed.

Lemma row_insert_cols (ws : Worksheet) (col r : nat) :
  r - 1 < List.length (grid ws) ->
  row (insert_cols ws col) r = insert_at (col - 1) "" (row ws r).
Proof.
  intros Hr. unfold row, insert_cols. simpl.
  rewrite (nth_indep _ [] (insert_at (col - 1) "" [])).
  - apply (map_nth (insert_at (col - 1) "")).
  - now rewrite length_map.
Qed.

Lemma row_nonempty_in_grid (ws : Worksheet) (r : nat) :
  row ws r <> [] -> r - 1 < List.length (grid ws).
Proof.
  intros Hne. destruct (Nat.lt_ge_cases (r - 1) (List.length (grid ws)))
    as [?|Hge]; [assumption|].
  exfalso. apply Hne. unfold row. now apply nth_overflow.
Qed.

(** Writing into the column just inserted. *)
Lemma set_nth_insert_at {A} (n : nat) (x y d : A) (l : list A) :
  n <= List.length l ->
  set_nth n x d (insert_at n y l) = firstn n l ++ x :: skipn n l.
Proof.
  unfold insert_at. revert l. induction n as [|n IH]; intros l Hn.
  - reflexivity.
  - destruct l as [|z l]; simpl in Hn; [lia|].
    simpl. f_equal. apply IH. lia.
Qed.

(** What the API trims away is empty. *)
Lemma rtrim_split {A} (empty : A -> bool) (l : list A) :
  exists tail, l = rtrim empty l ++ tail /\ Forall (fun x => empty x = true) tail.
Proof.
  induction l as [|x l (tail & E & Ht)]; [now exists []|].
  simpl. destruct (empty x) eqn:Ex; simpl.
  - destruct (rtrim empty l) as [|y r'] eqn:Er; simpl.
    + exists (x :: l). split; [reflexivity|].
      constructor; [assumption|]. simpl in E. now rewrite E.
    + exists tail. split; [now rewrite E at 1 | assumption].
  - exists tail. split; [now rewrite E at 1 | assumption].
Qed.

End SheetFacts.

(** ** The scan of the date row *)

Module ScanFacts.

Lemma existsb_char_in (p : ascii -> bool) (v : string) :
  PyStr.existsb p v = true <-> exists c, p c = true /\ char_in c v.
Proof.
  induction v as [|x v IH]; simpl.
  - split; [discriminate|]. intros (c & _ & pre & post & E).
    destruct pre; discriminate.
  - rewrite orb_true_iff, IH. split.
    + intros [Hx | (c & Hc & pre & post & ->)].
      * exists x. split; [assumption|]. now exists "", v.
      * exists c. split; [assumption|]. now exists (String x pre), post.
    + intros (c & Hc & [|y pre] & post & E); simpl in E; injection E as -> ->.
      * now left.
      * right. exists c. split; [assumption|]. now exists pre, post.
Qed.

(** The test of line 138 is the date-like pattern of the specification. *)
Lemma is_date_header_date_like (v : string) :
  is_date_header v = true <-> date_like v.
Proof.
  unfold is_date_header, date_like, Re.search_digit, PyStr.contains_char.
  rewrite andb_true_iff, orb_true_iff, !existsb_char_in.
  split; intros [Hd Hs]; (split; [exact Hd|]).
  - destruct Hs as [(c & Hc & Hin) | (c & Hc & Hin)];
      apply Ascii.eqb_eq in Hc; subst c; [now left | now right].
  - destruct Hs as [Hin | Hin]; [left | right]; eexists;
      (split; [apply Ascii.eqb_refl | exact Hin]).
Qed.

Lemma scan_app (i : nat) (a b : list string) (acc : nat) :
  scan_date_row i (a ++ b) acc
  = scan_date_row (i + List.length a) b (scan_date_row i a acc).
Proof.
  revert i acc. induction a as [|v a IH]; intros i acc; simpl.
  - now rewrite Nat.add_0_r.
  - rewrite IH. f_equal. lia.
Qed.

Lemma scan_no_header (i : nat) (cells : list string) (acc : nat) :
  no_date_header cells -> scan_date_row i cells acc = acc.
Proof.
  revert i acc. induction cells as [|v cells IH]; intros i acc Hno; simpl.
  - reflexivity.
  - rewrite (Hno v (or_introl eq_refl)). apply IH.
    intros x Hx. apply Hno. now right.
Qed.

(** The scan ends on the last header it met. *)
Lemma scan_last (i : nat) (pre post : list string) (v : string) (acc : nat) :
  is_date_header v = true -> no_date_header post ->
  scan_date_row i (pre ++ v :: post) acc = i + List.length pre + 1.
Proof.
  intros Hv Hpost. rewrite scan_app. simpl. rewrite Hv.
  now apply scan_no_header.
Qed.

(** Every row either has no header or splits at its last one. *)
Lemma last_header_split (cells : list string) :
  no_date_header cells
  \/ exists pre v post,
       cells = pre ++ v :: post /\ is_date_header v = true /\ no_date_header post.
Proof.
  induction cells as [|x cells [Hno | (pre & v & post & -> & Hv & Hpost)]].
  - left. intros v [].
  - destruct (is_date_header x) eqn:Hx.
    + right. exists [], x, cells. now repeat split.
    + left. intros v [<- | Hin]; [assumption | now apply Hno].
  - right. exists (x :: pre), v, post. now repeat split.
Qed.

Lemma last_tracking_zero_iff (cells : list string) :
  last_tracking_col_index cells = 0 <-> no_date_header cells.
Proof.
  unfold last_tracking_col_index. split.
  - intros E. destruct (last_header_split cells)
      as [Hno | (pre & v & post & -> & Hv & Hpost)]; [assumption|].
    rewrite (scan_last 0 pre post v 0 Hv Hpost) in E. lia.
  - intros Hno. now apply scan_no_header.
Qed.

Lemma rightmost_split (cells : list string) (k : nat) :
  rightmost_date_header cells k <->
  exists pre v post,
    cells = pre ++ v :: post /\ is_date_header v = true
    /\ no_date_header post /\ k = List.length pre + 1.
Proof.
  split.
  - intros (Hk & (v & Hnth & Hv) & Hright).
    apply nth_error_split in Hnth as (pre & post & -> & Hlen).
    exists pre, v, post. repeat split; [assumption | | lia].
    intros x Hx. apply In_nth_error in Hx as (j & Hj).
    apply (Hright (List.length pre + 1 + j)); [lia|].
    rewrite nth_error_app2 by lia.
    replace (List.length pre + 1 + j - List.length pre) with (S j) by lia.
    exact Hj.
  - intros (pre & v & post & -> & Hv & Hpost & ->).
    repeat split; [lia | | ].
    + exists v. split; [|assumption].
      rewrite nth_error_app2 by lia.
      replace (List.length pre + 1 - 1 - List.length pre) with 0 by lia.
      reflexivity.
    + intros j x Hj Hx. rewrite nth_error_app2 in Hx by lia.
      destruct (j - List.length pre) as [|m] eqn:Em; [lia|].
      simpl in Hx. apply Hpost. now apply nth_error_In in Hx.
Qed.

(** The scan computes the 1-based index of the rightmost header. *)
Lemma last_tracking_rightmost (cells : list string) (k : nat) :
  rightmost_date_header cells k <->
  last_tracking_col_index cells = k /\ k <> 0.
Proof.
  rewrite rightmost_split. unfold last_tracking_col_index. split.
  - intros (pre & v & post & -> & Hv & Hpost & ->).
    rewrite (scan_last 0 pre post v 0 Hv Hpost). lia.
  - intros [E Hk]. destruct (last_header_split cells)
      as [Hno | (pre & v & post & -> & Hv & Hpost)].
    + rewrite (scan_no_header 0 cells 0 Hno) in E. congruence.
    + exists pre, v, post. repeat split; try assumption.
      rewrite (scan_last 0 pre post v 0 Hv Hpost) in E. lia.
Qed.

Lemma no_header_empty_cells (tail : list string) :
  Forall (fun v => Sheet.is_empty v = true) tail -> no_date_header tail.
Proof.
  intros Ht v Hv. rewrite Forall_forall in Ht.
  specialize (Ht v Hv). apply String.eqb_eq in Ht. now subst v.
Qed.

(** The cells trimmed by the API cannot be headers: scanning the values
    returned is scanning the stored row. *)
Lemma scan_rtrim (cells : list string) :
  last_tracking_col_index (Sheet.rtrim Sheet.is_empty cells)
  = last_tracking_col_index cells.
Proof.
  destruct (SheetFacts.rtrim_split Sheet.is_empty cells) as (tail & E & Ht).
  unfold last_tracking_col_index. rewrite E at 2. rewrite scan_app.
  symmetry. apply scan_no_header. now apply no_header_empty_cells.
Qed.

(** A header row in which the cell right of the last header is replaced
    or preceded by a dated cell: that cell becomes the last header. *)
Lemma scan_after_stamp (cells : list string) (today : string) :
  let last := last_tracking_col_index cells in
  last <> 0 -> is_date_header today = true ->
  last_tracking_col_index (firstn last cells ++ today :: skipn last cells)
  = last + 1.
Proof.
  intros last Hlast Htoday. subst last.
  destruct (last_header_split cells)
    as [Hno | (pre & v & post & -> & Hv & Hpost)].
  - apply last_tracking_zero_iff in Hno. congruence.
  - unfold last_tracking_col_index in *.
    rewrite (scan_last 0 pre post v 0 Hv Hpost). simpl.
    replace (pre ++ v :: post) with ((pre ++ [v]) ++ post)
      by now rewrite <- app_assoc.
    replace (List.length pre + 1) with (List.length (pre ++ [v]))
      by (rewrite length_app; reflexivity).
    rewrite firstn_app, skipn_app, firstn_all, skipn_all, Nat.sub_diag.
    simpl. rewrite app_nil_r.
    apply (scan_last 0 (pre ++ [v]) post today 0 Htoday Hpost).
Qed.

End ScanFacts.

(** ** The date stamp *)

Module DateFacts.
Import Date.

Lemma digit_char_is_digit (k : nat) : PyStr.is_digit (digit_char k) = true.
Proof.
  unfold digit_char, PyStr.is_digit.
  pose proof (Nat.mod_upper_bound k 10 ltac:(discriminate)) as Hk.
  rewrite nat_ascii_embedding by lia.
  apply andb_true_iff. split; apply Nat.leb_le; lia.
Qed.

(** The stamp starts with a digit and has a dash after the day. *)
Lemma strftime_is_date_header (t : datetime) :
  is_date_header (strftime_d_b_Y t) = true.
Proof.
  unfold is_date_header, strftime_d_b_Y, fmt_d, Re.search_digit,
    PyStr.contains_char.
  cbn [append PyStr.existsb].
  rewrite digit_char_is_digit, Ascii.eqb_refl.
  now rewrite !orb_true_r.
Qed.

End DateFacts.

(** ** Laws of the combinators *)

Section Combinators.
Context {W : Type} `{World W}.

Lemma bind_ok {A B} (m : M W A) (f : A -> M W B) (s : Run W) (a : A) :
  res (m s) = Ok a ->
  bind m f s = mkResult (res (f a (st (m s)))) (st (f a (st (m s))))
                        (out (m s) ++ out (f a (st (m s)))).
Proof.
  intros E. unfold bind. destruct (m s) as [r s' o]. simpl in E. subst r.
  simpl. now destruct (f a s').
Qed.

Lemma bind_raise {A B} (m : M W A) (f : A -> M W B) (s : Run W) (e : exn) :
  res (m s) = Raise e ->
  bind m f s = mkResult (Raise e) (st (m s)) (out (m s)).
Proof.
  intros E. unfold bind. destruct (m s) as [r s' o]. simpl in E. now subst r.
Qed.

Lemma bind_out_of_fuel {A B} (m : M W A) (f : A -> M W B) (s : Run W) :
  res (m s) = OutOfFuel ->
  bind m f s = mkResult OutOfFuel (st (m s)) (out (m s)).
Proof.
  intros E. unfold bind. destruct (m s) as [r s' o]. simpl in E. now subst r.
Qed.

(** A sequence returns only if its first part does. *)
Lemma bind_inv_ok {A B} (m : M W A) (f : A -> M W B) (s : Run W) (b : B) :
  res (bind m f s) = Ok b ->
  exists a, res (m s) = Ok a /\ res (f a (st (m s))) = Ok b.
Proof.
  destruct (res (m s)) as [a|e|] eqn:E.
  - rewrite (bind_ok _ _ _ _ E). simpl. intros E'. now exists a.
  - rewrite (bind_raise _ _ _ _ E). discriminate.
  - rewrite (bind_out_of_fuel _ _ _ E). discriminate.
Qed.

Lemma try_except_ok {A} (m : M W A) (h : exn -> option (M W A)) (s : Run W) (a : A) :
  res (m s) = Ok a -> try_except m h s = m s.
Proof.
  intros E. unfold try_except. destruct (m s) as [r s' o]. simpl in E. now subst r.
Qed.

Lemma try_except_out_of_fuel {A} (m : M W A) (h : exn -> option (M W A)) (s : Run W) :
  res (m s) = OutOfFuel -> try_except m h s = m s.
Proof.
  intros E. unfold try_except. destruct (m s) as [r s' o]. simpl in E. now subst r.
Qed.

Lemma try_except_caught {A} (m : M W A) (h : exn -> option (M W A)) (s : Run W)
    (e : exn) (k : M W A) :
  res (m s) = Raise e -> h e = Some k ->
  try_except m h s = mkResult (res (k (st (m s)))) (st (k (st (m s))))
                              (out (m s) ++ out (k (st (m s)))).
Proof.
  intros E Hk. unfold try_except. destruct (m s) as [r s' o]. simpl in E.
  subst r. rewrite Hk. simpl. now destruct (k s').
Qed.

Lemma try_except_passed {A} (m : M W A) (h : exn -> option (M W A)) (s : Run W)
    (e : exn) :
  res (m s) = Raise e -> h e = None -> try_except m h s = m s.
Proof.
  intros E Hk. unfold try_except. destruct (m s) as [r s' o]. simpl in E.
  subst r. now rewrite Hk.
Qed.

Section Respects.
Variable R : step_rel W.
Context {HR : Composable R}.

Lemma respects_ret {A} (a : A) : respects R (ret a).
Proof. intros s. apply rel_refl. Qed.

Lemma respects_raise {A} (e : exn) : respects R (@raise W A e).
Proof. intros s. apply rel_refl. Qed.

Lemma respects_out_of_fuel {A} : respects R (@out_of_fuel W A).
Proof. intros s. apply rel_refl. Qed.

Lemma respects_gets {A} (f : Run W -> A) : respects R (gets f).
Proof. intros s. apply rel_refl. Qed.

Lemma respects_bind {A B} (m : M W A) (f : A -> M W B) :
  respects R m -> (forall a, respects R (f a)) -> respects R (bind m f).
Proof.
  intros Hm Hf s. specialize (Hm s).
  destruct (res (m s)) as [a|e|] eqn:E.
  - rewrite (bind_ok _ _ _ _ E). simpl.
    eapply rel_trans; [exact Hm | apply Hf].
  - now rewrite (bind_raise _ _ _ _ E).
  - now rewrite (bind_out_of_fuel _ _ _ E).
Qed.

Lemma respects_try_except {A} (m : M W A) (h : exn -> option (M W A)) :
  respects R m -> (forall e k, h e = Some k -> respects R k) ->
  respects R (try_except m h).
Proof.
  intros Hm Hh s. specialize (Hm s).
  destruct (res (m s)) as [a|e|] eqn:E.
  - now rewrite (try_except_ok _ _ _ _ E).
  - destruct (h e) as [k|] eqn:Ek.
    + rewrite (try_except_caught _ _ _ _ _ E Ek). simpl.
      eapply rel_trans; [exact Hm | now apply (Hh e k)].
    + now rewrite (try_except_passed _ _ _ _ E Ek).
  - now rewrite (try_except_out_of_fuel _ _ _ E).
Qed.

Lemma respects_try_finally {A} (m : M W A) (fin : M W unit) :
  respects R m -> respects R fin -> respects R (try_finally m fin).
Proof.
  intros Hm Hf s. unfold try_finally. specialize (Hm s).
  specialize (Hf (st (m s))).
  destruct (m s) as [r s' o]. simpl in Hm, Hf.
  destruct (fin s') as [r' s'' o']. simpl in Hf.
  destruct r as [a|e|]; simpl; try assumption;
    destruct r'; simpl; eapply rel_trans; eassumption.
Qed.

End Respects.

#[global] Instance events_in_composable (p : event -> bool) :
  Composable (@events_in W p).
Proof.
  split; unfold events_in.
  - reflexivity.
  - intros _ _ _ o1 o2 H1 H2. now rewrite forallb_app, H1, H2.
Qed.

#[global] Instance same_composable {B} (f : Run W -> B) : Composable (same f).
Proof.
  split; unfold same.
  - reflexivity.
  - intros s1 s2 s3 _ _ H1 H2. congruence.
Qed.

#[global] Instance cell_frame_composable (r0 c0 : nat) :
  Composable (@cell_frame W r0 c0).
Proof.
  split; unfold cell_frame.
  - reflexivity.
  - intros s1 s2 s3 _ _ H1 H2 r c Hr Hc Hne.
    now rewrite H2, H1.
Qed.

Lemma terminates_bind {A B} (m : M W A) (f : A -> M W B) :
  terminates m -> (forall a, terminates (f a)) -> terminates (bind m f).
Proof.
  intros Hm Hf s. specialize (Hm s).
  destruct (res (m s)) as [a|e|] eqn:E.
  - rewrite (bind_ok _ _ _ _ E). simpl. apply Hf.
  - rewrite (bind_raise _ _ _ _ E). discriminate.
  - congruence.
Qed.

Lemma terminates_try_except {A} (m : M W A) (h : exn -> option (M W A)) :
  terminates m -> (forall e k, h e = Some k -> terminates k) ->
  terminates (try_except m h).
Proof.
  intros Hm Hh s. specialize (Hm s).
  destruct (res (m s)) as [a|e|] eqn:E.
  - rewrite (try_except_ok _ _ _ _ E). congruence.
  - destruct (h e) as [k|] eqn:Ek.
    + rewrite (try_except_caught _ _ _ _ _ E Ek). simpl. now apply (Hh e k).
    + rewrite (try_except_passed _ _ _ _ E Ek). congruence.
  - congruence.
Qed.

Lemma terminates_try_finally {A} (m : M W A) (fin : M W unit) :
  terminates m -> terminates fin -> terminates (try_finally m fin).
Proof.
  intros Hm Hf s. unfold try_finally. specialize (Hm s).
  specialize (Hf (st (m s))).
  destruct (m s) as [r s' o]. simpl in Hm, Hf.
  destruct (fin s') as [r' s'' o']. simpl in Hf.
  destruct r as [a|e|]; simpl; try congruence;
    destruct r'; simpl; congruence.
Qed.

End Combinators.

(** ** The primitive steps *)

Section Primitives.
Context {W : Type} `{World W}.

Lemma respects_emit (R : step_rel W) (e : event) :
  (forall s, R s s [e]) -> respects R (emit e).
Proof. intros HR s. apply HR. Qed.

Lemma respects_call (R : step_rel W) (e : event) (answer : W -> option exn * W) :
  (forall s w, R s (set_world w s) [e]) -> respects R (call e answer).
Proof.
  intros HR s. unfold call. destruct (answer (world s)) as [r w]. apply HR.
Qed.

Lemma respects_modify (R : step_rel W) (f : Run W -> Run W) :
  (forall s, R s (f s) []) -> respects R (modify f).
Proof. intros HR s. apply HR. Qed.

Lemma respects_read_page_source (R : step_rel W) {HR : Composable R} :
  respects R read_page_source.
Proof.
  intros s. unfold read_page_source.
  destruct (driver_page_source (world s)); apply rel_refl.
Qed.

Lemma terminates_read_page_source : terminates (@read_page_source W _).
Proof.
  intros s. unfold read_page_source.
  destruct (driver_page_source (world s)); discriminate.
Qed.

Lemma terminates_ret {A} (a : A) : terminates (@ret W A a).
Proof. intros s. discriminate. Qed.

Lemma terminates_raise {A} (e : exn) : terminates (@raise W A e).
Proof. intros s. discriminate. Qed.

Lemma terminates_emit (e : event) : terminates (@emit W e).
Proof. intros s. discriminate. Qed.

Lemma terminates_gets {A} (f : Run W -> A) : terminates (gets f).
Proof. intros s. discriminate. Qed.

Lemma terminates_modify (f : Run W -> Run W) : terminates (modify f).
Proof. intros s. discriminate. Qed.

Lemma terminates_call (e : event) (answer : W -> option exn * W) :
  terminates (call e answer).
Proof.
  intros s. unfold call. destruct (answer (world s)) as [[x|] w]; discriminate.
Qed.

End Primitives.

Create HintDb respects discriminated.
Create HintDb terminates discriminated.

Ltac respects_side :=
  intros; unfold events_in, same, cell_frame, quiet;
  try reflexivity; try (intros; reflexivity);
  try (repeat split; reflexivity).

Ltac caught e k Hc :=
  intros e k Hc; destruct e; simpl in Hc; try discriminate Hc;
  injection Hc as <-.

Ltac respects_step :=
  match goal with
  | |- respects _ (bind _ _) => refine (respects_bind _ _ _ _ _); [| intro]
  | |- respects _ (ret _) => refine (respects_ret _ _)
  | |- respects _ (raise _) => refine (respects_raise _ _)
  | |- respects _ out_of_fuel => refine (respects_out_of_fuel _)
  | |- respects _ (gets _) => refine (respects_gets _ _)
  | |- respects _ read_page_source => refine (respects_read_page_source _)
  | |- respects _ (emit _) => apply respects_emit; respects_side
  | |- respects _ (call _ _) => apply respects_call; respects_side
  | |- respects _ (modify _) => apply respects_modify; respects_side
  | |- respects _ (try_except _ _) =>
      let e := fresh "e" in let k := fresh "k" in let Hc := fresh "Hc" in
      refine (respects_try_except _ _ _ _ _); [| caught e k Hc]
  | |- respects _ (try_finally _ _) => refine (respects_try_finally _ _ _ _ _)
  | |- respects _ (if ?c then _ else _) => destruct c
  | |- respects _ (match ?x with _ => _ end) => destruct x
  | |- respects _ _ => solve [auto with respects]
  end.

Ltac open_script :=
  unfold main, cleanup, report_crash, main_body, process_query,
    write_result, run_query,
    detect_and_scrape, scrape_result_count,
    prepare_sheet_and_get_target_column, find_and_type_in_search_box,
    driver_quit, get_webdriver, connect_to_google_sheets, handle_captcha,
    send_error_email, pause, time_sleep, sheets, browser,
    print, logging.

Ltac respects_tac := open_script; repeat respects_step.

Ltac terminates_step :=
  match goal with
  | |- terminates (bind _ _) => apply terminates_bind; [| intro]
  | |- terminates (ret _) => apply terminates_ret
  | |- terminates (raise _) => apply terminates_raise
  | |- terminates (gets _) => apply terminates_gets
  | |- terminates read_page_source => apply terminates_read_page_source
  | |- terminates (emit _) => apply terminates_emit
  | |- terminates (call _ _) => apply terminates_call
  | |- terminates (modify _) => apply terminates_modify
  | |- terminates (try_except _ _) =>
      let e := fresh "e" in let k := fresh "k" in let Hc := fresh "Hc" in
      apply terminates_try_except; [| caught e k Hc]
  | |- terminates (try_finally _ _) => apply terminates_try_finally
  | |- terminates (if ?c then _ else _) => destruct c
  | |- terminates (match ?x with _ => _ end) => destruct x
  | |- terminates _ => solve [auto with terminates]
  end.

Ltac terminates_tac := open_script; repeat terminates_step.

(** ** What each part of the script may emit and change *)

Section Footprints.
Context {W : Type} `{World W}.
Variable config : Config.

Lemma typing_body_events sel text :
  respects (events_in body_event) (human_like_typing sel text).
Proof. induction text; simpl; respects_tac. Qed.

Lemma typing_not_sheets sel text :
  respects (events_in not_sheets) (human_like_typing sel text).
Proof. induction text; simpl; respects_tac. Qed.

Lemma typing_not_search_failure sel text :
  respects (events_in not_search_failure) (human_like_typing sel text).
Proof. induction text; simpl; respects_tac. Qed.

Lemma typing_same_sheet sel text :
  respects (same sheet) (human_like_typing sel text).
Proof. induction text; simpl; respects_tac. Qed.

Lemma typing_terminates sel text : terminates (human_like_typing sel text).
Proof. induction text; simpl; terminates_tac. Qed.

Hint Resolve typing_body_events typing_not_sheets typing_not_search_failure
  typing_same_sheet : respects.
Hint Resolve typing_terminates : terminates.

Lemma wait_body_events fuel start kw alert :
  respects (events_in body_event) (captcha_wait config fuel start kw alert).
Proof. revert alert. induction fuel; intros alert; simpl; respects_tac. Qed.

Lemma wait_not_sheets fuel start kw alert :
  respects (events_in not_sheets) (captcha_wait config fuel start kw alert).
Proof. revert alert. induction fuel; intros alert; simpl; respects_tac. Qed.

Lemma wait_not_search_failure fuel start kw alert :
  respects (events_in not_search_failure)
           (captcha_wait config fuel start kw alert).
Proof. revert alert. induction fuel; intros alert; simpl; respects_tac. Qed.

Lemma wait_same_sheet fuel start kw alert :
  respects (same sheet) (captcha_wait config fuel start kw alert).
Proof. revert alert. induction fuel; intros alert; simpl; respects_tac. Qed.

Hint Resolve wait_body_events wait_not_sheets wait_not_search_failure
  wait_same_sheet : respects.

(** The body of a turn of the loop, up to the write, touches no cell. *)
Lemma run_query_not_sheets fuel row query :
  respects (events_in not_sheets) (run_query config fuel row query).
Proof. respects_tac. Qed.

Lemma run_query_same_sheet fuel row query :
  respects (same sheet) (run_query config fuel row query).
Proof. respects_tac. Qed.

Lemma detect_and_scrape_not_search_failure fuel query :
  respects (events_in not_search_failure) (detect_and_scrape config fuel query).
Proof. respects_tac. Qed.

Lemma write_result_not_search_failure col row v :
  respects (events_in not_search_failure) (write_result col row v).
Proof. respects_tac. Qed.

Lemma write_result_frame col row v :
  1 <= row -> 1 <= col ->
  respects (cell_frame row col) (write_result col row v).
Proof.
  intros Hrow Hcol. respects_tac.
  cbn [sheet set_sheet]. intros r c Hr Hc Hne.
  now apply SheetFacts.cell_update_cell_other.
Qed.

End Footprints.

(** Symbolic execution of the monad, leaving the arithmetic alone. *)
Ltac run_unfold :=
  unfold logging, print, browser, sheets, pause, read_page_source;
  unfold bind, try_except, try_finally,
    call, ret, emit, gets, modify, raise, out_of_fuel.

Ltac run_cbn :=
  cbn [res st out app set_world set_sheet set_driver world sheet driver
       fst snd negb andb orb].

Ltac run_simpl := run_unfold; run_cbn.

(** ** Counting in traces *)

Lemma count_app (p : event -> bool) (a b : list event) :
  count p (a ++ b) = count p a + count p b.
Proof. unfold count. now rewrite filter_app, length_app. Qed.

Lemma count_cons (p : event -> bool) (e : event) (l : list event) :
  count p (e :: l) = (if p e then 1 else 0) + count p l.
Proof. unfold count. simpl. now destruct (p e). Qed.

Lemma count_zero (p : event -> bool) (l : list event) :
  forallb (fun e => negb (p e)) l = true -> count p l = 0.
Proof.
  induction l as [|e l IH]; [reflexivity|].
  simpl. intros [He Hl]%andb_true_iff. rewrite count_cons, (IH Hl).
  now destruct (p e).
Qed.

Lemma cells_written_app (a b : list event) :
  cells_written (a ++ b) = cells_written a ++ cells_written b.
Proof. apply flat_map_app. Qed.

Lemma cells_written_none (l : list event) :
  forallb not_sheets l = true -> cells_written l = [].
Proof.
  induction l as [|e l IH]; [reflexivity|].
  simpl. intros [He Hl]%andb_true_iff. rewrite (IH Hl).
  destruct e as [| | |c|]; try reflexivity. discriminate He.
Qed.

(** ** Writing a result *)

Section WriteResult.
Context {W : Type} `{World W}.

(** The events of the write: the cell is sent to the API, and the success
    line follows when the API accepted it. *)
Lemma write_result_out (col row : nat) (v : pyval) (s : Run W) :
  out (write_result col row v s)
  = Log INFO (MsgScraped v) :: Sheets (UpdateCell row col (py_str v))
    :: match fst (sheets_api (UpdateCell row col (py_str v)) (world s)) with
       | None => [Log INFO (MsgUpdated row col)]
       | Some _ => []
       end.
Proof.
  unfold write_result. run_simpl.
  destruct (sheets_api (UpdateCell row col (py_str v)) (world s)) as [[e|] w];
    reflexivity.
Qed.

Lemma write_result_written (col row : nat) (v : pyval) (s : Run W) :
  cells_written (out (write_result col row v s)) = [(row, col, py_str v)].
Proof.
  rewrite write_result_out. simpl.
  now destruct (fst (sheets_api (UpdateCell row col (py_str v)) (world s))).
Qed.

Lemma write_result_no_browser (col row : nat) (v : pyval) (s : Run W) :
  count is_browser (out (write_result col row v s)) = 0.
Proof.
  rewrite write_result_out, !count_cons.
  now destruct (fst (sheets_api (UpdateCell row col (py_str v)) (world s))).
Qed.

(** When the API accepts the write, the cell holds the value and the turn
    ends normally. *)
Lemma write_result_accepted (col row : nat) (v : pyval) (s : Run W) (w : W) :
  sheets_api (UpdateCell row col (py_str v)) (world s) = (None, w) ->
  res (write_result col row v s) = Ok tt
  /\ Sheet.cell (sheet (st (write_result col row v s))) row col = py_str v.
Proof.
  intros E. unfold write_result. run_simpl. rewrite E. run_cbn.
  split; [reflexivity|].
  apply SheetFacts.cell_update_cell_same.
Qed.

End WriteResult.

(** ** Blank queries *)

Section Blank.
Context {W : Type} `{World W}.
Variable config : Config.

(** C8.  A query made of whitespace only gives the empty result without
    any call to the browser: the [if] branch only logs a warning and leaves
    the world as it is; the turn of the loop then writes the empty string
    to the cell of the row. *)
Theorem blank_query_writes_empty (fuel col n i : nat) (query : string) (s : Run W) :
  PyStr.forallb PyStr.is_space query = true ->
  run_query config fuel (PDP_START_ROW + i) query s
    = mkResult (Ok (Result (Some ""))) s
        [Log WARNING (MsgSkippingEmpty (PDP_START_ROW + i))]
  /\ count is_browser (out (process_query config fuel col n i query s)) = 0
  /\ cells_written (out (process_query config fuel col n i query s))
     = [(PDP_START_ROW + i, col, "")].
Proof.
  intros Hblank.
  assert (Hrun : run_query config fuel (PDP_START_ROW + i) query s
    = mkResult (Ok (Result (Some ""))) s
        [Log WARNING (MsgSkippingEmpty (PDP_START_ROW + i))]).
  { unfold run_query. rewrite (StringFacts.truthy_strip_blank _ Hblank).
    reflexivity. }
  split; [exact Hrun|].
  unfold process_query. cbv zeta.
  assert (Hout : out ((logging INFO
      (MsgProcessing (i + 1) n query (PDP_START_ROW + i)) ;;
      r <- run_query config fuel (PDP_START_ROW + i) query ;;
      match r with
      | Continue => ret tt
      | Result result_count =>
          write_result col (PDP_START_ROW + i) result_count
      end) s)
    = Log INFO (MsgProcessing (i + 1) n query (PDP_START_ROW + i))
      :: Log WARNING (MsgSkippingEmpty (PDP_START_ROW + i))
      :: out (write_result col (PDP_START_ROW + i) (Some "") s)).
  { run_simpl. rewrite Hrun. run_cbn.
    now destruct (write_result col (PDP_START_ROW + i) (Some "") s). }
  rewrite Hout. split.
  - rewrite !count_cons. apply write_result_no_browser.
  - apply (write_result_written col (PDP_START_ROW + i) (Some "") s).
Qed.

End Blank.

(** C8, on three blanks: nothing but the cell write reaches the outside. *)
Lemma blank_query_writes_empty_witness :
  PyStr.forallb PyStr.is_space "   " = true
  /\ cells_written (out (process_query (Sim.config true 300000 5000) 10 7 1 0 "   "
       (Sim.start (Sim.calm (fun _ _ => "") (fun _ => "")) ["   "])))
     = [(4, 7, "")].
Proof.
  split; [reflexivity|].
  apply (blank_query_writes_empty (Sim.config true 300000 5000) 10 7 1 0 "   ").
  reflexivity.
Defined.


(** ** A search box that does not show up *)

Section SearchFailure.
Context {W : Type} `{World W}.
Variable config : Config.

(** C7.  When the bounded wait for the search box of a query times out,
    the turn of the loop logs the failure, issues no call to the Sheets
    API and leaves the sheet as it is, and returns normally; the loop then
    goes on with the next query. *)
Theorem search_box_not_found (fuel col n i : nat) (query : string)
    (rest : list string) (s : Run W) (w1 w2 : W) :
  PyStr.truthy (PyStr.strip query) = true ->
  webdriver (Get "https://www.google.com") (world s) = (None, w1) ->
  webdriver (WaitPresence SEARCH_INPUT_SELECTOR) (after_pause (1000, 2000)%Z w1)
    = (Some TimeoutException, w2) ->
  process_query config fuel col n i query s
    = mkResult (Ok tt) (set_world w2 s) (search_failure_trace n i query)
  /\ cells_written (search_failure_trace n i query) = []
  /\ sheet (set_world w2 s) = sheet s
  /\ for_queries config fuel col n i (query :: rest) s
     = let r := for_queries config fuel col n (S i) rest (set_world w2 s) in
       mkResult (res r) (st r) (search_failure_trace n i query ++ out r).
Proof.
  intros Hq Hget Hwait.
  assert (Hturn : process_query config fuel col n i query s
    = mkResult (Ok tt) (set_world w2 s) (search_failure_trace n i query)).
  { unfold process_query, run_query, find_and_type_in_search_box.
    rewrite Hq. run_simpl. rewrite Hget. run_cbn. rewrite Hwait. run_cbn.
    reflexivity. }
  repeat split; [exact Hturn|].
  cbn [for_queries]. unfold bind. rewrite Hturn.
  now destruct (for_queries config fuel col n (S i) rest (set_world w2 s)).
Qed.

End SearchFailure.

(** C7, in a world whose search box never shows up: the turn for "alpha"
    writes nothing and returns. *)
Lemma search_box_not_found_witness :
  let w := Sim.with_browser no_search_box (Sim.calm (fun _ _ => "") (fun _ => "")) in
  let s := Sim.start w ["alpha"] in
  PyStr.truthy (PyStr.strip "alpha") = true
  /\ webdriver (Get "https://www.google.com") (world s) = (None, Sim.navigate w)
  /\ webdriver (WaitPresence SEARCH_INPUT_SELECTOR)
       (after_pause (1000, 2000)%Z (Sim.navigate w))
     = (Some TimeoutException, Sim.tick 1000 (Sim.navigate w))
  /\ res (process_query (Sim.config true 300000 5000) 10 7 1 0 "alpha" s) = Ok tt
  /\ cells_written (out (process_query (Sim.config true 300000 5000) 10 7 1 0 "alpha" s))
     = [].
Proof.
  intros w s.
  assert (Hq : PyStr.truthy (PyStr.strip "alpha") = true) by reflexivity.
  assert (Hget : webdriver (Get "https://www.google.com") (world s)
                 = (None, Sim.navigate w)) by (vm_compute; reflexivity).
  assert (Hwait : webdriver (WaitPresence SEARCH_INPUT_SELECTOR)
                    (after_pause (1000, 2000)%Z (Sim.navigate w))
                  = (Some TimeoutException, Sim.tick 1000 (Sim.navigate w)))
    by (vm_compute; reflexivity).
  destruct (search_box_not_found (Sim.config true 300000 5000) 10 7 1 0 "alpha" []
              s (Sim.navigate w) (Sim.tick 1000 (Sim.navigate w))
              Hq Hget Hwait) as (Hturn & Hnone & _).
  repeat split; try assumption; now rewrite Hturn.
Defined.

(** ** The write touches one cell *)

Section Frame.
Context {W : Type} `{World W}.
Variable config : Config.

Lemma respects_weaken {A} (R1 R2 : step_rel W) (m : M W A) :
  (forall s s' o, R1 s s' o -> R2 s s' o) -> respects R1 m -> respects R2 m.
Proof. intros Himp Hm s. apply Himp, Hm. Qed.

Lemma process_query_frame (fuel col n i : nat) (query : string) :
  1 <= col ->
  respects (cell_frame (PDP_START_ROW + i) col)
           (process_query config fuel col n i query).
Proof.
  intros Hcol. unfold process_query. cbv zeta.
  refine (respects_bind _ _ _ _ _); [respects_tac|intros _].
  refine (respects_bind _ _ _ _ _).
  - apply (respects_weaken (same sheet)); [|apply run_query_same_sheet].
    intros s s' o E r c _ _ _. unfold same in E. now rewrite E.
  - intros [|v]; [respects_tac|].
    apply write_result_frame; [unfold PDP_START_ROW; lia | assumption].
Qed.

(** C9.  The turn of the loop for row R changes no cell other than
    (R, target column): every other cell of the sheet reads as before,
    whatever happened in the browser; and the write, once accepted by the
    API, leaves the result in that cell. *)
Theorem write_touches_one_cell (fuel col n i : nat) (query : string) (s : Run W) :
  1 <= col ->
  (forall r c, 1 <= r -> 1 <= c -> r <> PDP_START_ROW + i \/ c <> col ->
     Sheet.cell (sheet (st (process_query config fuel col n i query s))) r c
     = Sheet.cell (sheet s) r c)
  /\ (forall v w,
        sheets_api (UpdateCell (PDP_START_ROW + i) col (py_str v)) (world s) = (None, w) ->
        Sheet.cell (sheet (st (write_result col (PDP_START_ROW + i) v s)))
                   (PDP_START_ROW + i) col = py_str v).
Proof.
  intros Hcol. split.
  - intros r c. apply (process_query_frame fuel col n i query Hcol s).
  - intros v w E. now apply (write_result_accepted col _ v s w).
Qed.

End Frame.

(** C9, on the example sheet: the turn for row 4 leaves the cell of row 5
    in the target column alone. *)
Lemma write_touches_one_cell_witness :
  let s := Sim.start (Sim.calm (fun _ _ => "") (fun _ => "About 3 results"))
                     ["alpha"; "beta"] in
  1 <= 7
  /\ Sheet.cell (sheet (st (process_query (Sim.config true 300000 5000)
                                           10 7 2 0 "alpha" s))) 5 7
     = Sheet.cell (sheet s) 5 7.
Proof.
  intros s. split; [repeat constructor|].
  refine (proj1 (write_touches_one_cell (Sim.config true 300000 5000)
                   10 7 2 0 "alpha" s _) 5 7 _ _ _);
    [repeat constructor | repeat constructor | repeat constructor | ].
  left. vm_compute. discriminate.
Defined.


(** ** Preparing the sheet *)

Section Prepare.
Context {W : Type} `{World W}.

(** The preparation when the API answers: the new column is one past the
    last header, it is inserted there and stamped. *)
Lemma prepare_success (s : Run W) (k : nat) (w1 w2 w3 : W) :
  last_tracking_col_index (Sheet.row_values (sheet s) DATE_HEADER_ROW) = k ->
  k <> 0 ->
  sheets_api (RowValues DATE_HEADER_ROW) (world s) = (None, w1) ->
  sheets_api (InsertCols (k + 1)) w1 = (None, w2) ->
  sheets_api (UpdateCell DATE_HEADER_ROW (k + 1)
                (Date.strftime_d_b_Y (datetime_now w2))) w2 = (None, w3) ->
  prepare_sheet_and_get_target_column s
  = mkResult (Ok (k + 1))
      (mkRun w3
         (Sheet.update_cell (Sheet.insert_cols (sheet s) (k + 1))
            DATE_HEADER_ROW (k + 1) (Date.strftime_d_b_Y (datetime_now w2)))
         (driver s))
      (prepare_trace (Sheet.title (sheet s)) k
                     (Date.strftime_d_b_Y (datetime_now w2))).
Proof.
  intros Hk Hk0 E1 E2 E3. apply Nat.eqb_neq in Hk0.
  unfold prepare_sheet_and_get_target_column. run_simpl.
  rewrite E1. run_cbn. rewrite Hk, Hk0. run_cbn.
  rewrite E2. run_cbn. rewrite E3. run_cbn. reflexivity.
Qed.

(** Without a date-like header the preparation raises before it inserts
    anything. *)
Lemma prepare_no_header (s : Run W) :
  no_date_header (Sheet.row_values (sheet s) DATE_HEADER_ROW) ->
  exists e,
    prepare_sheet_and_get_target_column s
    = mkResult (Raise e)
        (set_world (snd (sheets_api (RowValues DATE_HEADER_ROW) (world s))) s)
        (prepare_failure_trace (Sheet.title (sheet s)) e).
Proof.
  intros Hno. apply ScanFacts.last_tracking_zero_iff in Hno.
  unfold prepare_sheet_and_get_target_column. run_simpl.
  destruct (sheets_api (RowValues DATE_HEADER_ROW) (world s)) as [[e|] w1];
    run_cbn.
  - now exists e.
  - rewrite Hno. cbn [Nat.eqb]. run_cbn. now eexists.
Qed.

(** A preparation that returned went through all three API calls. *)
Lemma prepare_inv_ok (s : Run W) (c : nat) :
  res (prepare_sheet_and_get_target_column s) = Ok c ->
  exists k w1 w2 w3,
    c = k + 1 /\ k <> 0
    /\ last_tracking_col_index (Sheet.row_values (sheet s) DATE_HEADER_ROW) = k
    /\ sheets_api (RowValues DATE_HEADER_ROW) (world s) = (None, w1)
    /\ sheets_api (InsertCols (k + 1)) w1 = (None, w2)
    /\ sheets_api (UpdateCell DATE_HEADER_ROW (k + 1)
                     (Date.strftime_d_b_Y (datetime_now w2))) w2 = (None, w3).
Proof.
  remember (last_tracking_col_index (Sheet.row_values (sheet s) DATE_HEADER_ROW))
    as k eqn:Hk. symmetry in Hk.
  unfold prepare_sheet_and_get_target_column. run_simpl.
  destruct (sheets_api (RowValues DATE_HEADER_ROW) (world s)) as [[e|] w1] eqn:E1;
    run_cbn; [discriminate|].
  rewrite Hk. destruct (k =? 0) eqn:Hk0; run_cbn; [discriminate|].
  destruct (sheets_api (InsertCols (k + 1)) w1) as [[e|] w2] eqn:E2;
    run_cbn; [discriminate|].
  destruct (sheets_api (UpdateCell DATE_HEADER_ROW (k + 1)
              (Date.strftime_d_b_Y (datetime_now w2))) w2) as [[e|] w3] eqn:E3;
    run_cbn; [discriminate|].
  intros [= <-]. apply Nat.eqb_neq in Hk0.
  exists k, w1, w2, w3. now repeat split.
Qed.

(** The header row after a preparation: the stamp sits right of the old
    last header and is the new last header. *)
Lemma header_after_prepare (ws : Sheet.Worksheet) (today : string) :
  let k := last_tracking_col_index (Sheet.row_values ws DATE_HEADER_ROW) in
  k <> 0 -> is_date_header today = true ->
  last_tracking_col_index
    (Sheet.row_values
       (Sheet.update_cell (Sheet.insert_cols ws (k + 1)) DATE_HEADER_ROW (k + 1) today)
       DATE_HEADER_ROW)
  = k + 1.
Proof.
  intros k Hk Htoday. unfold Sheet.row_values in *.
  rewrite ScanFacts.scan_rtrim. subst k. rewrite ScanFacts.scan_rtrim in *.
  set (cells := Sheet.row ws DATE_HEADER_ROW) in *.
  set (k := last_tracking_col_index cells) in *.
  assert (Hlen : k <= List.length cells).
  { destruct (ScanFacts.last_header_split cells)
      as [Hno | (pre & v & post & E & Hv & Hpost)].
    - apply ScanFacts.last_tracking_zero_iff in Hno. unfold k. lia.
    - unfold k, last_tracking_col_index. rewrite E.
      rewrite (ScanFacts.scan_last 0 pre post v 0 Hv Hpost).
      rewrite length_app. simpl. lia. }
  assert (Hrow : Sheet.row ws DATE_HEADER_ROW <> []).
  { fold cells. intros E. rewrite E in Hlen. simpl in Hlen. lia. }
  rewrite SheetFacts.row_update_cell, Nat.eqb_refl.
  rewrite SheetFacts.row_insert_cols
    by now apply SheetFacts.row_nonempty_in_grid.
  fold cells. replace (k + 1 - 1) with k by lia.
  rewrite SheetFacts.set_nth_insert_at by assumption.
  now apply ScanFacts.scan_after_stamp.
Qed.

#[global] Instance quiet_composable : Composable (@quiet W).
Proof.
  split; unfold quiet.
  - now repeat split.
  - intros s1 s2 s3 o1 o2 (H1 & H2 & H3) (H1' & H2' & H3').
    rewrite forallb_app, H1, H1'. repeat split; congruence.
Qed.

(** Quiet steps that cannot exhaust the fuel pass an abort through. *)
Lemma abort_bind {A B} (P : Run W -> Prop) (m : M W A) (f : A -> M W B) :
  (forall s s' o, quiet s s' o -> P s -> P s') ->
  respects quiet m -> terminates m ->
  (forall a s', P s' -> aborts s' (f a s')) ->
  forall s, P s -> aborts s (bind m f s).
Proof.
  intros HP Hm Ht Hf s Hs. specialize (Hm s). specialize (Ht s).
  destruct (res (m s)) as [a|e|] eqn:E.
  - rewrite (bind_ok _ _ _ _ E).
    destruct (Hf a (st (m s)) (HP _ _ _ Hm Hs)) as [He Hq].
    split; [exact He|]. cbn [st out]. eapply rel_trans; eassumption.
  - rewrite (bind_raise _ _ _ _ E). split; [now exists e | exact Hm].
  - congruence.
Qed.

End Prepare.


(** ** The top level *)

Section TopLevel.
Context {W : Type} `{World W}.
Variable config : Config.

Lemma send_error_email_eq (subject : string) (body : email_body) (s : Run W) :
  send_error_email config subject body s
  = mkResult (Ok tt)
      (if ENABLE_EMAIL_NOTIFICATIONS config
       then set_world (snd (smtp subject body (world s))) s else s)
      (email_trace config subject body (fst (smtp subject body (world s)))).
Proof.
  unfold send_error_email, email_trace.
  destruct (ENABLE_EMAIL_NOTIFICATIONS config); run_simpl; [|reflexivity].
  now destruct (smtp subject body (world s)) as [[x|] w].
Qed.

Lemma report_crash_eq (e : exn) (s : Run W) :
  report_crash config e s
  = mkResult (Ok tt)
      (if ENABLE_EMAIL_NOTIFICATIONS config
       then set_world (snd (smtp CRASH_SUBJECT (CrashBody e) (world s))) s else s)
      (Log CRITICAL (MsgCritical e)
       :: email_trace config CRASH_SUBJECT (CrashBody e)
            (fst (smtp CRASH_SUBJECT (CrashBody e) (world s)))).
Proof.
  unfold report_crash, logging, bind, emit.
  now rewrite send_error_email_eq.
Qed.

Lemma cleanup_eq (s : Run W) :
  cleanup s
  = mkResult (Ok tt)
      (match driver s with
       | Some _ => set_world (snd (webdriver QuitDriver (world s))) s
       | None => s
       end)
      (cleanup_trace (driver s)).
Proof.
  unfold cleanup, driver_quit, cleanup_trace. run_simpl.
  destruct (driver s) as [d|]; run_cbn; [|reflexivity].
  now destruct (webdriver QuitDriver (world s)) as [[x|] w].
Qed.

Lemma driver_after_report (e : exn) (s : Run W) :
  driver (st (report_crash config e s)) = driver s.
Proof.
  rewrite report_crash_eq. cbn [st].
  now destruct (ENABLE_EMAIL_NOTIFICATIONS config).
Qed.

(** The three ways through [main]: the body returns, the body raises and
    the exception is reported, or a waiting loop never ends. *)
Lemma main_unfold (fuel : nat) (s : Run W) :
  let b := main_body config fuel (set_driver None s) in
  main config fuel s
  = match res b with
    | Ok _ =>
        let f := cleanup (st b) in
        mkResult (Ok tt) (st f) (Log INFO MsgStart :: out b ++ out f)
    | Raise e =>
        let h := report_crash config e (st b) in
        let f := cleanup (st h) in
        mkResult (Ok tt) (st f)
                 (Log INFO MsgStart :: out b ++ out h ++ out f)
    | OutOfFuel => mkResult OutOfFuel (st b) (Log INFO MsgStart :: out b)
    end.
Proof.
  intros b. unfold main, logging, bind, emit, modify, try_finally, try_except.
  fold b. destruct b as [[[]|e|] sb ob]; cbn [res st out app].
  - rewrite cleanup_eq. reflexivity.
  - rewrite report_crash_eq. cbn [res st out]. rewrite cleanup_eq.
    cbn [res st out app]. now rewrite <- app_assoc.
  - reflexivity.
Qed.

End TopLevel.


(** ** The target column *)

Section TargetColumn.
Context {W : Type} `{World W}.
Variable config : Config.

Lemma email_trace_no_browser (subject : string) (body : email_body)
    (answer : option exn) :
  count is_browser (email_trace config subject body answer) = 0.
Proof.
  unfold email_trace.
  now destruct (ENABLE_EMAIL_NOTIFICATIONS config), answer.
Qed.

Lemma no_header_kept (s s' : Run W) (o : list event) :
  quiet s s' o -> no_date_header (header_row s) -> no_date_header (header_row s').
Proof. intros (_ & E & _). unfold header_row. now rewrite E. Qed.

(** Without a date-like header the body of [main] ends in an exception
    before the browser is started. *)
Lemma main_body_aborts (fuel : nat) (s : Run W) :
  no_date_header (header_row s) -> aborts s (main_body config fuel s).
Proof.
  revert s. unfold main_body.
  apply (abort_bind (fun s => no_date_header (header_row s)));
    [exact no_header_kept | respects_tac | terminates_tac | intros _].
  apply (abort_bind (fun s => no_date_header (header_row s)));
    [exact no_header_kept | respects_tac | terminates_tac | intros _].
  apply (abort_bind (fun s => no_date_header (header_row s)));
    [exact no_header_kept | respects_tac | terminates_tac | intros _].
  intros s Hno. destruct (prepare_no_header s Hno) as [e E].
  rewrite (bind_raise _ _ _ e) by now rewrite E.
  rewrite E. cbn [st out]. split; [now exists e|].
  unfold quiet. now repeat split.
Qed.

Lemma main_aborts_quietly (fuel : nat) (s : Run W) :
  no_date_header (header_row s) ->
  count is_browser (out (main config fuel s)) = 0
  /\ sheet (st (main config fuel s)) = sheet s.
Proof.
  intros Hno.
  destruct (main_body_aborts fuel (set_driver None s) Hno)
    as [[e He] (Hout & Hsheet & Hdrv)].
  rewrite main_unfold. cbv zeta. rewrite He.
  set (b := main_body config fuel (set_driver None s)) in *.
  rewrite !cleanup_eq, driver_after_report, Hdrv. cbn [st out driver set_driver].
  rewrite report_crash_eq. cbn [st out]. split.
  - rewrite count_cons, !count_app, count_cons. cbn [is_browser].
    rewrite (count_zero is_browser (out b)) by exact Hout.
    now rewrite email_trace_no_browser.
  - destruct (ENABLE_EMAIL_NOTIFICATIONS config); exact Hsheet.
Qed.

(** C2.  The test of a header is the date-like pattern (a digit and a dash
    or a slash).  The preparation returns one plus the 1-based index of the
    rightmost cell of the header row that passes it; when the API answers,
    it inserts the new column at the index it returns and stamps the date of the day there.  When no cell matches,
    it raises with the sheet as it was and without asking for a column,
    and the run ends without any call to the browser.  On the header row
    of scenario A the target column is 5. *)
Theorem prepare_target_column (fuel : nat) (s : Run W) :
  (forall v, is_date_header v = true <-> date_like v)
  /\ (forall k, rightmost_date_header (header_row s) k ->
     last_tracking_col_index (header_row s) = k
     /\ forall w1 w2 w3,
          sheets_api (RowValues DATE_HEADER_ROW) (world s) = (None, w1) ->
          sheets_api (InsertCols (k + 1)) w1 = (None, w2) ->
          sheets_api (UpdateCell DATE_HEADER_ROW (k + 1)
                        (Date.strftime_d_b_Y (datetime_now w2))) w2 = (None, w3) ->
          prepare_sheet_and_get_target_column s
          = mkResult (Ok (k + 1))
              (mkRun w3
                 (Sheet.update_cell (Sheet.insert_cols (sheet s) (k + 1))
                    DATE_HEADER_ROW (k + 1)
                    (Date.strftime_d_b_Y (datetime_now w2)))
                 (driver s))
              (prepare_trace (Sheet.title (sheet s)) k
                             (Date.strftime_d_b_Y (datetime_now w2))))
  /\ (no_date_header (header_row s) ->
        (exists e,
           prepare_sheet_and_get_target_column s
           = mkResult (Raise e)
               (set_world (snd (sheets_api (RowValues DATE_HEADER_ROW) (world s))) s)
               (prepare_failure_trace (Sheet.title (sheet s)) e))
        /\ count is_browser (out (main config fuel s)) = 0
        /\ sheet (st (main config fuel s)) = sheet s)
  /\ last_tracking_col_index [""; ""; "01-Jan-24"; "15-Jan-24"; ""] + 1 = 5.
Proof.
  split; [|split; [|split]].
  - exact ScanFacts.is_date_header_date_like.
  - intros k Hk. apply ScanFacts.last_tracking_rightmost in Hk as [Hk Hk0].
    split; [exact Hk|]. intros w1 w2 w3 E1 E2 E3.
    now apply prepare_success with (w1 := w1).
  - intros Hno.
    split; [now apply prepare_no_header | now apply main_aborts_quietly].
  - reflexivity.
Qed.

End TargetColumn.

(** C2, on the example sheet (dated columns E and F: the new column is 7)
    and on a sheet without dates (the run stops before the browser). *)
Lemma prepare_target_column_witness :
  let cfg := Sim.config true 300000 5000 in
  let w := Sim.calm (fun _ _ => "") (fun _ => "") in
  let s := Sim.start w ["alpha"] in
  let s' := mkRun w undated_sheet None in
  (rightmost_date_header (header_row s) 6
   /\ res (prepare_sheet_and_get_target_column s) = Ok 7)
  /\ (no_date_header (header_row s')
      /\ count is_browser (out (main cfg 10 s')) = 0).
Proof.
  intros cfg w s s'. split.
  - assert (Hk : rightmost_date_header (header_row s) 6).
    { apply ScanFacts.last_tracking_rightmost. split; [reflexivity | discriminate]. }
    split; [exact Hk|].
    destruct (prepare_target_column cfg 10 s) as (_ & Hok & _ & _).
    destruct (Hok 6 Hk) as [_ Hrun].
    rewrite (Hrun w w w); reflexivity.
  - assert (Hno : no_date_header (header_row s')).
    { apply ScanFacts.last_tracking_zero_iff. reflexivity. }
    split; [exact Hno|].
    destruct (prepare_target_column cfg 10 s') as (_ & _ & Hfail & _).
    now destruct (Hfail Hno) as (_ & Hb & _).
Defined.

(** ** The stamp is the next last header *)

Section Stamp.
Context {W : Type} `{World W}.

(** C10.  The stamp written by the preparation (day, month abbreviation,
    year, as in "25-May-2024") passes the test of a date header.  Hence
    after a preparation that returned column [c], the rightmost date-like
    cell of the header row is the cell of column [c], and a preparation
    run on that sheet again selects column [c + 1]. *)
Theorem stamp_is_next_header (s : Run W) (c : nat) :
  (forall t, is_date_header (Date.strftime_d_b_Y t) = true)
  /\ Date.strftime_d_b_Y {| Date.day := 25; Date.month := 5; Date.year := 2024 |}
     = "25-May-2024"
  /\ (res (prepare_sheet_and_get_target_column s) = Ok c ->
      let s1 := st (prepare_sheet_and_get_target_column s) in
      rightmost_date_header (header_row s1) c
      /\ forall (s2 : Run W) w1 w2 w3,
           sheet s2 = sheet s1 ->
           sheets_api (RowValues DATE_HEADER_ROW) (world s2) = (None, w1) ->
           sheets_api (InsertCols (c + 1)) w1 = (None, w2) ->
           sheets_api (UpdateCell DATE_HEADER_ROW (c + 1)
                         (Date.strftime_d_b_Y (datetime_now w2))) w2 = (None, w3) ->
           res (prepare_sheet_and_get_target_column s2) = Ok (c + 1)).
Proof.
  split; [exact DateFacts.strftime_is_date_header|].
  split; [reflexivity|].
  intros Hok s1.
  destruct (prepare_inv_ok s c Hok) as (k & w1 & w2 & w3 & -> & Hk0 & Hk & E1 & E2 & E3).
  assert (Hlast : last_tracking_col_index (header_row s1) = k + 1).
  { subst s1. rewrite (prepare_success s k w1 w2 w3 Hk Hk0 E1 E2 E3).
    unfold header_row. cbn [st sheet]. rewrite <- Hk.
    apply header_after_prepare.
    - now rewrite Hk.
    - apply DateFacts.strftime_is_date_header. }
  split.
  - apply ScanFacts.last_tracking_rightmost. split; [exact Hlast | lia].
  - intros s2 v1 v2 v3 Hsheet F1 F2 F3.
    rewrite (prepare_success s2 (k + 1) v1 v2 v3); try assumption;
      [reflexivity | | lia].
    fold (header_row s2). unfold header_row in *. now rewrite Hsheet.
Qed.

End Stamp.

(** C10, on the example sheet: after the preparation returned column 7,
    the last header of the date row is in column 7. *)
Lemma stamp_is_next_header_witness :
  let s := Sim.start (Sim.calm (fun _ _ => "") (fun _ => "")) ["alpha"] in
  res (prepare_sheet_and_get_target_column s) = Ok 7
  /\ rightmost_date_header
       (header_row (st (prepare_sheet_and_get_target_column s))) 7.
Proof.
  intros s.
  assert (Hok : res (prepare_sheet_and_get_target_column s) = Ok 7)
    by (vm_compute; reflexivity).
  split; [exact Hok|].
  destruct (stamp_is_next_header s 7) as (_ & _ & Hnext).
  exact (proj1 (Hnext Hok)).
Defined.


(** ** Scraping the count *)

Section Scrape.
Context {W : Type} `{World W}.

(** The scrape when the "Tools" button and the statistics show up: the
    result is what the search for the pattern gives on the text of the
    statistics, [None] when it finds nothing. *)
Lemma scrape_reads_stats (s : Run W) (w1 w2 w3 w4 : W) :
  webdriver (WaitClickable TOOLS_BUTTON_SELECTOR) (world s) = (None, w1) ->
  webdriver (Click TOOLS_BUTTON_SELECTOR) w1 = (None, w2) ->
  webdriver (WaitVisible RESULT_STATS_SELECTOR) (after_sleep 1000 w2) = (None, w3) ->
  webdriver (Text RESULT_STATS_SELECTOR) w3 = (None, w4) ->
  scrape_result_count s
  = mkResult (Ok (Re.search_count (element_text RESULT_STATS_SELECTOR w4)))
             (set_world w4 s) scrape_trace.
Proof.
  intros E1 E2 E3 E4. unfold scrape_result_count, time_sleep.
  change (sleep_error 1000) with (@None exn). run_simpl.
  rewrite E1. run_cbn. rewrite E2. run_cbn. rewrite E3. run_cbn.
  rewrite E4. run_cbn.
  destruct (Re.search_count (element_text RESULT_STATS_SELECTOR w4)) as [g|] eqn:Eg;
    [|reflexivity].
  now rewrite (ReFacts.search_count_truthy _ _ Eg).
Qed.

(** C4.  The pattern search returns exactly the first token of digits and
    commas that stands right before a blank and the word "result" in any
    letter case, and the scrape returns that token as it stands in the
    text of the result statistics; on the text of scenario B this is
    "71,60,000". *)
Theorem scrape_extracts_first_count (s : Run W) (w1 w2 w3 w4 : W) (tok : string) :
  (forall text g, Re.search_count text = Some g <-> first_count_before_result text g)
  /\ (webdriver (WaitClickable TOOLS_BUTTON_SELECTOR) (world s) = (None, w1) ->
      webdriver (Click TOOLS_BUTTON_SELECTOR) w1 = (None, w2) ->
      webdriver (WaitVisible RESULT_STATS_SELECTOR) (after_sleep 1000 w2) = (None, w3) ->
      webdriver (Text RESULT_STATS_SELECTOR) w3 = (None, w4) ->
      first_count_before_result (element_text RESULT_STATS_SELECTOR w4) tok ->
      res (scrape_result_count s) = Ok (Some tok))
  /\ Re.search_count "About 71,60,000 results (0.42 seconds)" = Some "71,60,000".
Proof.
  split; [exact ReFacts.search_count_first|].
  split; [|reflexivity].
  intros E1 E2 E3 E4 Htok.
  rewrite (scrape_reads_stats s w1 w2 w3 w4 E1 E2 E3 E4). cbn [res].
  apply ReFacts.search_count_first in Htok. now rewrite Htok.
Qed.

End Scrape.

(** C4, on a page whose statistics read as in scenario B. *)
Lemma scrape_extracts_first_count_witness :
  let text := "About 71,60,000 results (0.42 seconds)" in
  let w := Sim.calm (fun _ _ => "") (fun _ => text) in
  let s := Sim.start w ["alpha"] in
  first_count_before_result (element_text RESULT_STATS_SELECTOR (Sim.tick 1000 w))
                            "71,60,000"
  /\ res (scrape_result_count s) = Ok (Some "71,60,000").
Proof.
  intros text w s.
  destruct (scrape_extracts_first_count s w w (Sim.tick 1000 w) (Sim.tick 1000 w)
              "71,60,000") as (Hfirst & Hrun & _).
  assert (Htok : first_count_before_result
                   (element_text RESULT_STATS_SELECTOR (Sim.tick 1000 w)) "71,60,000").
  { apply Hfirst. reflexivity. }
  split; [exact Htok|].
  apply Hrun; try reflexivity. exact Htok.
Defined.

(** C3.  A result-stats text without the pattern: the scrape leaves its
    [try] block without a [return], so its result is [None], and the loop
    writes the text "None" into the cell, which is none of the result
    values and no failure sentinel. *)
Theorem scrape_without_result_token :
  let cfg := Sim.config true 300000 5000 in
  let w := Sim.calm (fun _ _ => "<html>") (fun _ => "About 5 hits") in
  let s := Sim.start w ["alpha"] in
  res (scrape_result_count s) = Ok None
  /\ res (main cfg 10 s) = Ok tt
  /\ cells_written (out (main cfg 10 s)) = [(2, 7, "25-May-2024"); (4, 7, "None")].
Proof. vm_compute. repeat split. Qed.


(** ** One result per query *)

Section Results.
Context {W : Type} `{World W}.
Variable config : Config.

Lemma bind_ok_out {A B} (m : M W A) (f : A -> M W B) (s : Run W) (a : A) :
  res (m s) = Ok a -> out (bind m f s) = out (m s) ++ out (f a (st (m s))).
Proof. intros E. now rewrite (bind_ok _ _ _ _ E). Qed.

Lemma typing_block_quiet (text : string) :
  respects (events_in not_search_failure) (typing_block text).
Proof.
  unfold typing_block. respects_tac. apply typing_not_search_failure.
Qed.

Lemma typing_block_true (text : string) (s : Run W) (b : bool) :
  res (typing_block text s) = Ok b -> b = true.
Proof.
  unfold typing_block. intros E.
  apply bind_inv_ok in E as (a1 & _ & E).
  apply bind_inv_ok in E as (a2 & _ & E).
  apply bind_inv_ok in E as (a3 & _ & E).
  apply bind_inv_ok in E as (a4 & _ & E).
  now injection E.
Qed.

(** The error line of the search box is logged exactly when the function
    answers [False]. *)
Lemma find_and_type_failures (text : string) (s : Run W) (b : bool) :
  res (find_and_type_in_search_box text s) = Ok b ->
  count is_search_failure (out (find_and_type_in_search_box text s))
  = if b then 0 else 1.
Proof.
  unfold find_and_type_in_search_box. fold (typing_block text).
  pose proof (typing_block_quiet text s) as Hq. unfold events_in in Hq.
  apply count_zero in Hq.
  destruct (res (typing_block text s)) as [a|e|] eqn:E.
  - rewrite (try_except_ok _ _ _ _ E), E. intros [= <-].
    now rewrite (typing_block_true _ _ _ E).
  - destruct e;
      try (rewrite (try_except_passed _ _ _ _ E eq_refl), E; discriminate).
    erewrite try_except_caught; [|exact E|reflexivity].
    cbn [res out]. run_simpl. intros [= <-].
    rewrite count_app, Hq. reflexivity.
  - rewrite (try_except_out_of_fuel _ _ _ E), E. discriminate.
Qed.

(** The [if]/[else] of the loop body: the [continue] comes with exactly
    one error line of the search box, a result with none; a blank query
    gives the empty result. *)
Lemma run_query_failures (fuel row : nat) (query : string) (s : Run W) (r : step) :
  res (run_query config fuel row query s) = Ok r ->
  match r with
  | Continue => count is_search_failure (out (run_query config fuel row query s)) = 1
  | Result v =>
      count is_search_failure (out (run_query config fuel row query s)) = 0
      /\ (PyStr.forallb PyStr.is_space query = true -> v = Some "")
  end.
Proof.
  unfold run_query.
  destruct (PyStr.truthy (PyStr.strip query)) eqn:Hq; cbn [negb].
  - assert (Hnb : PyStr.forallb PyStr.is_space query = true -> False).
    { intros Hb. rewrite (StringFacts.truthy_strip_blank _ Hb) in Hq.
      discriminate. }
    intros E.
    destruct (bind_inv_ok _ _ _ _ E) as (a1 & E1 & E').
    rewrite (bind_ok_out _ _ _ _ E1).
    destruct (bind_inv_ok _ _ _ _ E') as (a2 & E2 & E'').
    rewrite (bind_ok_out _ _ _ _ E2).
    destruct (bind_inv_ok _ _ _ _ E'') as (found & E3 & E''').
    rewrite (bind_ok_out _ _ _ _ E3).
    pose proof (find_and_type_failures _ _ _ E3) as Hf.
    rewrite !count_app, Hf.
    assert (H1 : count is_search_failure
                   (out (browser (Get "https://www.google.com") s)) = 0).
    { apply count_zero. unfold browser, call.
      now destruct (webdriver (Get "https://www.google.com") (world s)) as [[x|] w]. }
    rewrite H1. cbn [pause modify out count filter List.length Nat.add].
    destruct found; cbn [negb] in *.
    + destruct (bind_inv_ok _ _ _ _ E''') as (a4 & E4 & E5).
      rewrite (bind_ok_out _ _ _ _ E4).
      destruct (bind_inv_ok _ _ _ _ E5) as (v & E6 & E7).
      rewrite (bind_ok_out _ _ _ _ E6).
      injection E7 as <-.
      pose proof (detect_and_scrape_not_search_failure config fuel query
                    (st (pause DELAY_AFTER_PAGE_LOAD
                           (st (find_and_type_in_search_box query
                                  (st (pause (1000, 2000)%Z
                                         (st (browser (Get "https://www.google.com") s))))))))) as Hd.
      unfold events_in in Hd. apply count_zero in Hd.
      rewrite !count_app, Hd. cbn [pause modify ret out count filter List.length Nat.add].
      split; [reflexivity | intros Hb; now destruct (Hnb Hb)].
    + injection E''' as <-. reflexivity.
  - run_simpl. intros [= <-]. split; [reflexivity | reflexivity].
Qed.

(** A turn of the loop that returns wrote one cell, in its row of the
    target column, or logged one failure of the search box. *)
Lemma process_query_written (fuel col n i : nat) (query : string) (s : Run W) :
  res (process_query config fuel col n i query s) = Ok tt ->
  let o := out (process_query config fuel col n i query s) in
  (cells_written o = [] /\ count is_search_failure o = 1)
  \/ (exists v, cells_written o = [(PDP_START_ROW + i, col, v)]
                /\ count is_search_failure o = 0
                /\ (PyStr.forallb PyStr.is_space query = true -> v = "")).
Proof.
  unfold process_query. cbv zeta. intros E.
  destruct (bind_inv_ok _ _ _ _ E) as (a1 & E1 & E').
  rewrite (bind_ok_out _ _ _ _ E1).
  destruct (bind_inv_ok _ _ _ _ E') as (r & E2 & E'').
  rewrite (bind_ok_out _ _ _ _ E2).
  pose proof (run_query_failures _ _ _ _ _ E2) as Hr.
  pose proof (run_query_not_sheets config fuel (PDP_START_ROW + i) query
                (st (logging INFO (MsgProcessing (i + 1) n query (PDP_START_ROW + i)) s)))
    as Hs.
  unfold events_in in Hs. apply cells_written_none in Hs.
  rewrite !cells_written_app, !count_app, Hs.
  cbn [logging emit out st cells_written flat_map app] in *.
  rewrite count_cons. cbn [is_search_failure Nat.add].
  destruct r as [|v].
  - left. cbn [ret out]. rewrite Hr. now split.
  - right. destruct Hr as [Hr Hb]. exists (py_str v).
    rewrite write_result_written, Hr.
    pose proof (write_result_not_search_failure col (PDP_START_ROW + i) v
                  (st (run_query config fuel (PDP_START_ROW + i) query s))) as Hw.
    unfold events_in in Hw. apply count_zero in Hw. rewrite Hw.
    repeat split. intros Hq. now rewrite (Hb Hq).
Qed.

(** The loop: every query gives a cell or a failure of the search box; if
    no search box failed, the cells follow the queries. *)
Lemma for_queries_written (fuel col n : nat) (queries : list string) :
  forall (i : nat) (s : Run W),
    res (for_queries config fuel col n i queries s) = Ok tt ->
    let o := out (for_queries config fuel col n i queries s) in
    List.length (cells_written o) + count is_search_failure o = List.length queries
    /\ (count is_search_failure o = 0 ->
        written_in_order i col queries (cells_written o)).
Proof.
  induction queries as [|query queries IH]; intros i s E; cbv zeta.
  - now split.
  - cbn [for_queries] in *.
    destruct (bind_inv_ok _ _ _ _ E) as ([] & E1 & E2).
    rewrite (bind_ok_out _ _ _ _ E1).
    destruct (IH (S i) _ E2) as [Hlen Hord].
    rewrite cells_written_app, count_app, length_app. cbn [List.length].
    destruct (process_query_written _ _ _ _ _ _ E1)
      as [[Hw Hf] | (v & Hw & Hf & Hb)]; rewrite Hw, Hf; cbn [List.length app].
    + split; [lia | intros Hz; lia].
    + split; [lia|]. intros Hz. cbn [written_in_order Nat.add].
      repeat split; [exact Hb | now apply Hord].
Qed.

Lemma first_cells_full (queries_data : list (list string)) :
  Forall (fun item => item <> []) queries_data ->
  first_cells queries_data = map (hd "") queries_data.
Proof.
  induction 1 as [|item rest Hitem _ IH]; [reflexivity|].
  destruct item as [|cell0 item]; [congruence|].
  simpl. now rewrite IH.
Qed.

(** C1, as the code has it.  When every fetched row holds a cell, the
    queries are the first cells of the fetched rows, one per row and in
    row order; in a run of the loop that ends without an exception, every
    query gives either one written cell or one logged failure of the
    search box, so the number of cells written is the number of fetched
    rows minus the number of failed searches; and when no search box
    failed, there is exactly one cell per fetched row, in row order, each
    in the sheet row its query was fetched from, with the empty string for
    the whitespace-only texts. *)
Theorem results_follow_rows (fuel col : nat) (queries_data : list (list string))
    (s : Run W) :
  Forall (fun item => item <> []) queries_data ->
  let queries := first_cells queries_data in
  let r := for_queries config fuel col (List.length queries) 0 queries s in
  res r = Ok tt ->
  queries = map (hd "") queries_data
  /\ List.length (cells_written (out r)) + count is_search_failure (out r)
     = List.length queries_data
  /\ (count is_search_failure (out r) = 0 ->
      written_in_order 0 col queries (cells_written (out r))).
Proof.
  intros Hfull queries r Hok.
  assert (Hq : queries = map (hd "") queries_data)
    by now apply first_cells_full.
  destruct (for_queries_written fuel col (List.length queries) queries 0 s Hok)
    as [Hlen Hord].
  split; [exact Hq|]. split; [|exact Hord].
  fold r in Hlen. rewrite Hlen, Hq. apply length_map.
Qed.

End Results.

(** C1 as amended, on three fetched rows, the second one blank: three
    cells, in rows 4, 5 and 6, the second one empty. *)
Lemma results_follow_rows_witness :
  let cfg := Sim.config true 300000 5000 in
  let w := Sim.calm (fun _ _ => "") (fun _ => "About 3 results") in
  let queries_data := [["alpha"]; ["  "]; ["gamma"]] in
  let s := Sim.start w ["alpha"; "  "; "gamma"] in
  let r := for_queries cfg 10 7 3 0 (first_cells queries_data) s in
  Forall (fun item => item <> []) queries_data
  /\ res r = Ok tt
  /\ List.length (cells_written (out r)) + count is_search_failure (out r) = 3
  /\ cells_written (out r) = [(4, 7, "3"); (5, 7, ""); (6, 7, "3")].
Proof.
  intros cfg w queries_data s r.
  assert (Hfull : Forall (fun item : list string => item <> []) queries_data)
    by (repeat constructor; discriminate).
  assert (Hok : res r = Ok tt) by (vm_compute; reflexivity).
  split; [exact Hfull|]. split; [exact Hok|].
  split; [|vm_compute; reflexivity].
  exact (proj1 (proj2 (results_follow_rows cfg 10 7 queries_data s Hfull Hok))).
Defined.

(** C1 as stated fails: two rows are fetched, the search box of the second
    query is not found, and the loop ends normally with a single cell
    written; the run of [main] writes the stamp and that one cell. *)
Lemma results_per_row_counterexample :
  let cfg := Sim.config true 300000 5000 in
  let w := Sim.with_browser second_search_fails
             (Sim.calm (fun _ _ => "") (fun _ => "About 3 results")) in
  let s := Sim.start w ["alpha"; "beta"] in
  let queries_data :=
    Sheet.get_column (sheet s) (Sheet.a1_column PDP_QUERIES_COLUMN)
                     PDP_START_ROW PDP_END_ROW in
  let r := for_queries cfg 10 7 2 0 (first_cells queries_data) s in
  queries_data = [["alpha"]; ["beta"]]
  /\ res r = Ok tt
  /\ cells_written (out r) = [(4, 7, "3")]
  /\ List.length (cells_written (out r)) <> List.length queries_data
  /\ res (main cfg 10 s) = Ok tt
  /\ cells_written (out (main cfg 10 s)) = [(2, 7, "25-May-2024"); (4, 7, "3")].
Proof. vm_compute. repeat split. discriminate. Qed.

(** The filter of line 193 drops a row whose cell is empty, and the rows
    after it move up: with D4 = "alpha", D5 empty and D6 = "gamma", the
    result of "gamma" is written to row 5. *)
Lemma empty_row_shifts_results :
  let cfg := Sim.config true 300000 5000 in
  let w := Sim.calm (fun _ _ => "") (fun k => if k =? 1 then "About 3 results"
                                              else "About 9 results") in
  let s := Sim.start w ["alpha"; ""; "gamma"] in
  Sheet.get_column (sheet s) (Sheet.a1_column PDP_QUERIES_COLUMN)
                   PDP_START_ROW PDP_END_ROW
  = [["alpha"]; []; ["gamma"]]
  /\ cells_written (out (main cfg 10 s))
     = [(2, 7, "25-May-2024"); (4, 7, "3"); (5, 7, "9")].
Proof. vm_compute. repeat split. Qed.


(** ** Waiting for the CAPTCHA *)

Section Captcha.
Context {W : Type} `{World W}.
Variable config : Config.

(** A page that shows a marker was read without an exception. *)
Lemma blocked_read (w : W) :
  blocked (page_source w) = true -> driver_page_source w = inr (page_source w).
Proof.
  unfold page_source. destruct (driver_page_source w) as [e|src];
    [discriminate | reflexivity].
Qed.

(** One turn of the waiting loop. *)
Lemma captcha_wait_step (fuel : nat) (start : Z) (kw : string) (alert : bool)
    (s : Run W) :
  captcha_wait config (S fuel) start kw alert s
  = if (time_time (world s) - start <? CAPTCHA_WAIT_TIMEOUT config)%Z then
      match driver_page_source (world s) with
      | inl e => mkResult (Raise e) s []
      | inr src =>
          if blocked src then
            match sleep_error (CAPTCHA_CHECK_INTERVAL config) with
            | Some e =>
                mkResult (Raise e) (after_alert config alert kw s)
                  (alert_trace config alert kw
                     (fst (smtp CAPTCHA_SUBJECT (CaptchaBody kw) (world s))))
            | None =>
                let r := captcha_wait config fuel start kw true
                           (set_world (after_blocked_poll config (negb alert) kw
                                         (world s)) s) in
                mkResult (res r) (st r)
                  (alert_trace config alert kw
                     (fst (smtp CAPTCHA_SUBJECT (CaptchaBody kw) (world s)))
                   ++ Stdout "." :: out r)
            end
          else mkResult (Ok true) s [Log INFO MsgCaptchaSolved]
      end
    else mkResult (Ok false) s [Log ERROR (MsgCaptchaTimeout (CAPTCHA_WAIT_TIMEOUT config))].
Proof.
  cbn [captcha_wait]. unfold blocked, after_blocked_poll, after_alert, alert_trace.
  run_simpl.
  destruct (time_time (world s) - start <? CAPTCHA_WAIT_TIMEOUT config)%Z;
    run_cbn; [|reflexivity].
  destruct (driver_page_source (world s)) as [e|src] eqn:E; run_cbn;
    [reflexivity|].
  destruct (PyStr.contains "reCAPTCHA" src); run_cbn; rewrite ?E; run_cbn;
    destruct (PyStr.contains "unusual traffic" src);
    run_cbn; try reflexivity;
    (destruct alert; run_cbn;
     [| rewrite send_error_email_eq; run_cbn;
        destruct (ENABLE_EMAIL_NOTIFICATIONS config); run_cbn ];
     unfold time_sleep; destruct (sleep_error (CAPTCHA_CHECK_INTERVAL config));
     run_simpl; unfold set_world; cbn [world sheet driver];
     rewrite ?app_nil_r; try reflexivity;
     match goal with
     | |- context [captcha_wait _ _ _ _ _ ?s'] =>
         now destruct (captcha_wait config fuel start kw true s')
     end).
Qed.

Lemma count_alert_trace (alert : bool) (kw : string) (answer : option exn) :
  count is_captcha_mail (alert_trace config alert kw answer)
  = if negb alert && ENABLE_EMAIL_NOTIFICATIONS config then 1 else 0.
Proof.
  unfold alert_trace, email_trace.
  now destruct alert, (ENABLE_EMAIL_NOTIFICATIONS config), answer.
Qed.

Lemma handle_captcha_eq (fuel : nat) (kw : string) (s : Run W) :
  handle_captcha config fuel kw s
  = let r := captcha_wait config fuel (time_time (world s)) kw false s in
    mkResult (res r) (st r) (Log WARNING MsgCaptchaDetected :: out r).
Proof.
  unfold handle_captcha. run_simpl.
  now destruct (captcha_wait config fuel (time_time (world s)) kw false s).
Qed.

(** The waiting loop, poll by poll, for every configuration and every
    world.  It makes polls [0 .. k]: the polls before [k] found a marker
    before the timeout and slept; poll [k] finds the timeout elapsed
    (false), reads a page without marker (true), cannot read the page
    (the exception of the read), finds a marker and cannot sleep (the
    exception of the sleep), or is cut off by the fuel.  The alert goes
    out with the first poll that finds a marker, if it was not sent
    before and notifications are enabled. *)
Lemma captcha_wait_polls (fuel : nat) :
  forall (start : Z) (kw : string) (alert : bool) (s : Run W),
    let r := captcha_wait config fuel start kw alert s in
    let P := fun j => poll_world config (negb alert) j kw (world s) in
    let elapsed := fun j => (time_time (P j) - start)%Z in
    let mails := count is_captcha_mail (out r) in
    let sent := fun found : bool =>
      if negb alert && ENABLE_EMAIL_NOTIFICATIONS config && found then 1 else 0 in
    exists k,
      k <= fuel /\ sheet (st r) = sheet s /\ driver (st r) = driver s
      /\ (forall j, j < k ->
            (elapsed j < CAPTCHA_WAIT_TIMEOUT config)%Z
            /\ blocked (page_source (P j)) = true
            /\ sleep_error (CAPTCHA_CHECK_INTERVAL config) = None)
      /\ ((res r = Ok false /\ (CAPTCHA_WAIT_TIMEOUT config <= elapsed k)%Z
           /\ world (st r) = P k /\ mails = sent (0 <? k))
          \/ (res r = Ok true /\ (elapsed k < CAPTCHA_WAIT_TIMEOUT config)%Z
              /\ (exists src, driver_page_source (P k) = inr src
                              /\ blocked src = false)
              /\ world (st r) = P k /\ mails = sent (0 <? k))
          \/ (exists e, res r = Raise e
              /\ (elapsed k < CAPTCHA_WAIT_TIMEOUT config)%Z
              /\ driver_page_source (P k) = inl e
              /\ world (st r) = P k /\ mails = sent (0 <? k))
          \/ (exists e, res r = Raise e
              /\ (elapsed k < CAPTCHA_WAIT_TIMEOUT config)%Z
              /\ blocked (page_source (P k)) = true
              /\ sleep_error (CAPTCHA_CHECK_INTERVAL config) = Some e
              /\ mails = sent true)
          \/ (res r = OutOfFuel /\ k = fuel /\ mails = sent (0 <? k))).
Proof.
  induction fuel as [|f IH]; intros start kw alert s; cbv zeta.
  { exists 0. cbn [captcha_wait out_of_fuel res st out poll_world].
    repeat split; try lia.
    do 4 right. repeat split. cbn. now rewrite andb_false_r. }
  rewrite captcha_wait_step.
  destruct (time_time (world s) - start <? CAPTCHA_WAIT_TIMEOUT config)%Z eqn:Hlt.
  2:{ apply Z.ltb_ge in Hlt. exists 0. cbn [res st out poll_world].
      repeat split; try lia.
      left. repeat split; [assumption|]. cbn. now rewrite andb_false_r. }
  apply Z.ltb_lt in Hlt.
  destruct (driver_page_source (world s)) as [e|src] eqn:Hread.
  { exists 0. cbn [res st out poll_world]. repeat split; try lia.
    right. right. left. exists e. repeat split; try assumption.
    cbn. now rewrite andb_false_r. }
  assert (Hsrc : page_source (world s) = src)
    by (unfold page_source; now rewrite Hread).
  destruct (blocked src) eqn:Hb.
  2:{ exists 0. cbn [res st out poll_world]. repeat split; try lia.
      right. left. repeat split; try assumption.
      - now exists src.
      - cbn. now rewrite andb_false_r. }
  destruct (sleep_error (CAPTCHA_CHECK_INTERVAL config)) as [e|] eqn:Hsleep.
  { exists 0. cbn [res st out poll_world].
    split; [lia|]. split; [unfold after_alert; now destruct (_ && _)|].
    split; [unfold after_alert; now destruct (_ && _)|].
    split; [intros j Hj; lia|].
    do 3 right. left. exists e. rewrite Hsrc.
    repeat split; try assumption.
    rewrite count_alert_trace. now rewrite andb_true_r. }
  cbv zeta. cbn [res st out].
  set (s2 := set_world (after_blocked_poll config (negb alert) kw (world s)) s).
  destruct (IH start kw true s2) as (k & Hk & Hs & Hd & Hpolls & Hend).
  cbn [negb andb] in Hend.
  exists (S k). cbn [poll_world]. subst s2.
  cbn [world set_world sheet driver] in *.
  split; [lia|]. split; [assumption|]. split; [assumption|]. split.
  { intros [|j] Hj; cbn [poll_world].
    - rewrite Hsrc. now repeat split.
    - apply Hpolls. lia. }
  assert (Hmails : forall o,
            count is_captcha_mail o = 0 ->
            count is_captcha_mail
              (alert_trace config alert kw
                 (fst (smtp CAPTCHA_SUBJECT (CaptchaBody kw) (world s)))
               ++ Stdout "." :: o)
            = if negb alert && ENABLE_EMAIL_NOTIFICATIONS config && (0 <? S k)
              then 1 else 0).
  { intros o Ho. rewrite count_app, count_cons, count_alert_trace, Ho.
    cbn [is_captcha_mail Nat.ltb Nat.leb]. rewrite andb_true_r. lia. }
  destruct Hend as [(Hr & Ht & Hw & Hm) | [(Hr & Ht & Hp & Hw & Hm)
    | [(e & Hr & Ht & Hp & Hw & Hm) | [(e & Hr & Ht & Hp & He & Hm)
    | (Hr & Hf & Hm)]]]].
  - left. repeat split; try assumption. now apply Hmails.
  - right. left. repeat split; try assumption. now apply Hmails.
  - right. right. left. exists e. repeat split; try assumption.
    now apply Hmails.
  - congruence.
  - do 4 right. repeat split; [assumption | lia | now apply Hmails].
Qed.

(** A waiting loop whose sleep raises ends at its first turn. *)
Lemma captcha_wait_ends_raising (fuel : nat) (start : Z) (kw : string)
    (alert : bool) (s : Run W) :
  sleep_error (CAPTCHA_CHECK_INTERVAL config) <> None ->
  res (captcha_wait config (S fuel) start kw alert s) <> OutOfFuel.
Proof.
  intros Hsleep. rewrite captcha_wait_step.
  destruct (_ <? _)%Z; [|discriminate].
  destruct (driver_page_source (world s)); [discriminate|].
  destruct (blocked _); [|discriminate].
  destruct (sleep_error _); [discriminate | congruence].
Qed.

(** A waiting loop whose turns take time ends within the fuel that covers
    the timeout. *)
Lemma captcha_wait_ends_in_time (tick : Z) (fuel : nat) :
  (0 < tick)%Z ->
  (forall first keyword w,
     (time_time w + tick
      <= time_time (after_blocked_poll config first keyword w))%Z) ->
  forall (start : Z) (kw : string) (alert : bool) (s : Run W),
    1 <= fuel ->
    (CAPTCHA_WAIT_TIMEOUT config - (time_time (world s) - start)
     <= (Z.of_nat fuel - 1) * tick)%Z ->
    res (captcha_wait config fuel start kw alert s) <> OutOfFuel.
Proof.
  intros Htick Hturn.
  induction fuel as [|f IH]; intros start kw alert s Hfuel Hfits; [lia|].
  rewrite captcha_wait_step.
  destruct (_ <? _)%Z eqn:Hlt; [|discriminate]. apply Z.ltb_lt in Hlt.
  destruct (driver_page_source (world s)); [discriminate|].
  destruct (blocked _); [|discriminate].
  destruct (sleep_error _); [discriminate|].
  cbv zeta. cbn [res].
  pose proof (Hturn (negb alert) kw (world s)) as Hadv.
  apply IH.
  - destruct f; [|lia]. simpl in Hfits. lia.
  - cbn [world set_world]. nia.
Qed.

(** With fuel that suffices the handler ends. *)
Lemma handle_captcha_terminates (fuel : nat) (kw : string) :
  fuel_suffices config fuel -> terminates (handle_captcha config fuel kw).
Proof.
  intros [Hfuel Hends] s. rewrite handle_captcha_eq. cbv zeta. cbn [res].
  destruct Hends as [Hsleep | (tick & Htick & Hfor & Hturn)].
  - destruct fuel as [|f]; [lia|]. now apply captcha_wait_ends_raising.
  - apply (captcha_wait_ends_in_time tick); try assumption.
    unfold fuel_for in Hfor.
    set (T := CAPTCHA_WAIT_TIMEOUT config) in *.
    pose proof (Z.mul_succ_div_gt T tick Htick) as Hdiv.
    assert (Hq : (T / tick + 1 <= Z.of_nat fuel - 1)%Z) by lia.
    assert (Hmul : ((T / tick + 1) * tick <= (Z.of_nat fuel - 1) * tick)%Z)
      by (apply Z.mul_le_mono_nonneg_r; lia).
    lia.
Qed.

(** A positive poll interval makes every turn take that long. *)
Lemma positive_interval_suffices {HC : Clock W} (fuel : nat) :
  (0 < CAPTCHA_CHECK_INTERVAL config)%Z ->
  fuel_for config (CAPTCHA_CHECK_INTERVAL config) <= fuel ->
  fuel_suffices config fuel.
Proof.
  intros HI Hfuel. split; [unfold fuel_for in Hfuel; lia|].
  right. exists (CAPTCHA_CHECK_INTERVAL config).
  split; [assumption|]. split; [assumption|].
  intros first kw w. unfold after_blocked_poll.
  destruct (first && ENABLE_EMAIL_NOTIFICATIONS config).
  - pose proof (smtp_monotone CAPTCHA_SUBJECT (CaptchaBody kw) w).
    pose proof (sleep_advances (CAPTCHA_CHECK_INTERVAL config)
                  (snd (smtp CAPTCHA_SUBJECT (CaptchaBody kw) w))).
    lia.
  - apply sleep_advances.
Qed.

(** Lines 213-219 on a block page: the handler decides. *)
Lemma detect_on_block (fuel : nat) (kw : string) (s : Run W) :
  blocked (page_source (world s)) = true ->
  detect_and_scrape config fuel kw s
  = let h := handle_captcha config fuel kw s in
    match res h with
    | Ok true =>
        let r := scrape_result_count (st h) in
        mkResult (res r) (st r) (out h ++ out r)
    | Ok false => mkResult (Ok (Some "CAPTCHA FAILED")) (st h) (out h)
    | Raise e => mkResult (Raise e) (st h) (out h)
    | OutOfFuel => mkResult OutOfFuel (st h) (out h)
    end.
Proof.
  intros Hb. pose proof (blocked_read _ Hb) as Hread.
  unfold blocked in Hb.
  unfold detect_and_scrape. run_simpl. rewrite Hread. run_cbn.
  destruct (PyStr.contains "unusual traffic" (page_source (world s))) eqn:Hu;
    run_cbn;
    [| rewrite Hread; run_cbn; rewrite orb_false_r in Hb; rewrite Hb].
  all: destruct (handle_captcha config fuel kw s) as [[[|]|e|] s' o];
    cbn [res st out negb]; rewrite ?app_nil_r; try reflexivity;
    now destruct (scrape_result_count s').
Qed.

End Captcha.

#[global] Instance sim_clock : Clock Sim.t.
Proof.
  split.
  - intros d w. cbn. lia.
  - intros subj body w. cbn. lia.
Qed.

Section Episode.
Context {W : Type} `{World W}.
Variable config : Config.

(** A turn of the loop whose search was submitted: the check for a block
    page and the scrape give the result, and the result is written. *)
Lemma process_query_after_search (fuel col n i : nat) (q : string) (s0 : Run W) :
  PyStr.truthy (PyStr.strip q) = true ->
  res (search_for q s0) = Ok true ->
  process_query config fuel col n i q s0
  = let d := detect_and_scrape config fuel q (st (search_for q s0)) in
    let head := Log INFO (MsgProcessing (i + 1) n q (PDP_START_ROW + i))
                :: out (search_for q s0) in
    match res d with
    | Ok v =>
        let w := write_result col (PDP_START_ROW + i) v (st d) in
        mkResult (res w) (st w) (head ++ out d ++ out w)
    | Raise e => mkResult (Raise e) (st d) (head ++ out d)
    | OutOfFuel => mkResult OutOfFuel (st d) (head ++ out d)
    end.
Proof.
  intros Hq. unfold process_query, run_query, search_for. rewrite Hq.
  cbn [negb]. unfold logging, emit, ret, bind.
  destruct (browser (Get "https://www.google.com") s0) as [[[]|e|] s1 o1];
    cbn [res st out]; try discriminate.
  destruct (pause (1000, 2000)%Z s1) as [[[]|e|] s2 o2];
    cbn [res st out]; try discriminate.
  destruct (find_and_type_in_search_box q s2) as [[[|]|e|] s3 o3];
    cbn [res st out negb]; try discriminate.
  destruct (pause DELAY_AFTER_PAGE_LOAD s3) as [[[]|e|] s4 o4];
    cbn [res st out]; try discriminate.
  intros _.
  destruct (detect_and_scrape config fuel q s4) as [[v|e|] s5 o5];
    cbn [res st out app].
  - destruct (write_result col (PDP_START_ROW + i) v s5) as [rw sw ow].
    cbn [res st out]. f_equal. f_equal.
    now rewrite ?app_nil_r, <- ?app_assoc.
  - f_equal. f_equal. now rewrite ?app_nil_r, <- ?app_assoc.
  - f_equal. f_equal. now rewrite ?app_nil_r, <- ?app_assoc.
Qed.


End Episode.



(** ** The top-level handler *)

#[global] Hint Resolve typing_body_events typing_not_sheets
  typing_not_search_failure typing_same_sheet wait_body_events
  wait_not_sheets wait_not_search_failure wait_same_sheet : respects.
#[global] Hint Resolve typing_terminates : terminates.

(** The script without the CAPTCHA handler, whose end depends on the
    fuel. *)
Ltac open_loop :=
  unfold main, cleanup, report_crash, main_body, process_query,
    write_result, run_query, detect_and_scrape, scrape_result_count,
    prepare_sheet_and_get_target_column, find_and_type_in_search_box,
    driver_quit, get_webdriver, connect_to_google_sheets,
    send_error_email, pause, time_sleep, sheets, browser,
    print, logging.

(** The script without [send_error_email], whose emails depend on the
    configuration. *)
Ltac open_mails :=
  unfold main, cleanup, report_crash, main_body, process_query,
    write_result, run_query, detect_and_scrape, scrape_result_count,
    prepare_sheet_and_get_target_column, find_and_type_in_search_box,
    driver_quit, get_webdriver, connect_to_google_sheets, handle_captcha,
    pause, time_sleep, sheets, browser, print, logging.

Section Crash.
Context {W : Type} `{World W}.
Variable config : Config.

Lemma count_zero_of (p q : event -> bool) (l : list event) :
  forallb p l = true -> (forall e, p e = true -> q e = false) -> count q l = 0.
Proof.
  intros Hl Hpq. apply count_zero.
  rewrite forallb_forall in *. intros e He.
  now rewrite (Hpq e (Hl e He)).
Qed.

Lemma for_queries_body_events (fuel col n i : nat) (queries : list string) :
  respects (events_in body_event) (for_queries config fuel col n i queries).
Proof.
  revert i. induction queries as [|q queries IH]; intros i; cbn [for_queries];
    respects_tac.
Qed.

Lemma main_body_events (fuel : nat) :
  respects (events_in body_event) (main_body config fuel).
Proof.
  pose proof (for_queries_body_events fuel) as Hloop. respects_tac.
Qed.

Section Muted.
Hypothesis muted : ENABLE_EMAIL_NOTIFICATIONS config = false.

Lemma send_error_email_muted (subject : string) (body : email_body) :
  respects (events_in not_mail) (send_error_email config subject body).
Proof.
  intros s. rewrite send_error_email_eq. cbn [st out].
  unfold events_in, email_trace. now rewrite muted.
Qed.

Lemma typing_muted sel text :
  respects (events_in not_mail) (human_like_typing sel text).
Proof. induction text; simpl; respects_tac. Qed.

Lemma wait_muted fuel start kw alert :
  respects (events_in not_mail) (captcha_wait config fuel start kw alert).
Proof.
  pose proof send_error_email_muted as Hmail.
  revert alert. induction fuel; intros alert; simpl;
    open_mails; repeat respects_step.
Qed.

Lemma for_queries_muted (fuel col n i : nat) (queries : list string) :
  respects (events_in not_mail) (for_queries config fuel col n i queries).
Proof.
  pose proof send_error_email_muted as Hmail.
  pose proof typing_muted as Htype.
  pose proof wait_muted as Hwait.
  revert i. induction queries as [|q queries IH]; intros i; cbn [for_queries];
    open_mails; repeat respects_step.
Qed.

(** With the notifications switched off a run sends no email at all. *)
Lemma main_muted (fuel : nat) : respects (events_in not_mail) (main config fuel).
Proof.
  pose proof send_error_email_muted as Hmail.
  pose proof for_queries_muted as Hloop.
  open_mails; repeat respects_step.
Qed.

End Muted.

Section Fuel.
Variable fuel : nat.
Hypothesis fuel_enough : fuel_suffices config fuel.

Lemma for_queries_terminates (col n i : nat) (queries : list string) :
  terminates (for_queries config fuel col n i queries).
Proof.
  pose proof (fun kw => handle_captcha_terminates config fuel kw fuel_enough)
    as Hcap.
  revert i. induction queries as [|q queries IH]; intros i; cbn [for_queries];
    open_loop; repeat terminates_step.
Qed.

Lemma main_terminates : terminates (main config fuel).
Proof.
  pose proof for_queries_terminates as Hloop.
  open_loop; repeat terminates_step.
Qed.

End Fuel.

(** C6, as the code has it.  Every run of [main], in every configuration
    and world: no exception leaves [main]; it returns normally (the
    process ends with status 0) unless a waiting loop of its body goes on
    without end, and it does return when the fuel suffices for these
    loops.  An exception of the body is caught once: one critical line
    with the error and its traceback is logged, and, when email
    notifications are enabled, one crash email with the same content is
    sent; a body that returns gives neither; with the notifications
    disabled the whole run sends no email.  When [main] returns, the
    variable [driver] is as the body left it; when it holds the session,
    the release of the browser is the last call of the run, and it
    happens once; when it holds nothing, no release is called. *)
Theorem main_reports_and_releases (fuel : nat) (s : Run W) :
  let b := main_body config fuel (set_driver None s) in
  let r := main config fuel s in
  (forall e, res r <> Raise e)
  /\ (res r = OutOfFuel <-> res b = OutOfFuel)
  /\ (fuel_suffices config fuel -> res r = Ok tt)
  /\ (forall e, res b = Raise e ->
        count is_critical (out r) = 1
        /\ In (Log CRITICAL (MsgCritical e)) (out r)
        /\ (ENABLE_EMAIL_NOTIFICATIONS config = true ->
            count is_crash_mail (out r) = 1
            /\ In (SendMail CRASH_SUBJECT (CrashBody e)) (out r)))
  /\ ((forall e, res b <> Raise e) ->
        count is_critical (out r) = 0 /\ count is_crash_mail (out r) = 0)
  /\ (ENABLE_EMAIL_NOTIFICATIONS config = false -> count is_mail (out r) = 0)
  /\ (res r = Ok tt ->
      driver (st r) = driver (st b)
      /\ (driver (st b) <> None ->
            exists pre,
              out r = pre ++ [Log INFO MsgClosingWebDriver; Browser QuitDriver;
                              Log INFO MsgFinished]
              /\ count is_quit pre = 0)
      /\ (driver (st b) = None -> count is_quit (out r) = 0)).
Proof.
  intros b r.
  pose proof (main_body_events fuel (set_driver None s)) as Hev.
  fold b in Hev. unfold events_in in Hev.
  assert (Hc : count is_critical (out b) = 0).
  { apply (count_zero_of body_event); [exact Hev|].
    intros e. unfold body_event. now destruct (is_critical e). }
  assert (Hm : count is_crash_mail (out b) = 0).
  { apply (count_zero_of body_event); [exact Hev|].
    intros e. unfold body_event.
    now destruct (is_critical e), (is_crash_mail e). }
  assert (Hq : count is_quit (out b) = 0).
  { apply (count_zero_of body_event); [exact Hev|].
    intros e. unfold body_event.
    now destruct (is_critical e), (is_crash_mail e), (is_quit e). }
  assert (Hmuted : ENABLE_EMAIL_NOTIFICATIONS config = false ->
                   count is_mail (out r) = 0).
  { intros Hoff. apply count_zero. exact (main_muted Hoff fuel s). }
  assert (Hsuff : fuel_suffices config fuel -> res r = Ok tt).
  { intros Hf. pose proof (main_terminates fuel Hf s) as Hterm. fold r in Hterm.
    assert (Hr : r = main config fuel s) by reflexivity.
    rewrite main_unfold in Hr. cbv zeta in Hr. fold b in Hr.
    destruct (res b); rewrite Hr in *; cbn [res] in *;
      [reflexivity | reflexivity | congruence]. }
  assert (Hr : r = main config fuel s) by reflexivity.
  rewrite main_unfold in Hr. cbv zeta in Hr. fold b in Hr.
  destruct (res b) as [u|e|] eqn:Hb.
  - (* the body returned *)
    rewrite cleanup_eq in Hr. cbn [st out] in Hr.
    split; [rewrite Hr; discriminate|].
    split; [rewrite Hr; cbn [res]; split; discriminate|].
    split; [exact Hsuff|].
    split; [discriminate|]. split.
    { intros _. rewrite Hr. cbn [out].
      rewrite !count_cons, !count_app, Hc, Hm.
      now destruct (driver (st b)). }
    split; [exact Hmuted|].
    intros _. rewrite Hr. cbn [res st out].
    split; [destruct (driver (st b)) eqn:Hd; cbn [driver set_world]; exact Hd|].
    split.
    + intros Hd. destruct (driver (st b)) as [d|]; [|congruence].
      exists (Log INFO MsgStart :: out b). split; [reflexivity|].
      now rewrite count_cons, Hq.
    + intros Hd. rewrite Hd. cbn [cleanup_trace].
      now rewrite count_cons, count_app, Hq.
  - (* the body raised [e] *)
    rewrite cleanup_eq, driver_after_report in Hr.
    rewrite report_crash_eq in Hr. cbn [st out] in Hr.
    set (answer := fst (smtp CRASH_SUBJECT (CrashBody e) (world (st b)))) in *.
    assert (Hmail : count is_crash_mail (email_trace config CRASH_SUBJECT (CrashBody e) answer)
                    = if ENABLE_EMAIL_NOTIFICATIONS config then 1 else 0).
    { unfold email_trace.
      now destruct (ENABLE_EMAIL_NOTIFICATIONS config), answer. }
    assert (Hcrit : count is_critical (email_trace config CRASH_SUBJECT (CrashBody e) answer) = 0).
    { unfold email_trace.
      now destruct (ENABLE_EMAIL_NOTIFICATIONS config), answer. }
    assert (Hquit : count is_quit (email_trace config CRASH_SUBJECT (CrashBody e) answer) = 0).
    { unfold email_trace.
      now destruct (ENABLE_EMAIL_NOTIFICATIONS config), answer. }
    split; [rewrite Hr; discriminate|].
    split; [rewrite Hr; cbn [res]; split; discriminate|].
    split; [exact Hsuff|]. split.
    { intros e' [= <-]. rewrite Hr. cbn [out]. split; [|split].
      - rewrite !count_cons, !count_app, count_cons, Hc, Hcrit.
        now destruct (driver (st b)).
      - right. apply in_or_app. right. now left.
      - intros Hon. split.
        + rewrite !count_cons, !count_app, count_cons, Hm, Hmail, Hon.
          now destruct (driver (st b)).
        + right. apply in_or_app. right. right. apply in_or_app. left.
          unfold email_trace. rewrite Hon. right. now left. }
    split; [intros Hno; now destruct (Hno e)|].
    split; [exact Hmuted|].
    intros _. rewrite Hr. cbn [res st out].
    split.
    { destruct (ENABLE_EMAIL_NOTIFICATIONS config);
        destruct (driver (st b)) eqn:Hd; cbn [driver set_world]; exact Hd. }
    split.
    + intros Hd. destruct (driver (st b)) as [d|]; [|congruence].
      exists (Log INFO MsgStart :: out b
              ++ Log CRITICAL (MsgCritical e)
                 :: email_trace config CRASH_SUBJECT (CrashBody e) answer).
      split.
      * cbn [cleanup_trace app]. rewrite <- !app_assoc. reflexivity.
      * now rewrite count_cons, count_app, count_cons, Hq, Hquit.
    + intros Hd. rewrite Hd. cbn [cleanup_trace].
      now rewrite count_cons, !count_app, count_cons, Hq, Hquit.
  - (* a waiting loop without end *)
    split; [rewrite Hr; discriminate|].
    split; [rewrite Hr; cbn [res]; now split|].
    split; [exact Hsuff|]. split; [discriminate|].
    split.
    { intros _. rewrite Hr. cbn [out]. now rewrite !count_cons, Hc, Hm. }
    split; [exact Hmuted|].
    rewrite Hr. discriminate.
Qed.

End Crash.

(** C6 as amended, on a machine whose sleeps take a millisecond, with a
    poll interval of zero: the CAPTCHA of the first query is waited for
    until the timeout, the write of "CAPTCHA FAILED" is refused by the
    Sheets API, the exception is logged and mailed once, the browser is
    released, and [main] returns. *)
Lemma main_reports_and_releases_witness :
  let cfg := Sim.config true 50 0 in
  let w := Sim.with_sheets refuse_row_4 (Sim.calm captcha_page (fun _ => "")) in
  let s := Busy.start w ["alpha"; "beta"] in
  fuel_suffices cfg 52
  /\ res (main_body cfg 52 (set_driver None s)) = Raise (LibraryError "APIError")
  /\ res (main cfg 52 s) = Ok tt
  /\ count is_critical (out (main cfg 52 s)) = 1
  /\ count is_crash_mail (out (main cfg 52 s)) = 1
  /\ count is_quit (out (main cfg 52 s)) = 1.
Proof.
  intros cfg w s.
  assert (Hfuel : fuel_suffices cfg 52).
  { split; [repeat constructor|]. right. exists 1%Z.
    split; [reflexivity|]. split; [vm_compute; repeat constructor|].
    intros first kw [x]. destruct first; cbn; lia. }
  assert (Hb : res (main_body cfg 52 (set_driver None s))
               = Raise (LibraryError "APIError")) by (vm_compute; reflexivity).
  destruct (main_reports_and_releases cfg 52 s)
    as (_ & _ & Hok & Hcrash & _ & _ & _).
  destruct (Hcrash _ Hb) as (Hcrit & _ & Hmail).
  destruct (Hmail eq_refl) as [Hone _].
  split; [exact Hfuel|]. split; [exact Hb|]. split; [exact (Hok Hfuel)|].
  split; [exact Hcrit|]. split; [exact Hone|].
  vm_compute. reflexivity.
Defined.

(** C6 as stated fails: with email notifications switched off, a run that
    crashes on a sheet without dated column logs the crash and returns,
    but sends no crash email. *)
Lemma crash_email_counterexample :
  let cfg := Sim.config false 300000 5000 in
  let s := mkRun (Sim.calm (fun _ _ => "") (fun _ => "")) undated_sheet None in
  res (main_body cfg 62 (set_driver None s)) = Raise (PyException NO_DATE_HEADER)
  /\ res (main cfg 62 s) = Ok tt
  /\ count is_critical (out (main cfg 62 s)) = 1
  /\ count is_crash_mail (out (main cfg 62 s)) = 0
  /\ count is_mail (out (main cfg 62 s)) = 0.
Proof. vm_compute. repeat split. Qed.

(** * Further properties of the script *)

(** ** The token of the pattern is a whole run *)

Section WholeRun.
Import PyStr Re.

Lemma append_app_assoc (a b c : string) :
  ((a ++ b) ++ c)%string = (a ++ (b ++ c))%string.
Proof. induction a as [|x a IH]; simpl; [reflexivity | now rewrite IH]. Qed.

Lemma append_length (a b : string) :
  String.length (a ++ b) = String.length a + String.length b.
Proof. induction a as [|x a IH]; simpl; [reflexivity | now rewrite IH]. Qed.

(** X1.  What the pattern search returns stands in the text as a whole
    run of digits and commas: it is not empty, the character before it,
    if there is one, is neither a digit nor a comma (the search never
    returns the tail of a longer number), and a blank follows it. *)
Theorem search_count_whole_run (text tok : string) :
  search_count text = Some tok ->
  exists pre post,
    text = (pre ++ tok ++ String " " post)%string
    /\ tok <> ""
    /\ forallb is_count_char tok = true
    /\ (forall pre' c, pre = (pre' ++ String c "")%string -> is_count_char c = false).
Proof.
  intros Hs.
  apply ReFacts.search_count_some in Hs as (pre & rest & E & Hm & Hmin).
  pose proof (ReFacts.match_here_sound _ _ Hm) as (Hne & Hall & rest' & -> & Hr).
  apply ReFacts.starts_with_result_iff in Hr as (word & post & -> & _).
  exists pre, (word ++ post)%string. repeat split; try assumption.
  intros pre' c ->. destruct (is_count_char c) eqn:Hc; [|reflexivity].
  exfalso.
  assert (Hearlier : match_here (String c (tok ++ " " ++ word ++ post))
                     = Some (String c tok)).
  { cbn [match_here]. now rewrite Hc, Hm. }
  rewrite (Hmin pre' (String c (tok ++ " " ++ word ++ post))) in Hearlier.
  - discriminate.
  - rewrite E. now rewrite append_app_assoc.
  - rewrite append_length. simpl. lia.
Qed.

End WholeRun.

(** X1, on a text with two numbers: the one before " results" is returned
    whole. *)
Lemma search_count_whole_run_witness :
  Re.search_count "Page 2 of about 1,234 results" = Some "1,234"
  /\ exists pre post,
       "Page 2 of about 1,234 results" = (pre ++ "1,234" ++ String " " post)%string
       /\ (forall pre' c, pre = (pre' ++ String c "")%string ->
             Re.is_count_char c = false).
Proof.
  assert (Hs : Re.search_count "Page 2 of about 1,234 results" = Some "1,234")
    by reflexivity.
  split; [exact Hs|].
  destruct (search_count_whole_run _ _ Hs) as (pre & post & E & _ & _ & Hpre).
  now exists pre, post.
Defined.

(** ** Rows without a query *)

Section EmptyRows.
Context {W : Type} `{World W}.
Variable config : Config.

Lemma first_cells_app (a b : list (list string)) :
  first_cells (a ++ b) = first_cells a ++ first_cells b.
Proof.
  induction a as [|item a IH]; [reflexivity|].
  destruct item as [|cell0 item]; simpl; now rewrite IH.
Qed.

Lemma written_in_order_nth (col : nat) (queries : list string) :
  forall (i j : nat) (cells : list (nat * nat * string)) (q : string),
    written_in_order i col queries cells ->
    nth_error queries j = Some q ->
    exists v, nth_error cells j = Some (PDP_START_ROW + (i + j), col, v).
Proof.
  induction queries as [|q0 queries IH]; intros i j cells q Hw Hq.
  - destruct j; discriminate.
  - destruct cells as [|[[r c] v] cells]; [contradiction|].
    cbn [written_in_order] in Hw. destruct Hw as (-> & -> & _ & Hw).
    destruct j as [|j].
    + exists v. now rewrite Nat.add_0_r.
    + destruct (IH (S i) j cells q Hw Hq) as (v' & Hv').
      exists v'. cbn [nth_error]. rewrite Hv'. do 3 f_equal. lia.
Qed.

(** X2.  The comprehension of line 193 keeps the first cell of every row
    that has one and drops the rows without: never more queries than
    fetched rows.  A query that comes right after a row without a cell
    therefore gets the index of that row: in a run of the loop that
    returns with every search box found, its result is written to the
    sheet row of the empty cell, one row above the row it was fetched
    from. *)
Theorem empty_row_moves_results_up (fuel col : nat)
    (above below : list (list string)) (q : string) (more : list string)
    (s : Run W) :
  Forall (fun item => item <> []) above ->
  let queries_data := above ++ [] :: (q :: more) :: below in
  let queries := first_cells queries_data in
  let r := for_queries config fuel col (List.length queries) 0 queries s in
  List.length queries <= List.length queries_data - 1
  /\ nth_error queries_data (List.length above + 1) = Some (q :: more)
  /\ nth_error queries (List.length above) = Some q
  /\ (res r = Ok tt -> count is_search_failure (out r) = 0 ->
      exists v, nth_error (cells_written (out r)) (List.length above)
                = Some (PDP_START_ROW + List.length above, col, v)).
Proof.
  intros Habove queries_data queries r.
  assert (Hq : queries = map (hd "") above ++ q :: first_cells below).
  { unfold queries, queries_data. rewrite first_cells_app.
    cbn [first_cells]. now rewrite (first_cells_full above Habove). }
  assert (Hlen : forall data, List.length (first_cells data) <= List.length data).
  { induction data as [|[|c0 item] data IH]; simpl; lia. }
  assert (Hnth : nth_error queries (List.length above) = Some q).
  { rewrite Hq, nth_error_app2 by (rewrite length_map; lia).
    rewrite length_map, Nat.sub_diag. reflexivity. }
  split; [|split; [|split]].
  - rewrite Hq. unfold queries_data.
    rewrite !length_app, length_map. cbn [List.length].
    specialize (Hlen below). lia.
  - unfold queries_data. rewrite nth_error_app2 by lia.
    replace (List.length above + 1 - List.length above) with 1 by lia.
    reflexivity.
  - exact Hnth.
  - intros Hok Hnone.
    destruct (for_queries_written config fuel col (List.length queries) queries 0 s Hok)
      as [_ Hord].
    destruct (written_in_order_nth col queries 0 (List.length above) _ q
                (Hord Hnone) Hnth) as (v & Hv).
    exists v. exact Hv.
Qed.

End EmptyRows.

(** X2, on the rows "alpha", empty, "gamma": the result of "gamma",
    fetched from row 6, is written to row 5. *)
Lemma empty_row_moves_results_up_witness :
  let cfg := Sim.config true 300000 5000 in
  let w := Sim.calm (fun _ _ => "") (fun _ => "About 3 results") in
  let s := Sim.start w ["alpha"; ""; "gamma"] in
  let r := for_queries cfg 10 7 2 0 (first_cells [["alpha"]; []; ["gamma"]]) s in
  Forall (fun item : list string => item <> []) [["alpha"]]
  /\ res r = Ok tt /\ count is_search_failure (out r) = 0
  /\ exists v, nth_error (cells_written (out r)) 1 = Some (5, 7, v).
Proof.
  intros cfg w s r.
  assert (Habove : Forall (fun item : list string => item <> []) [["alpha"]])
    by (repeat constructor; discriminate).
  assert (Hok : res r = Ok tt) by (vm_compute; reflexivity).
  assert (Hnone : count is_search_failure (out r) = 0) by (vm_compute; reflexivity).
  split; [exact Habove|]. split; [exact Hok|]. split; [exact Hnone|].
  destruct (empty_row_moves_results_up cfg 10 7 [["alpha"]] [] "gamma" [] s Habove)
    as (_ & _ & _ & Hup).
  exact (Hup Hok Hnone).
Defined.


(** ** Typing into the search box *)

Section Typing.
Context {W : Type} `{World W}.

Lemma keys_sent_app (a b : list event) :
  keys_sent (a ++ b) = (keys_sent a ++ keys_sent b)%string.
Proof.
  induction a as [|e a IH]; [reflexivity|].
  destruct e as [| | | |c]; try exact IH.
  destruct c; try exact IH.
  cbn [app keys_sent]. now rewrite IH, append_app_assoc.
Qed.

(** X3.  [human_like_typing] sends the characters of the text one by one
    and in order: the characters sent are always the first characters of
    the text, one [send_keys] call per character; they are the whole text
    when the function returns, and end with the character whose call
    raised when it raises. *)
Theorem typing_sends_text_in_order (selector text : string) (s : Run W) :
  let r := human_like_typing selector text s in
  (exists rest, text = (keys_sent (out r) ++ rest)%string)
  /\ count is_send_keys (out r) = String.length (keys_sent (out r))
  /\ (res r = Ok tt -> keys_sent (out r) = text)
  /\ (forall e, res r = Raise e -> keys_sent (out r) <> "")
  /\ res r <> OutOfFuel.
Proof.
  revert s. induction text as [|c text IH]; intros s; cbv zeta.
  - cbn [human_like_typing ret out res keys_sent]. repeat split.
    + now exists "".
    + discriminate.
    + discriminate.
  - cbn [human_like_typing]. run_simpl.
    destruct (webdriver (SendKeys selector (String c "")) (world s))
      as [[x|] w]; run_cbn.
    + repeat split; cbn [keys_sent append String.length]; try discriminate.
      now exists text.
    + match goal with
      | |- context [human_like_typing selector text ?s1] =>
          specialize (IH s1); cbv zeta in IH;
          destruct (human_like_typing selector text s1) as [r' s' o']
      end.
      cbn [res st out] in *.
      destruct IH as ((rest & Hrest) & Hcount & Hok & Hraise & Hfuel).
      cbn [keys_sent append]. rewrite count_cons. cbn [is_send_keys String.length].
      repeat split.
      * exists rest. now rewrite Hrest at 1.
      * now rewrite Hcount.
      * intros Hr. now rewrite (Hok Hr).
      * discriminate.
      * exact Hfuel.
Qed.

Lemma typing_keys (selector text : string) (s : Run W) :
  res (human_like_typing selector text s) = Ok tt ->
  keys_sent (out (human_like_typing selector text s)) = text.
Proof.
  revert s. induction text as [|c text IH]; intros s; [reflexivity|].
  cbn [human_like_typing]. run_simpl.
  destruct (webdriver (SendKeys selector (String c "")) (world s))
    as [[x|] w]; run_cbn; [discriminate|].
  match goal with
  | |- context [human_like_typing selector text ?s1] =>
      specialize (IH s1);
      destruct (human_like_typing selector text s1) as [r' s' o']
  end.
  cbn [res st out keys_sent append] in *.
  intros Hr. now rewrite (IH Hr).
Qed.

(** The [try] block of the search: a normal end means that the box was
    waited for, cleared, filled with the whole text and submitted. *)
Lemma typing_block_trace (text : string) (s : Run W) (b : bool) :
  res (typing_block text s) = Ok b ->
  b = true
  /\ exists typed,
       out (typing_block text s)
       = Browser (WaitPresence SEARCH_INPUT_SELECTOR)
         :: Browser (Clear SEARCH_INPUT_SELECTOR)
         :: typed ++ [Browser (SendReturn SEARCH_INPUT_SELECTOR)]
       /\ keys_sent typed = text.
Proof.
  unfold typing_block. run_simpl.
  destruct (webdriver (WaitPresence SEARCH_INPUT_SELECTOR) (world s))
    as [[x|] w1]; run_cbn; [discriminate|].
  destruct (webdriver (Clear SEARCH_INPUT_SELECTOR) w1)
    as [[x|] w2]; run_cbn; [discriminate|].
  match goal with
  | |- context [human_like_typing SEARCH_INPUT_SELECTOR text ?s1] =>
      pose proof (typing_keys SEARCH_INPUT_SELECTOR text s1) as Ht;
      destruct (human_like_typing SEARCH_INPUT_SELECTOR text s1)
        as [[[]|x|] s3 o3]
  end; cbn [res st out] in *; try discriminate.
  destruct (webdriver (SendReturn SEARCH_INPUT_SELECTOR) (world s3))
    as [[x|] w4]; run_cbn; [discriminate|].
  intros [= <-]. split; [reflexivity|].
  exists o3. split; [reflexivity | now apply Ht].
Qed.

(** X4.  [find_and_type_in_search_box] ends in one of three ways.  It
    returns True, and then the box was waited for, cleared, filled with
    the whole text and submitted with RETURN, in this order.  Or it
    returns False with the error line of the search box as last event:
    this is what becomes of a [TimeoutException] raised by any call of
    its [try] block, the wait or a later one.  Or it raises an exception
    that is not a [TimeoutException]; such exceptions are not caught. *)
Theorem find_and_type_outcomes (text : string) (s : Run W) :
  let r := find_and_type_in_search_box text s in
  (res r = Ok true
   /\ exists typed,
        out r = Browser (WaitPresence SEARCH_INPUT_SELECTOR)
                :: Browser (Clear SEARCH_INPUT_SELECTOR)
                :: typed ++ [Browser (SendReturn SEARCH_INPUT_SELECTOR)]
        /\ keys_sent typed = text)
  \/ (res r = Ok false
      /\ res (typing_block text s) = Raise TimeoutException
      /\ out r = out (typing_block text s) ++ [Log ERROR MsgSearchBoxNotFound])
  \/ (exists e, res r = Raise e /\ e <> TimeoutException
                /\ res (typing_block text s) = Raise e).
Proof.
  cbv zeta. unfold find_and_type_in_search_box. fold (typing_block text).
  destruct (res (typing_block text s)) as [b|e|] eqn:E.
  - left. rewrite (try_except_ok _ _ _ _ E), E.
    destruct (typing_block_trace text s b E) as (-> & Htrace).
    split; [reflexivity | exact Htrace].
  - destruct e;
      try (right; right; rewrite (try_except_passed _ _ _ _ E eq_refl), E;
           eexists; split; [reflexivity|]; split; [discriminate | reflexivity]).
    right. left.
    erewrite try_except_caught; [|exact E|reflexivity].
    cbn [res out]. run_simpl. now repeat split.
  - exfalso. unfold typing_block in E.
    assert (Ht : terminates (typing_block text)).
    { unfold typing_block. terminates_tac. }
    now apply (Ht s).
Qed.

End Typing.

(** X3, in a world whose calls succeed: "alpha" is typed letter by
    letter. *)
Lemma typing_sends_text_in_order_witness :
  let s := Sim.start (Sim.calm (fun _ _ => "") (fun _ => "")) ["alpha"] in
  res (human_like_typing SEARCH_INPUT_SELECTOR "alpha" s) = Ok tt
  /\ keys_sent (out (human_like_typing SEARCH_INPUT_SELECTOR "alpha" s)) = "alpha"
  /\ count is_send_keys (out (human_like_typing SEARCH_INPUT_SELECTOR "alpha" s)) = 5.
Proof.
  intros s.
  assert (Hok : res (human_like_typing SEARCH_INPUT_SELECTOR "alpha" s) = Ok tt)
    by (vm_compute; reflexivity).
  destruct (typing_sends_text_in_order SEARCH_INPUT_SELECTOR "alpha" s)
    as (_ & Hcount & Hkeys & _).
  split; [exact Hok|]. split; [exact (Hkeys Hok)|].
  rewrite Hcount, (Hkeys Hok). reflexivity.
Defined.

(** X4, when clearing the box times out: the box was found, and still the
    answer is False with the line "Could not find the search box". *)
Lemma find_and_type_outcomes_witness :
  let w := Sim.with_browser clear_times_out (Sim.calm (fun _ _ => "") (fun _ => "")) in
  let s := Sim.start w ["alpha"] in
  res (find_and_type_in_search_box "alpha" s) = Ok false
  /\ out (find_and_type_in_search_box "alpha" s)
     = [ Browser (WaitPresence SEARCH_INPUT_SELECTOR);
         Browser (Clear SEARCH_INPUT_SELECTOR);
         Log ERROR MsgSearchBoxNotFound ].
Proof.
  intros w s.
  destruct (find_and_type_outcomes "alpha" s)
    as [[Htrue _] | [(Hfalse & _ & Hout) | (e & Hraise & _)]].
  - exfalso. revert Htrue. vm_compute. discriminate.
  - split; [exact Hfalse|]. rewrite Hout. vm_compute. reflexivity.
  - exfalso. revert Hraise. vm_compute. discriminate.
Defined.


(** ** Emails and the CAPTCHA handler, for every configuration *)

Section Mail.
Context {W : Type} `{World W}.
Variable config : Config.

Lemma count_mail_email_trace (subject : string) (body : email_body)
    (answer : option exn) :
  count is_mail (email_trace config subject body answer)
  = if ENABLE_EMAIL_NOTIFICATIONS config then 1 else 0.
Proof.
  unfold email_trace. now destruct (ENABLE_EMAIL_NOTIFICATIONS config), answer.
Qed.

(** X5.  [send_error_email] never raises and never fails the script: it
    returns whatever the SMTP session does, leaves the sheet and the driver
    variable alone and opens one SMTP session, or none when the
    notifications are disabled, in which case it does nothing at all, not
    even log.  A session that fails leaves one error line, after the line
    that announced the email. *)
Theorem send_error_email_contained (subject : string) (body : email_body)
    (s : Run W) :
  let r := send_error_email config subject body s in
  res r = Ok tt
  /\ sheet (st r) = sheet s /\ driver (st r) = driver s
  /\ count is_mail (out r) = (if ENABLE_EMAIL_NOTIFICATIONS config then 1 else 0)
  /\ (ENABLE_EMAIL_NOTIFICATIONS config = false -> st r = s /\ out r = [])
  /\ (forall e, ENABLE_EMAIL_NOTIFICATIONS config = true ->
        fst (smtp subject body (world s)) = Some e ->
        out r = [ Log INFO (MsgPreparingEmail (RECIPIENT_EMAIL config));
                  SendMail subject body;
                  Log ERROR (MsgEmailFailed e) ]).
Proof.
  cbv zeta. rewrite send_error_email_eq. cbn [res st out].
  rewrite count_mail_email_trace. unfold email_trace.
  destruct (ENABLE_EMAIL_NOTIFICATIONS config); cbn [sheet driver set_world].
  - repeat split; try discriminate.
    intros e _ ->. reflexivity.
  - repeat split; discriminate.
Qed.

Lemma count_mail_alert_trace (alert : bool) (kw : string) (answer : option exn) :
  count is_mail (alert_trace config alert kw answer)
  = if negb alert && ENABLE_EMAIL_NOTIFICATIONS config then 1 else 0.
Proof.
  unfold alert_trace, email_trace.
  now destruct alert, (ENABLE_EMAIL_NOTIFICATIONS config), answer.
Qed.

(** The waiting loop sends the alert at most once, and not at all once it
    was sent. *)
Lemma wait_mails (fuel : nat) :
  forall (start : Z) (kw : string) (alert : bool) (s : Run W),
    count is_mail (out (captcha_wait config fuel start kw alert s))
    <= if negb alert && ENABLE_EMAIL_NOTIFICATIONS config then 1 else 0.
Proof.
  induction fuel as [|f IH]; intros start kw alert s.
  - cbn [captcha_wait out_of_fuel out]. unfold count. cbn. lia.
  - rewrite captcha_wait_step.
    destruct (time_time (world s) - start <? CAPTCHA_WAIT_TIMEOUT config)%Z;
      [|unfold count; cbn; lia].
    destruct (driver_page_source (world s)) as [e|src];
      [unfold count; cbn; lia|].
    destruct (blocked src); [|unfold count; cbn; lia].
    destruct (sleep_error (CAPTCHA_CHECK_INTERVAL config));
      cbv zeta; cbn [out].
    + rewrite count_mail_alert_trace. lia.
    + rewrite count_app, count_cons, count_mail_alert_trace. cbn [is_mail].
      specialize (IH start kw true
        (set_world (after_blocked_poll config (negb alert) kw (world s)) s)).
      cbn [negb andb] in IH. lia.
Qed.

(** The waiting loop raises only what a read of the page or a sleep
    raises. *)
Lemma wait_raises (fuel : nat) :
  forall (start : Z) (kw : string) (alert : bool) (s : Run W) (e : exn),
    res (captcha_wait config fuel start kw alert s) = Raise e ->
    sleep_error (CAPTCHA_CHECK_INTERVAL config) = Some e
    \/ exists k,
         driver_page_source (poll_world config (negb alert) k kw (world s))
         = inl e.
Proof.
  intros start kw alert s e Hr.
  destruct (captcha_wait_polls config fuel start kw alert s)
    as (k & _ & _ & _ & _ & Hend).
  destruct Hend as [(Hres & _) | [(Hres & _)
    | [(x & Hres & _ & Hp & _) | [(x & Hres & _ & _ & Hs & _) | (Hres & _)]]]];
    try congruence.
  - right. exists k. congruence.
  - left. congruence.
Qed.

Lemma wait_quiet (fuel : nat) (start : Z) (kw : string) (alert : bool) :
  respects quiet (captcha_wait config fuel start kw alert).
Proof. revert alert. induction fuel; intros alert; simpl; respects_tac. Qed.

(** X6.  What [handle_captcha] does and does not do, for every
    configuration, page and waiting time: it sends at most one email and
    none when the notifications are disabled; it calls neither the Sheets
    API nor the browser, whose page source it only reads; it leaves the
    sheet and the driver variable alone; and the only exceptions it
    raises are the one of a sleep that [time.sleep] refuses (an interval
    that is negative or too long) and the one of a read of the page source
    that fails at one of its polls. *)
Theorem handle_captcha_footprint (fuel : nat) (kw : string) (s : Run W) :
  let r := handle_captcha config fuel kw s in
  count is_mail (out r) <= 1
  /\ (ENABLE_EMAIL_NOTIFICATIONS config = false -> count is_mail (out r) = 0)
  /\ count is_sheets (out r) = 0
  /\ count is_browser (out r) = 0
  /\ sheet (st r) = sheet s
  /\ driver (st r) = driver s
  /\ (forall e, res r = Raise e ->
        sleep_error (CAPTCHA_CHECK_INTERVAL config) = Some e
        \/ exists k,
             driver_page_source (poll_world config true k kw (world s)) = inl e).
Proof.
  cbv zeta. rewrite handle_captcha_eq. cbv zeta. cbn [res st out].
  pose proof (wait_mails fuel (time_time (world s)) kw false s) as Hm.
  pose proof (wait_quiet fuel (time_time (world s)) kw false s)
    as (Hb & Hs & Hd).
  pose proof (wait_not_sheets config fuel (time_time (world s)) kw false s) as Hn.
  unfold events_in in Hn. cbn [negb andb] in Hm.
  rewrite !count_cons. cbn [is_mail is_sheets is_browser Nat.add].
  split; [destruct (ENABLE_EMAIL_NOTIFICATIONS config); lia|].
  split; [intros E; rewrite E in Hm; lia|].
  split; [now apply count_zero|].
  split; [now apply count_zero|].
  split; [exact Hs|]. split; [exact Hd|].
  intros e Hr. exact (wait_raises fuel _ kw false s e Hr).
Qed.

Lemma detect_blocked (fuel : nat) (kw : string) (s : Run W) (x : outcome bool)
    (s' : Run W) (o : list event) :
  blocked (page_source (world s)) = true ->
  handle_captcha config fuel kw s = mkResult x s' o ->
  (x = Ok false ->
   detect_and_scrape config fuel kw s = mkResult (Ok (Some "CAPTCHA FAILED")) s' o)
  /\ (forall e, x = Raise e ->
      detect_and_scrape config fuel kw s = mkResult (Raise e) s' o).
Proof.
  intros Hb Hh. rewrite (detect_on_block config fuel kw s Hb). cbv zeta.
  rewrite Hh. cbn [res st out].
  split; [intros -> | intros e ->]; reflexivity.
Qed.

(** X7.  With a timeout of zero or less the loop of the handler is never
    entered: a block page makes the result "CAPTCHA FAILED" at once, with
    no prompt, no email and no wait. *)
Theorem nonpositive_timeout_fails_at_once (fuel : nat) (kw : string) (s : Run W) :
  (CAPTCHA_WAIT_TIMEOUT config <= 0)%Z ->
  blocked (page_source (world s)) = true ->
  detect_and_scrape config (S fuel) kw s
  = mkResult (Ok (Some "CAPTCHA FAILED")) s
      [ Log WARNING MsgCaptchaDetected;
        Log ERROR (MsgCaptchaTimeout (CAPTCHA_WAIT_TIMEOUT config)) ].
Proof.
  intros HT Hb.
  refine (proj1 (detect_blocked (S fuel) kw s (Ok false) s _ Hb _) eq_refl).
  rewrite handle_captcha_eq, captcha_wait_step.
  replace (time_time (world s) - time_time (world s) <? CAPTCHA_WAIT_TIMEOUT config)%Z
    with false by (symmetry; apply Z.ltb_ge; lia).
  reflexivity.
Qed.

(** X8.  A negative poll interval is refused by [time.sleep]: on a block
    page, with a positive timeout, the handler has printed the prompt and
    sent the alert when the [ValueError] is raised, and nothing between the
    handler and [main] catches it. *)
Theorem negative_interval_raises (fuel : nat) (kw : string) (s : Run W) :
  (CAPTCHA_CHECK_INTERVAL config < 0)%Z ->
  (0 < CAPTCHA_WAIT_TIMEOUT config)%Z ->
  blocked (page_source (world s)) = true ->
  let r := detect_and_scrape config (S fuel) kw s in
  res r = Raise ValueError
  /\ out r = Log WARNING MsgCaptchaDetected
             :: Stdout ACTION_REQUIRED
             :: email_trace config CAPTCHA_SUBJECT (CaptchaBody kw)
                  (fst (smtp CAPTCHA_SUBJECT (CaptchaBody kw) (world s)))
  /\ count is_mail (out r) = (if ENABLE_EMAIL_NOTIFICATIONS config then 1 else 0).
Proof.
  intros HI HT Hb. cbv zeta.
  assert (Hh : handle_captcha config (S fuel) kw s
               = mkResult (Raise ValueError) (after_alert config false kw s)
                   (Log WARNING MsgCaptchaDetected
                    :: Stdout ACTION_REQUIRED
                    :: email_trace config CAPTCHA_SUBJECT (CaptchaBody kw)
                         (fst (smtp CAPTCHA_SUBJECT (CaptchaBody kw) (world s))))).
  { rewrite handle_captcha_eq, captcha_wait_step, (blocked_read _ Hb), Hb.
    replace (time_time (world s) - time_time (world s) <? CAPTCHA_WAIT_TIMEOUT config)%Z
      with true by (symmetry; apply Z.ltb_lt; lia).
    unfold sleep_error.
    replace (CAPTCHA_CHECK_INTERVAL config <? 0)%Z
      with true by (symmetry; apply Z.ltb_lt; lia).
    reflexivity. }
  rewrite (proj2 (detect_blocked (S fuel) kw s _ _ _ Hb Hh) ValueError eq_refl).
  cbn [res out]. split; [reflexivity|]. split; [reflexivity|].
  rewrite !count_cons, count_mail_email_trace. reflexivity.
Qed.

End Mail.

(** X5, when the SMTP server is down. *)
Lemma send_error_email_contained_witness :
  let cfg := Sim.config true 300000 5000 in
  let s := Sim.start (smtp_down (Sim.calm (fun _ _ => "") (fun _ => ""))) [] in
  let r := send_error_email cfg CRASH_SUBJECT (CrashBody ValueError) s in
  res r = Ok tt
  /\ out r = [ Log INFO (MsgPreparingEmail ["ops@example.org"]);
               SendMail CRASH_SUBJECT (CrashBody ValueError);
               Log ERROR (MsgEmailFailed (LibraryError "SMTPException")) ].
Proof.
  intros cfg s r.
  destruct (send_error_email_contained cfg CRASH_SUBJECT (CrashBody ValueError) s)
    as (Hres & _ & _ & _ & _ & Hfail).
  split; [exact Hres|].
  exact (Hfail (LibraryError "SMTPException") eq_refl eq_refl).
Defined.

(** X7, with a timeout of zero. *)
Lemma nonpositive_timeout_fails_at_once_witness :
  let cfg := Sim.config true 0 5000 in
  let s := Sim.start (Sim.calm captcha_page (fun _ => "")) ["alpha"] in
  detect_and_scrape cfg 1 "alpha" s
  = mkResult (Ok (Some "CAPTCHA FAILED")) s
      [ Log WARNING MsgCaptchaDetected; Log ERROR (MsgCaptchaTimeout 0) ].
Proof.
  intros cfg s.
  refine (nonpositive_timeout_fails_at_once cfg 0 "alpha" s _ _).
  - vm_compute. discriminate.
  - vm_compute. reflexivity.
Defined.

(** X8, with an interval of minus one second. *)
Lemma negative_interval_raises_witness :
  let cfg := Sim.config true 300000 (-1000) in
  let s := Sim.start (Sim.calm captcha_page (fun _ => "")) ["alpha"] in
  res (detect_and_scrape cfg 1 "alpha" s) = Raise ValueError
  /\ count is_mail (out (detect_and_scrape cfg 1 "alpha" s)) = 1.
Proof.
  intros cfg s.
  assert (HI : (CAPTCHA_CHECK_INTERVAL cfg < 0)%Z) by (vm_compute; reflexivity).
  assert (HT : (0 < CAPTCHA_WAIT_TIMEOUT cfg)%Z) by (vm_compute; reflexivity).
  assert (Hb : blocked (page_source (world s)) = true) by (vm_compute; reflexivity).
  destruct (negative_interval_raises cfg 0 "alpha" s HI HT Hb) as (Hr & _ & Hm).
  split; [exact Hr | exact Hm].
Defined.


(** ** What the scrape and the loop can produce *)

Section Values.
Context {W : Type} `{World W}.
Variable config : Config.

(** X9.  The two [except] clauses of the scrape.  When its [try] block
    ends in a [TimeoutException] or an [ElementClickInterceptedException],
    raised by any of its calls, the page source is read: the result is
    "0" if it has the text "No results found for" and "Scrape Failed" if
    not, with one log line added; if the page source cannot be read, the
    exception of the read leaves [scrape_result_count], which no clause
    catches any more.  Any other exception of the block gives "Scrape
    Failed" without a look at the page.  The state is the one the block
    left. *)
Theorem scrape_failure_results (s : Run W) (e : exn) :
  res (scrape_block s) = Raise e ->
  let r := scrape_result_count s in
  let w := world (st (scrape_block s)) in
  st r = st (scrape_block s)
  /\ (is_scrape_timeout e = true ->
      (forall src, driver_page_source w = inr src ->
         res r = Ok (Some (if PyStr.contains NO_RESULTS_TEXT src then "0"
                           else "Scrape Failed"))
         /\ out r = out (scrape_block s)
                    ++ [ if PyStr.contains NO_RESULTS_TEXT src
                         then Log WARNING MsgNoResults
                         else Log ERROR MsgScrapeFailed ])
      /\ (forall e', driver_page_source w = inl e' ->
            res r = Raise e' /\ out r = out (scrape_block s)))
  /\ (is_scrape_timeout e = false ->
      res r = Ok (Some "Scrape Failed")
      /\ out r = out (scrape_block s) ++ [Log ERROR (MsgScrapeUnexpected e)]).
Proof.
  intros E. cbv zeta. unfold scrape_result_count. fold (@scrape_block W _).
  destruct e;
    (erewrite try_except_caught; [|exact E|reflexivity]);
    cbn [res st out is_scrape_timeout]; run_simpl; unfold pyval in *;
    repeat match goal with
           | |- context [match driver_page_source ?w with _ => _ end] =>
               destruct (driver_page_source w)
           end;
    run_cbn;
    (split; [try reflexivity|]); repeat split; intros; try discriminate;
    repeat match goal with
           | Hx : inr _ = inr _ |- _ => injection Hx as <-
           | Hx : inl _ = inl _ |- _ => injection Hx as <-
           end;
    repeat match goal with
           | |- context [if ?c then _ else _] => destruct c
           end;
    run_cbn; rewrite ?app_nil_r; reflexivity.
Qed.

Lemma scrape_block_values (s : Run W) (v : pyval) :
  res (scrape_block s) = Ok v -> scrape_value v.
Proof.
  unfold scrape_block. intros E.
  apply bind_inv_ok in E as (a1 & _ & E).
  apply bind_inv_ok in E as (a2 & _ & E).
  apply bind_inv_ok in E as (a3 & _ & E).
  apply bind_inv_ok in E as (a4 & _ & E).
  apply bind_inv_ok in E as (a5 & _ & E).
  apply bind_inv_ok in E as (a6 & _ & E).
  apply bind_inv_ok in E as (text & _ & E).
  destruct (Re.search_count text) as [tok|] eqn:Et.
  - rewrite (ReFacts.search_count_truthy _ _ Et) in E. injection E as <-.
    apply ReFacts.search_count_some in Et as (pre & rest & _ & Hm & _).
    apply ReFacts.match_here_sound in Hm as (Hne & Hall & _).
    right. right. right. now exists tok.
  - injection E as <-. now left.
Qed.

Lemma scrape_values (s : Run W) (v : pyval) :
  res (scrape_result_count s) = Ok v -> scrape_value v.
Proof.
  unfold scrape_result_count. fold (@scrape_block W _).
  destruct (res (scrape_block s)) as [a|e|] eqn:E.
  - rewrite (try_except_ok _ _ _ _ E), E. intros [= <-].
    now apply (scrape_block_values s).
  - destruct e;
      (erewrite try_except_caught; [|exact E|reflexivity]);
      cbn [res]; run_simpl;
      repeat match goal with
             | |- context [match driver_page_source ?w with _ => _ end] =>
                 destruct (driver_page_source w)
             end;
      run_cbn;
      repeat match goal with
             | |- context [if ?c then _ else _] => destruct c
             end;
      cbn [res]; intros Hx; try discriminate Hx; injection Hx as <-;
      unfold scrape_value; auto.
  - rewrite (try_except_out_of_fuel _ _ _ E), E. discriminate.
Qed.

Lemma detect_and_scrape_values (fuel : nat) (query : string) (s : Run W)
    (v : pyval) :
  res (detect_and_scrape config fuel query s) = Ok v ->
  v = Some "CAPTCHA FAILED" \/ scrape_value v.
Proof.
  unfold detect_and_scrape. intros E.
  apply bind_inv_ok in E as (detected & _ & E). destruct detected.
  - apply bind_inv_ok in E as (solved & _ & E).
    destruct solved; cbn [negb] in E.
    + right. exact (scrape_values _ _ E).
    + injection E as <-. now left.
  - right. exact (scrape_values _ _ E).
Qed.

Lemma cell_value_of (v : pyval) :
  v = Some "" \/ v = Some "CAPTCHA FAILED" \/ scrape_value v ->
  cell_value (py_str v).
Proof.
  unfold cell_value, scrape_value.
  intros [-> | [-> | [-> | [-> | [-> | (tok & -> & Hne & Hall)]]]]];
    cbn [py_str]; auto 10.
Qed.

Lemma run_query_values (fuel row : nat) (query : string) (s : Run W) (v : pyval) :
  res (run_query config fuel row query s) = Ok (Result v) ->
  cell_value (py_str v).
Proof.
  unfold run_query.
  destruct (PyStr.truthy (PyStr.strip query)); cbn [negb].
  - intros E.
    apply bind_inv_ok in E as (a1 & _ & E).
    apply bind_inv_ok in E as (a2 & _ & E).
    apply bind_inv_ok in E as (found & _ & E).
    destruct found; cbn [negb] in E; [|discriminate].
    apply bind_inv_ok in E as (a4 & _ & E).
    apply bind_inv_ok in E as (v' & Hv & E).
    injection E as <-. apply cell_value_of. right.
    exact (detect_and_scrape_values _ _ _ _ Hv).
  - run_simpl. intros [= <-]. apply cell_value_of. now left.
Qed.

(** A turn of the loop, however it ends, sends at most one cell to the
    API: the cell of its row in the target column, with a value of the
    loop. *)
Lemma process_query_cells (fuel col n i : nat) (query : string) (s : Run W) :
  let o := out (process_query config fuel col n i query s) in
  cells_written o = []
  \/ exists v, cells_written o = [(PDP_START_ROW + i, col, v)] /\ cell_value v.
Proof.
  cbv zeta. unfold process_query. cbv zeta.
  rewrite (bind_ok _ _ _ tt) by reflexivity. cbn [out].
  set (s1 := st (logging INFO (MsgProcessing (i + 1) n query (PDP_START_ROW + i)) s)).
  pose proof (run_query_not_sheets config fuel (PDP_START_ROW + i) query s1) as Hs.
  unfold events_in in Hs. apply cells_written_none in Hs.
  rewrite cells_written_app.
  change (cells_written (out (logging INFO
            (MsgProcessing (i + 1) n query (PDP_START_ROW + i)) s))) with
    (@nil (nat * nat * string)).
  cbn [app].
  destruct (res (run_query config fuel (PDP_START_ROW + i) query s1))
    as [r|e|] eqn:E.
  - rewrite (bind_ok _ _ _ _ E). cbn [out]. rewrite cells_written_app, Hs.
    cbn [app]. destruct r as [|v].
    + now left.
    + right. exists (py_str v). rewrite write_result_written.
      split; [reflexivity|]. exact (run_query_values _ _ _ _ _ E).
  - rewrite (bind_raise _ _ _ _ E). cbn [out]. now left.
  - rewrite (bind_out_of_fuel _ _ _ E). cbn [out]. now left.
Qed.

Lemma loop_writes_weaken (col lo lo' hi hi' : nat) (cells : list (nat * nat * string)) :
  lo' <= lo -> hi <= hi' ->
  loop_writes col lo hi cells -> loop_writes col lo' hi' cells.
Proof.
  revert lo lo'. induction cells as [|[[r c] v] cells IH]; intros lo lo' Hlo Hhi;
    [easy|].
  cbn [loop_writes]. intros (Hc & Hr & Hv & Hrest).
  repeat split; try assumption; try lia.
  now apply (IH (S r) (S r)).
Qed.

Lemma for_queries_cells (fuel col n : nat) (queries : list string) :
  forall (i : nat) (s : Run W),
    loop_writes col (PDP_START_ROW + i) (PDP_START_ROW + i + List.length queries)
      (cells_written (out (for_queries config fuel col n i queries s))).
Proof.
  induction queries as [|query queries IH]; intros i s; [exact I|].
  cbn [for_queries List.length].
  pose proof (process_query_cells fuel col n i query s) as Hturn.
  cbv zeta in Hturn.
  assert (Hrest : forall s',
    loop_writes col (S (PDP_START_ROW + i))
      (PDP_START_ROW + i + S (List.length queries))
      (cells_written (out (for_queries config fuel col n (S i) queries s')))).
  { intros s'. apply (loop_writes_weaken col (PDP_START_ROW + S i) _
                        (PDP_START_ROW + S i + List.length queries));
      [lia | lia | apply IH]. }
  destruct (res (process_query config fuel col n i query s)) as [[]|e|] eqn:E.
  - rewrite (bind_ok _ _ _ _ E). cbn [out]. rewrite cells_written_app.
    destruct Hturn as [-> | (v & -> & Hv)]; cbn [app].
    + apply (loop_writes_weaken col (S (PDP_START_ROW + i)) _
               (PDP_START_ROW + i + S (List.length queries)));
        [lia | lia | apply Hrest].
    + cbn [loop_writes]. repeat split; try assumption; try lia. apply Hrest.
  - rewrite (bind_raise _ _ _ _ E). cbn [out].
    destruct Hturn as [-> | (v & -> & Hv)]; cbn [loop_writes];
      repeat split; try assumption; lia.
  - rewrite (bind_out_of_fuel _ _ _ E). cbn [out].
    destruct Hturn as [-> | (v & -> & Hv)]; cbn [loop_writes];
      repeat split; try assumption; lia.
Qed.

(** X10.  What the loop sends to the sheet, however it ends: only cells
    of the target column, in rows that increase strictly from the row of
    its first query and stay within the rows of its queries, so that no
    row is written twice; and each value is the empty string, one of the
    texts "CAPTCHA FAILED", "0", "Scrape Failed" and "None", or a
    non-empty run of digits and commas. *)
Theorem loop_writes_result_values (fuel col : nat) (queries : list string)
    (s : Run W) :
  loop_writes col PDP_START_ROW (PDP_START_ROW + List.length queries)
    (cells_written
       (out (for_queries config fuel col (List.length queries) 0 queries s))).
Proof.
  pose proof (for_queries_cells fuel col (List.length queries) queries 0 s) as Hc.
  now rewrite Nat.add_0_r in Hc.
Qed.

End Values.

(** X9, when the click on "Tools" is intercepted on a page without
    results, when the same click loses the session, and when the click
    is intercepted and the page source cannot be read. *)
Lemma scrape_failure_results_witness :
  let page := Sim.calm no_results_page (fun _ => "") in
  let s1 := Sim.start (Sim.with_browser click_intercepted page) ["alpha"] in
  let s2 := Sim.start (Sim.with_browser click_crashes page) ["alpha"] in
  let s3 := Sim.start (Sim.with_page_error (session_lost_at 0)
                         (Sim.with_browser click_intercepted page)) ["alpha"] in
  res (scrape_result_count s1) = Ok (Some "0")
  /\ res (scrape_result_count s2) = Ok (Some "Scrape Failed")
  /\ res (scrape_result_count s3) = Raise (LibraryError "WebDriverException").
Proof.
  intros page s1 s2 s3.
  assert (E1 : res (scrape_block s1) = Raise ElementClickInterceptedException)
    by (vm_compute; reflexivity).
  assert (E2 : res (scrape_block s2) = Raise (LibraryError "WebDriverException"))
    by (vm_compute; reflexivity).
  assert (E3 : res (scrape_block s3) = Raise ElementClickInterceptedException)
    by (vm_compute; reflexivity).
  destruct (scrape_failure_results s1 _ E1) as (_ & H1 & _).
  destruct (scrape_failure_results s2 _ E2) as (_ & _ & H2).
  destruct (scrape_failure_results s3 _ E3) as (_ & H3 & _).
  split; [|split].
  - refine (proj1 (proj1 (H1 eq_refl) "<html>No results found for alpha</html>" _)).
    vm_compute. reflexivity.
  - exact (proj1 (H2 eq_refl)).
  - refine (proj1 (proj2 (H3 eq_refl) (LibraryError "WebDriverException") _)).
    vm_compute. reflexivity.
Defined.

(** ** Where a run writes *)

Module InsertFacts.
Import Sheet.

Lemma nth_insert_at_left {A} (n i : nat) (x : A) (l : list A) :
  i < n -> nth i (insert_at n x l) x = nth i l x.
Proof.
  unfold insert_at. revert i l. induction n as [|n IH]; intros i l Hi; [lia|].
  destruct l as [|y l]; simpl.
  - destruct i as [|i]; [reflexivity | now destruct i].
  - destruct i as [|i]; [reflexivity|]. apply IH. lia.
Qed.

Lemma nth_insert_at_new {A} (n : nat) (x : A) (l : list A) :
  nth n (insert_at n x l) x = x.
Proof.
  unfold insert_at. revert l. induction n as [|n IH]; intros l; [reflexivity|].
  destruct l as [|y l]; simpl; [now destruct n | apply IH].
Qed.

Lemma nth_insert_at_right {A} (n i : nat) (x : A) (l : list A) :
  n <= i -> nth (S i) (insert_at n x l) x = nth i l x.
Proof.
  unfold insert_at. revert i l. induction n as [|n IH]; intros i l Hi.
  - reflexivity.
  - destruct i as [|i]; [lia|]. destruct l as [|y l]; simpl.
    + now destruct i.
    + apply IH. lia.
Qed.

Lemma row_insert_cols_any (ws : Worksheet) (col r : nat) :
  row (insert_cols ws col) r = insert_at (col - 1) "" (row ws r)
  \/ (row (insert_cols ws col) r = [] /\ row ws r = []).
Proof.
  destruct (Nat.lt_ge_cases (r - 1) (List.length (grid ws))) as [Hr|Hr].
  - left. now apply SheetFacts.row_insert_cols.
  - right. unfold row, insert_cols. cbn [grid].
    split; apply nth_overflow; now rewrite ?length_map.
Qed.

(** An inserted column keeps the cells left of it, is blank, and moves
    the cells right of it by one column. *)
Lemma cell_insert_cols (ws : Worksheet) (col r c : nat) :
  1 <= col -> 1 <= c ->
  cell (insert_cols ws col) r c
  = if c <? col then cell ws r c
    else if c =? col then "" else cell ws r (c - 1).
Proof.
  intros Hcol Hc. unfold cell.
  destruct (row_insert_cols_any ws col r) as [-> | [-> ->]].
  - destruct (c <? col) eqn:E1; [|destruct (c =? col) eqn:E2].
    + apply Nat.ltb_lt in E1. apply nth_insert_at_left. lia.
    + apply Nat.eqb_eq in E2. subst c. apply nth_insert_at_new.
    + apply Nat.ltb_ge in E1. apply Nat.eqb_neq in E2.
      replace (c - 1) with (S (c - 1 - 1)) at 1 by lia.
      apply nth_insert_at_right. lia.
  - assert (Hnil : forall i, nth i (@nil string) "" = "")
      by (intros [|i]; reflexivity).
    rewrite !Hnil. now destruct (c <? col), (c =? col).
Qed.

Lemma rtrim_length {A} (empty : A -> bool) (l : list A) :
  List.length (rtrim empty l) <= List.length l.
Proof.
  induction l as [|x l IH]; [reflexivity|]. simpl.
  destruct (empty x && is_nil (rtrim empty l)); simpl; lia.
Qed.

Lemma rtrim_all_empty {A} (empty : A -> bool) (l : list A) :
  Forall (fun x => empty x = true) l -> rtrim empty l = [].
Proof.
  induction 1 as [|x l Hx _ IH]; [reflexivity|].
  simpl. now rewrite IH, Hx.
Qed.

Lemma get_column_length (ws : Worksheet) (c r1 r2 : nat) :
  List.length (get_column ws c r1 r2) <= r2 + 1 - r1.
Proof.
  unfold get_column.
  etransitivity; [apply rtrim_length|]. now rewrite length_map, length_seq.
Qed.

Lemma get_column_ext (ws ws' : Worksheet) (c c' r1 r2 : nat) :
  (forall r, r1 <= r -> cell ws r c = cell ws' r c') ->
  get_column ws c r1 r2 = get_column ws' c' r1 r2.
Proof.
  intros Hcell. unfold get_column. f_equal. apply map_ext_in.
  intros r Hr. apply in_seq in Hr. rewrite Hcell by lia. reflexivity.
Qed.

Lemma get_column_blank (ws : Worksheet) (c r1 r2 : nat) :
  (forall r, r1 <= r -> cell ws r c = "") -> get_column ws c r1 r2 = [].
Proof.
  intros Hcell. unfold get_column. apply rtrim_all_empty.
  apply Forall_forall. intros item Hitem.
  apply in_map_iff in Hitem as (r & <- & Hr). apply in_seq in Hr.
  rewrite Hcell by lia. reflexivity.
Qed.

End InsertFacts.

Section Writes.
Context {W : Type} `{World W}.
Variable config : Config.

Lemma first_cells_length (queries_data : list (list string)) :
  List.length (first_cells queries_data) <= List.length queries_data.
Proof.
  induction queries_data as [|[|cell0 item] rest IH]; simpl; lia.
Qed.

Lemma cells_written_no_update (l : list event) :
  forallb not_update l = true -> cells_written l = [].
Proof.
  induction l as [|e l IH]; [reflexivity|].
  cbn [forallb]. intros [He Hl]%andb_true_iff.
  cbn [cells_written flat_map]. fold (cells_written l). rewrite (IH Hl).
  destruct e as [| | |c|]; try reflexivity.
  destruct c; try reflexivity. discriminate He.
Qed.

(** A step that writes no cell and keeps the sheet, before the rest. *)
Lemma silent_bind {A B} (P : list (nat * nat * string) -> Prop)
    (m : M W A) (f : A -> M W B) (s : Run W) :
  respects (events_in not_update) m -> respects (same sheet) m ->
  P [] ->
  (forall a s', sheet s' = sheet s -> P (cells_written (out (f a s')))) ->
  P (cells_written (out (bind m f s))).
Proof.
  intros Hu Hs Hnil Hf. specialize (Hu s). specialize (Hs s).
  unfold events_in in Hu. unfold same in Hs.
  apply cells_written_no_update in Hu.
  destruct (res (m s)) as [a|e|] eqn:E.
  - rewrite (bind_ok _ _ _ _ E). cbn [out].
    rewrite cells_written_app, Hu. now apply Hf.
  - rewrite (bind_raise _ _ _ _ E). cbn [out]. now rewrite Hu.
  - rewrite (bind_out_of_fuel _ _ _ E). cbn [out]. now rewrite Hu.
Qed.

Lemma gets_bind_out {A B} (g : Run W -> A) (f : A -> M W B) (s : Run W) :
  out (bind (gets g) f s) = out (f (g s) s).
Proof. unfold bind, gets. now destruct (f (g s) s). Qed.

(** The cells the preparation sends: none when it fails before the stamp,
    the stamp when it gets that far; if it returns, it returns the column
    of the stamp, and the sheet has the new column with the stamp. *)
Lemma prepare_cells (s : Run W) :
  let r := prepare_sheet_and_get_target_column s in
  let k := last_tracking_col_index (header_row s) in
  (cells_written (out r) = [] /\ forall c, res r <> Ok c)
  \/ exists w,
       cells_written (out r)
       = [(DATE_HEADER_ROW, k + 1, Date.strftime_d_b_Y (datetime_now w))]
       /\ k <> 0
       /\ forall c, res r = Ok c ->
            c = k + 1
            /\ sheet (st r)
               = Sheet.update_cell (Sheet.insert_cols (sheet s) (k + 1))
                   DATE_HEADER_ROW (k + 1) (Date.strftime_d_b_Y (datetime_now w)).
Proof.
  cbv zeta. unfold header_row.
  remember (last_tracking_col_index (Sheet.row_values (sheet s) DATE_HEADER_ROW))
    as k eqn:Hk. symmetry in Hk.
  unfold prepare_sheet_and_get_target_column. run_simpl.
  destruct (sheets_api (RowValues DATE_HEADER_ROW) (world s)) as [[e|] w1];
    run_cbn; [left; split; [reflexivity | discriminate]|].
  rewrite Hk. destruct (k =? 0) eqn:Hk0; run_cbn;
    [left; split; [reflexivity | discriminate]|].
  apply Nat.eqb_neq in Hk0.
  destruct (sheets_api (InsertCols (k + 1)) w1) as [[e|] w2];
    run_cbn; [left; split; [reflexivity | discriminate]|].
  right. exists w2.
  destruct (sheets_api (UpdateCell DATE_HEADER_ROW (k + 1)
              (Date.strftime_d_b_Y (datetime_now w2))) w2) as [[e|] w3];
    run_cbn.
  - split; [reflexivity|]. split; [assumption | discriminate].
  - split; [reflexivity|]. split; [assumption|].
    intros c [= <-]. split; reflexivity.
Qed.

Lemma cells_email_trace (subject : string) (body : email_body)
    (answer : option exn) :
  cells_written (email_trace config subject body answer) = [].
Proof.
  unfold email_trace. now destruct (ENABLE_EMAIL_NOTIFICATIONS config), answer.
Qed.

Lemma cells_cleanup_trace (d : option WebDriver) :
  cells_written (cleanup_trace d) = [].
Proof. now destruct d. Qed.

Lemma cells_log (l : level) (m : message) (tr : list event) :
  cells_written (Log l m :: tr) = cells_written tr.
Proof. reflexivity. Qed.

(** The cells of the body of [main]. *)
Lemma main_body_cells (fuel : nat) (s : Run W) :
  run_writes (last_tracking_col_index (header_row s))
             (cells_written (out (main_body config fuel s))).
Proof.
  set (k := last_tracking_col_index (header_row s)).
  unfold main_body.
  apply (silent_bind (run_writes k));
    [respects_tac | respects_tac | now left | intros _ s1 Hs1].
  apply (silent_bind (run_writes k));
    [respects_tac | respects_tac | now left | intros _ s2 Hs2].
  apply (silent_bind (run_writes k));
    [respects_tac | respects_tac | now left | intros _ s3 Hs3].
  assert (Hk : last_tracking_col_index (header_row s3) = k).
  { unfold k, header_row. now rewrite Hs3, Hs2, Hs1. }
  pose proof (prepare_cells s3) as Hp. cbv zeta in Hp. rewrite Hk in Hp.
  destruct (res (prepare_sheet_and_get_target_column s3)) as [c|e|] eqn:E.
  - destruct Hp as [[_ Hno] | (w & Hcells & Hk0 & Hok)];
      [now destruct (Hno c)|].
    destruct (Hok c eq_refl) as [-> _].
    rewrite (bind_ok _ _ _ _ E). cbn [out]. rewrite cells_written_app, Hcells.
    right. exists (datetime_now w). eexists. split; [reflexivity|].
    split; [exact Hk0|].
    set (P := loop_writes (k + 1) PDP_START_ROW (PDP_END_ROW + 1)).
    apply (silent_bind P); [respects_tac | respects_tac | exact I | intros _ s4 _].
    apply (silent_bind P); [respects_tac | respects_tac | exact I | intros _ s5 _].
    rewrite gets_bind_out. cbv zeta.
    apply (silent_bind P); [respects_tac | respects_tac | exact I | intros _ s6 _].
    apply (silent_bind P); [respects_tac | respects_tac | exact I | intros d s7 _].
    apply (silent_bind P); [respects_tac | respects_tac | exact I | intros _ s8 _].
    match goal with
    | |- P (cells_written (out (for_queries _ _ _ _ _ ?qs _))) =>
        pose proof (for_queries_cells config fuel (k + 1) (List.length qs) qs 0 s8)
          as Hloop;
        assert (Hlen : List.length qs <= PDP_END_ROW + 1 - PDP_START_ROW)
          by (etransitivity;
              [apply first_cells_length | apply InsertFacts.get_column_length])
    end.
    unfold P. revert Hloop. apply loop_writes_weaken; [lia|].
    revert Hlen. unfold PDP_END_ROW, PDP_START_ROW. lia.
  - rewrite (bind_raise _ _ _ _ E). cbn [out].
    destruct Hp as [[-> _] | (w & -> & Hk0 & _)]; [now left|].
    right. exists (datetime_now w), []. now repeat split.
  - rewrite (bind_out_of_fuel _ _ _ E). cbn [out].
    destruct Hp as [[-> _] | (w & -> & Hk0 & _)]; [now left|].
    right. exists (datetime_now w), []. now repeat split.
Qed.

(** X11.  Where a run of [main] writes, however it ends.  With [k] the
    column of the last date-like header when it starts, the cells it sends
    to the sheet are none at all, or first the stamp of the day in the date
    row of column [k + 1], the column it inserted, and then only cells of
    that same column, in strictly increasing rows from [PDP_START_ROW] to
    [PDP_END_ROW], each holding a result value.  No cell of another column
    is written, and no row twice. *)
Theorem main_writes_new_column (fuel : nat) (s : Run W) :
  run_writes (last_tracking_col_index (header_row s))
             (cells_written (out (main config fuel s))).
Proof.
  rewrite main_unfold. cbv zeta.
  pose proof (main_body_cells fuel (set_driver None s)) as Hb.
  change (header_row (set_driver None s)) with (header_row s) in Hb.
  set (b := main_body config fuel (set_driver None s)) in *.
  destruct (res b) as [[]|e|]; cbn [out].
  - rewrite cleanup_eq. cbn [out].
    now rewrite cells_log, cells_written_app, cells_cleanup_trace, app_nil_r.
  - rewrite cleanup_eq, report_crash_eq. cbn [out].
    rewrite cells_log, !cells_written_app, cells_log.
    now rewrite cells_email_trace, cells_cleanup_trace, !app_nil_r.
  - now rewrite cells_log.
Qed.

(** X12.  The preparation and the columns of the sheet.  When it returns
    column [c], every cell left of [c] is as it was, the cells of the new
    column are blank outside the date row, and every cell right of [c]
    holds what its left neighbour held.  So the queries, which [main]
    fetches after the preparation, are those of the sheet as it was if
    their column is left of [c]; if the new column is the queries column
    itself, the fetched range is empty and the run has no query. *)
Theorem prepare_moves_columns (s : Run W) (c : nat) :
  res (prepare_sheet_and_get_target_column s) = Ok c ->
  let before := sheet s in
  let after := sheet (st (prepare_sheet_and_get_target_column s)) in
  let D := Sheet.a1_column PDP_QUERIES_COLUMN in
  (forall r col, 1 <= r -> 1 <= col -> col <> c ->
     Sheet.cell after r col
     = if col <? c then Sheet.cell before r col else Sheet.cell before r (col - 1))
  /\ (forall r, 1 <= r -> r <> DATE_HEADER_ROW -> Sheet.cell after r c = "")
  /\ (D < c ->
      Sheet.get_column after D PDP_START_ROW PDP_END_ROW
      = Sheet.get_column before D PDP_START_ROW PDP_END_ROW)
  /\ (c = D ->
      first_cells (Sheet.get_column after D PDP_START_ROW PDP_END_ROW) = []).
Proof.
  intros E. cbv zeta.
  destruct (prepare_cells s) as [[_ Hno] | (w & _ & Hk0 & Hok)];
    [now destruct (Hno c)|].
  destruct (Hok c E) as [Hc ->].
  set (k := last_tracking_col_index (header_row s)) in *.
  set (today := Date.strftime_d_b_Y (datetime_now w)).
  assert (Hc1 : 1 <= c) by lia. rewrite <- Hc.
  assert (Hother : forall r col, 1 <= r -> 1 <= col -> col <> c ->
            Sheet.cell (Sheet.update_cell (Sheet.insert_cols (sheet s) c)
                          DATE_HEADER_ROW c today) r col
            = if col <? c then Sheet.cell (sheet s) r col
              else Sheet.cell (sheet s) r (col - 1)).
  { intros r col Hr Hcol Hne.
    rewrite SheetFacts.cell_update_cell_other;
      [| unfold DATE_HEADER_ROW; lia | lia | lia | lia | now right].
    rewrite InsertFacts.cell_insert_cols by lia.
    destruct (col <? c); [reflexivity|].
    apply Nat.eqb_neq in Hne. now rewrite Hne. }
  assert (Hnew : forall r, 1 <= r -> r <> DATE_HEADER_ROW ->
            Sheet.cell (Sheet.update_cell (Sheet.insert_cols (sheet s) c)
                          DATE_HEADER_ROW c today) r c = "").
  { intros r Hr Hne.
    rewrite SheetFacts.cell_update_cell_other;
      [| unfold DATE_HEADER_ROW; lia | lia | lia | lia | now left].
    rewrite InsertFacts.cell_insert_cols by lia.
    now rewrite Nat.ltb_irrefl, Nat.eqb_refl. }
  split; [exact Hother|]. split; [exact Hnew|]. split.
  - intros HD. apply InsertFacts.get_column_ext. intros r Hr.
    unfold PDP_START_ROW in Hr.
    rewrite Hother; [| lia | cbv; lia | lia].
    apply Nat.ltb_lt in HD. now rewrite HD.
  - intros HD. rewrite <- HD.
    rewrite InsertFacts.get_column_blank; [reflexivity|].
    intros r Hr. unfold PDP_START_ROW in Hr.
    apply Hnew; [lia | unfold DATE_HEADER_ROW; lia].
Qed.

End Writes.

(** X12, on the sheet of the examples, whose new column G is right of the
    queries, and on a sheet whose new column is the queries column D. *)
Lemma prepare_moves_columns_witness :
  let w := Sim.calm (fun _ _ => "") (fun _ => "") in
  let s := Sim.start w ["alpha"; "beta"] in
  let s' := mkRun w dates_left_sheet None in
  let D := Sheet.a1_column PDP_QUERIES_COLUMN in
  (res (prepare_sheet_and_get_target_column s) = Ok 7
   /\ Sheet.get_column (sheet (st (prepare_sheet_and_get_target_column s)))
                       D PDP_START_ROW PDP_END_ROW
      = [["alpha"]; ["beta"]])
  /\ (res (prepare_sheet_and_get_target_column s') = Ok 4
      /\ first_cells
           (Sheet.get_column (sheet (st (prepare_sheet_and_get_target_column s')))
                             D PDP_START_ROW PDP_END_ROW)
         = []).
Proof.
  intros w s s' D.
  assert (E : res (prepare_sheet_and_get_target_column s) = Ok 7)
    by (vm_compute; reflexivity).
  assert (E' : res (prepare_sheet_and_get_target_column s') = Ok 4)
    by (vm_compute; reflexivity).
  destruct (prepare_moves_columns s 7 E) as (_ & _ & Hkeep & _).
  destruct (prepare_moves_columns s' 4 E') as (_ & _ & _ & Hlost).
  split; split; [exact E | | exact E' | exact (Hlost eq_refl)].
  unfold D. rewrite Hkeep by (vm_compute; lia).
  vm_compute. reflexivity.
Defined.


(** ** Navigations *)

Section Navigations.
Context {W : Type} `{World W}.
Variable config : Config.

Lemma typing_not_navigation sel text :
  respects (events_in not_navigation) (human_like_typing sel text).
Proof. induction text; simpl; respects_tac. Qed.

Lemma wait_not_navigation fuel start kw alert :
  respects (events_in not_navigation) (captcha_wait config fuel start kw alert).
Proof. revert alert. induction fuel; intros alert; simpl; respects_tac. Qed.

Hint Resolve typing_not_navigation wait_not_navigation : respects.

Lemma count_bind {A B} (p : event -> bool) (m : M W A) (f : A -> M W B)
    (s : Run W) :
  count p (out (bind m f s))
  = count p (out (m s))
    + match res (m s) with
      | Ok a => count p (out (f a (st (m s))))
      | _ => 0
      end.
Proof.
  destruct (res (m s)) as [a|e|] eqn:E.
  - rewrite (bind_ok _ _ _ _ E). cbn [out]. apply count_app.
  - rewrite (bind_raise _ _ _ _ E). cbn [out]. lia.
  - rewrite (bind_out_of_fuel _ _ _ E). cbn [out]. lia.
Qed.

(** What follows the navigation in a turn of the loop navigates no more. *)
Lemma after_navigation (fuel : nat) (query : string) :
  respects (events_in not_navigation)
    (pause (1000, 2000)%Z ;;
     found <- find_and_type_in_search_box query ;;
     if negb found then ret Continue
     else
       pause DELAY_AFTER_PAGE_LOAD ;;
       result_count <- detect_and_scrape config fuel query ;;
       ret (Result result_count)).
Proof. respects_tac. Qed.

Lemma write_result_not_navigation (col row : nat) (v : pyval) :
  respects (events_in not_navigation) (write_result col row v).
Proof. respects_tac. Qed.

Lemma run_query_navigations (fuel row : nat) (query : string) (s : Run W) :
  count is_navigation (out (run_query config fuel row query s))
  = if has_text query then 1 else 0.
Proof.
  unfold run_query, has_text.
  destruct (PyStr.truthy (PyStr.strip query)); cbn [negb]; [|reflexivity].
  rewrite count_bind.
  assert (Hget : count is_navigation
                   (out (browser (Get "https://www.google.com") s)) = 1).
  { unfold browser, call.
    now destruct (webdriver (Get "https://www.google.com") (world s)) as [[x|] w]. }
  rewrite Hget.
  destruct (res (browser (Get "https://www.google.com") s)); try reflexivity.
  rewrite (count_zero is_navigation); [reflexivity|].
  apply (after_navigation fuel query).
Qed.

Lemma process_query_navigations (fuel col n i : nat) (query : string) (s : Run W) :
  count is_navigation (out (process_query config fuel col n i query s))
  = if has_text query then 1 else 0.
Proof.
  unfold process_query. cbv zeta. rewrite count_bind.
  cbn [logging emit res st out]. rewrite count_cons. cbn [is_navigation Nat.add].
  unfold count at 1. cbn [filter List.length Nat.add].
  rewrite count_bind, run_query_navigations.
  destruct (res (run_query config fuel (PDP_START_ROW + i) query s)) as [r|e|];
    try lia.
  destruct r as [|v].
  - cbn [ret out]. unfold count. cbn. lia.
  - rewrite (count_zero is_navigation); [lia|].
    apply (write_result_not_navigation col (PDP_START_ROW + i) v).
Qed.

(** X13.  The loop navigates to the search engine once for every query
    that has a character other than white space, and for no other: at
    most once per such query in any run, and exactly once in a run that
    gets through all the queries, whether their search box was found or
    not. *)
Theorem one_navigation_per_query (fuel col n : nat) (queries : list string) :
  forall (i : nat) (s : Run W),
    let r := for_queries config fuel col n i queries s in
    count is_navigation (out r) <= List.length (filter has_text queries)
    /\ (res r = Ok tt ->
        count is_navigation (out r) = List.length (filter has_text queries)).
Proof.
  induction queries as [|query queries IH]; intros i s; cbv zeta.
  - cbn [for_queries ret out res filter List.length]. unfold count. cbn.
    split; [lia | reflexivity].
  - cbn [for_queries filter]. rewrite count_bind, process_query_navigations.
    destruct (res (process_query config fuel col n i query s)) as [[]|e|] eqn:E.
    + destruct (IH (S i) (st (process_query config fuel col n i query s)))
        as [Hle Heq].
      rewrite (bind_ok _ _ _ _ E). cbn [res].
      destruct (has_text query); cbn [List.length]; split; try lia;
        intros Hok; rewrite (Heq Hok); lia.
    + rewrite (bind_raise _ _ _ _ E). cbn [res].
      destruct (has_text query); cbn [List.length]; split; try lia; discriminate.
    + rewrite (bind_out_of_fuel _ _ _ E). cbn [res].
      destruct (has_text query); cbn [List.length]; split; try lia; discriminate.
Qed.

End Navigations.

(** X13, on the three queries of scenario E: two navigations. *)
Lemma one_navigation_per_query_witness :
  let cfg := Sim.config true 300000 5000 in
  let w := Sim.calm (fun _ _ => "<html>") (fun _ => "About 5 results") in
  let queries := ["alpha"; "   "; "gamma"] in
  let r := for_queries cfg 10 7 3 0 queries (Sim.start w queries) in
  res r = Ok tt /\ count is_navigation (out r) = 2.
Proof.
  intros cfg w queries r.
  assert (Hok : res r = Ok tt) by (vm_compute; reflexivity).
  split; [exact Hok|].
  exact (proj2 (one_navigation_per_query cfg 10 7 3 queries 0 (Sim.start w queries))
               Hok).
Defined.

(** ** A preparation that fails *)

Section PrepareFails.
Context {W : Type} `{World W}.

(** X14.  Whatever makes the preparation fail, it logs the one error line
    of line 154 as its last event and raises the same exception again;
    it cannot end in any other way than by returning the column or by
    raising. *)
Theorem prepare_failure_logged (s : Run W) :
  let r := prepare_sheet_and_get_target_column s in
  res r <> OutOfFuel
  /\ (forall c, res r = Ok c -> count is_prepare_failure (out r) = 0)
  /\ (forall e, res r = Raise e ->
        count is_prepare_failure (out r) = 1
        /\ exists pre, out r = pre ++ [Log ERROR (MsgPrepareFailed e)]).
Proof.
  cbv zeta. unfold prepare_sheet_and_get_target_column. run_simpl.
  destruct (sheets_api (RowValues DATE_HEADER_ROW) (world s)) as [[x|] w1];
    run_cbn.
  { split; [discriminate|]. split; [discriminate|].
    intros e [= <-]. split; [reflexivity|]. now eexists [_; _]. }
  destruct (last_tracking_col_index (Sheet.row_values (sheet s) DATE_HEADER_ROW)
            =? 0); run_cbn.
  { split; [discriminate|]. split; [discriminate|].
    intros e [= <-]. split; [reflexivity|]. now eexists [_; _]. }
  destruct (sheets_api (InsertCols _) w1) as [[x|] w2]; run_cbn.
  { split; [discriminate|]. split; [discriminate|].
    intros e [= <-]. split; [reflexivity|]. now eexists [_; _; _; _]. }
  destruct (sheets_api (UpdateCell _ _ _) w2) as [[x|] w3]; run_cbn.
  { split; [discriminate|]. split; [discriminate|].
    intros e [= <-]. split; [reflexivity|]. now eexists [_; _; _; _; _; _]. }
  split; [discriminate|]. split; [reflexivity | discriminate].
Qed.

Lemma scan_after_blank (cells : list string) :
  let last := last_tracking_col_index cells in
  last <> 0 ->
  last_tracking_col_index (firstn last cells ++ "" :: skipn last cells) = last.
Proof.
  intros last Hlast. subst last.
  destruct (ScanFacts.last_header_split cells)
    as [Hno | (pre & v & post & -> & Hv & Hpost)].
  - apply ScanFacts.last_tracking_zero_iff in Hno. congruence.
  - unfold last_tracking_col_index in *.
    rewrite (ScanFacts.scan_last 0 pre post v 0 Hv Hpost). simpl.
    replace (pre ++ v :: post) with ((pre ++ [v]) ++ post)
      by now rewrite <- app_assoc.
    replace (List.length pre + 1) with (List.length (pre ++ [v]))
      by (rewrite length_app; reflexivity).
    rewrite firstn_app, skipn_app, firstn_all, skipn_all, Nat.sub_diag.
    simpl. rewrite app_nil_r, <- app_assoc. cbn [app].
    rewrite (ScanFacts.scan_last 0 pre ("" :: post) v 0 Hv).
    + rewrite length_app. simpl. lia.
    + intros x [<- | Hx]; [reflexivity | now apply Hpost].
Qed.

(** X15.  The preparation is not undone when its last step fails.  If
    the API inserts the column and then refuses the stamp, the exception
    is raised with the blank column in the sheet: the cell of the stamp is
    empty, and the last date-like header is where it was, so that the next
    run inserts one more column at the same index. *)
Theorem refused_stamp_leaves_blank_column (s : Run W) (w1 w2 w3 : W) (e : exn) :
  let k := last_tracking_col_index (header_row s) in
  k <> 0 ->
  sheets_api (RowValues DATE_HEADER_ROW) (world s) = (None, w1) ->
  sheets_api (InsertCols (k + 1)) w1 = (None, w2) ->
  sheets_api (UpdateCell DATE_HEADER_ROW (k + 1)
                (Date.strftime_d_b_Y (datetime_now w2))) w2 = (Some e, w3) ->
  let r := prepare_sheet_and_get_target_column s in
  res r = Raise e
  /\ sheet (st r) = Sheet.insert_cols (sheet s) (k + 1)
  /\ Sheet.cell (sheet (st r)) DATE_HEADER_ROW (k + 1) = ""
  /\ last_tracking_col_index (header_row (st r)) = k.
Proof.
  intros k Hk E1 E2 E3. cbv zeta.
  assert (Hr : res (prepare_sheet_and_get_target_column s) = Raise e
               /\ sheet (st (prepare_sheet_and_get_target_column s))
                  = Sheet.insert_cols (sheet s) (k + 1)).
  { apply Nat.eqb_neq in Hk. unfold k, header_row in *.
    unfold prepare_sheet_and_get_target_column. run_simpl.
    rewrite E1. run_cbn. rewrite Hk. run_cbn.
    rewrite E2. run_cbn. rewrite E3. run_cbn. now split. }
  destruct Hr as [Hres Hsheet].
  split; [exact Hres|]. split; [exact Hsheet|].
  unfold header_row. rewrite Hsheet. split.
  - rewrite InsertFacts.cell_insert_cols by lia.
    now rewrite Nat.ltb_irrefl, Nat.eqb_refl.
  - unfold Sheet.row_values. rewrite ScanFacts.scan_rtrim.
    unfold k, header_row, Sheet.row_values in *.
    rewrite ScanFacts.scan_rtrim in *.
    set (cells := Sheet.row (sheet s) DATE_HEADER_ROW) in *.
    assert (Hrow : cells <> []).
    { intros Enil. apply Hk. now rewrite Enil. }
    rewrite SheetFacts.row_insert_cols
      by now apply SheetFacts.row_nonempty_in_grid.
    fold cells. replace (last_tracking_col_index cells + 1 - 1)
      with (last_tracking_col_index cells) by lia.
    now apply scan_after_blank.
Qed.

End PrepareFails.

(** X15, on the sheet of the examples: the stamp of column G is refused,
    and F stays the last dated column. *)
Lemma refused_stamp_leaves_blank_column_witness :
  let w := Sim.with_sheets refuse_stamp (Sim.calm (fun _ _ => "") (fun _ => "")) in
  let s := Sim.start w ["alpha"] in
  let r := prepare_sheet_and_get_target_column s in
  res r = Raise (LibraryError "APIError")
  /\ Sheet.cell (sheet (st r)) DATE_HEADER_ROW 7 = ""
  /\ last_tracking_col_index (header_row (st r)) = 6.
Proof.
  intros w s r.
  assert (Hk : last_tracking_col_index (header_row s) <> 0)
    by (vm_compute; discriminate).
  assert (E1 : sheets_api (RowValues DATE_HEADER_ROW) (world s) = (None, w))
    by (vm_compute; reflexivity).
  assert (E2 : sheets_api (InsertCols (last_tracking_col_index (header_row s) + 1)) w
               = (None, w))
    by (vm_compute; reflexivity).
  assert (E3 : sheets_api
                 (UpdateCell DATE_HEADER_ROW
                    (last_tracking_col_index (header_row s) + 1)
                    (Date.strftime_d_b_Y (datetime_now w))) w
               = (Some (LibraryError "APIError"), w))
    by (vm_compute; reflexivity).
  destruct (refused_stamp_leaves_blank_column s w w w (LibraryError "APIError") Hk
              E1 E2 E3) as (Hres & _ & Hcell & Hlast).
  split; [exact Hres|]. split; [exact Hcell | exact Hlast].
Defined.


(** ** How long the handler waits *)

Section Sleeps.
Context {W : Type} `{World W} {HC : Clock W}.
Variable config : Config.

Lemma count_dot_alert_trace (alert : bool) (kw : string) (answer : option exn) :
  count is_dot (alert_trace config alert kw answer) = 0.
Proof.
  unfold alert_trace, email_trace.
  now destruct alert, (ENABLE_EMAIL_NOTIFICATIONS config), answer.
Qed.

Lemma blocked_poll_later (first : bool) (kw : string) (w : W) :
  (time_time w + CAPTCHA_CHECK_INTERVAL config
   <= time_time (after_blocked_poll config first kw w))%Z.
Proof.
  unfold after_blocked_poll.
  destruct (first && ENABLE_EMAIL_NOTIFICATIONS config).
  - pose proof (smtp_monotone CAPTCHA_SUBJECT (CaptchaBody kw) w).
    pose proof (sleep_advances (CAPTCHA_CHECK_INTERVAL config)
                  (snd (smtp CAPTCHA_SUBJECT (CaptchaBody kw) w))).
    lia.
  - apply sleep_advances.
Qed.

(** Every sleep but the last one started an interval before the timeout. *)
Lemma wait_sleeps (fuel : nat) :
  forall (start : Z) (kw : string) (alert : bool) (s : Run W),
    let n := count is_dot (out (captcha_wait config fuel start kw alert s)) in
    n = 0
    \/ ((Z.of_nat n - 1) * CAPTCHA_CHECK_INTERVAL config
        < CAPTCHA_WAIT_TIMEOUT config - (time_time (world s) - start))%Z.
Proof.
  induction fuel as [|f IH]; intros start kw alert s; cbv zeta.
  - now left.
  - rewrite captcha_wait_step.
    destruct (time_time (world s) - start <? CAPTCHA_WAIT_TIMEOUT config)%Z
      eqn:Hlt; [|now left].
    apply Z.ltb_lt in Hlt.
    destruct (driver_page_source (world s)) as [e|src]; [now left|].
    destruct (blocked src); [|now left].
    destruct (sleep_error (CAPTCHA_CHECK_INTERVAL config)) eqn:HI;
      cbv zeta; cbn [out].
    + left. apply count_dot_alert_trace.
    + assert (HI' : (0 <= CAPTCHA_CHECK_INTERVAL config)%Z).
      { unfold sleep_error in HI.
        destruct (CAPTCHA_CHECK_INTERVAL config <? 0)%Z eqn:Hneg;
          [discriminate|]. now apply Z.ltb_ge in Hneg. }
      right.
      rewrite count_app, count_cons, count_dot_alert_trace.
      cbn [is_dot String.eqb Ascii.eqb Bool.eqb Nat.add].
      change (("." =? ".")%string) with true. cbv iota.
      pose proof (blocked_poll_later (negb alert) kw (world s)) as Hadv.
      specialize (IH start kw true
        (set_world (after_blocked_poll config (negb alert) kw (world s)) s)).
      cbv zeta in IH. cbn [world set_world] in IH.
      destruct IH as [-> | IH]; [simpl; lia|]. nia.
Qed.

(** X16.  The handler sleeps, and prints a dot, at most once more than
    the poll interval fits into the timeout: with [n] sleeps,
    [(n - 1) * CAPTCHA_CHECK_INTERVAL < CAPTCHA_WAIT_TIMEOUT], whatever the
    page, the clock and the SMTP server do, as long as the clock does not
    run backwards. *)
Theorem captcha_sleeps_bounded (fuel : nat) (kw : string) (s : Run W) :
  let n := count is_dot (out (handle_captcha config fuel kw s)) in
  n = 0
  \/ ((Z.of_nat n - 1) * CAPTCHA_CHECK_INTERVAL config
      < CAPTCHA_WAIT_TIMEOUT config)%Z.
Proof.
  cbv zeta. rewrite handle_captcha_eq. cbv zeta. cbn [out].
  rewrite count_cons. cbn [is_dot Nat.add].
  destruct (wait_sleeps fuel (time_time (world s)) kw false s) as [Hz | Hn];
    [now left | right]. lia.
Qed.

End Sleeps.

(** X16, on a page that keeps its CAPTCHA: five minutes of timeout and
    five seconds of interval give sixty sleeps. *)
Lemma captcha_sleeps_bounded_witness :
  let cfg := Sim.config true 300000 5000 in
  let s := Sim.start (Sim.calm captcha_page (fun _ => "")) ["alpha"] in
  let n := count is_dot (out (handle_captcha cfg 100 "alpha" s)) in
  n = 60 /\ ((Z.of_nat n - 1) * 5000 < 300000)%Z.
Proof.
  intros cfg s n.
  assert (Hn : n = 60) by (vm_compute; reflexivity).
  split; [exact Hn|].
  destruct (captcha_sleeps_bounded cfg 100 "alpha" s) as [Hz | Hb].
  - exfalso. fold n in Hz. rewrite Hn in Hz. discriminate.
  - exact Hb.
Defined.
(** ** The properties above on runs of the example sheet *)

(** X6, on a page that keeps its CAPTCHA until the timeout. *)
Lemma handle_captcha_footprint_witness :
  let cfg := Sim.config true 300000 5000 in
  let s := Sim.start (Sim.calm captcha_page (fun _ => "")) ["alpha"] in
  let r := handle_captcha cfg 100 "alpha" s in
  res r = Ok false
  /\ count is_mail (out r) <= 1
  /\ count is_sheets (out r) = 0
  /\ count is_browser (out r) = 0
  /\ sheet (st r) = sheet s.
Proof.
  intros cfg s r.
  destruct (handle_captcha_footprint cfg 100 "alpha" s)
    as (Hmail & _ & Hsheets & Hbrowser & Hsheet & _).
  split; [vm_compute; reflexivity|].
  split; [exact Hmail|]. split; [exact Hsheets|].
  split; [exact Hbrowser | exact Hsheet].
Defined.

(** X10, on three queries, the second one blank. *)
Lemma loop_writes_result_values_witness :
  let cfg := Sim.config true 300000 5000 in
  let w := Sim.calm (fun _ _ => "<html>") (fun _ => "About 1,200 results") in
  let queries := ["alpha"; "   "; "gamma"] in
  let cells := cells_written (out (for_queries cfg 10 7 3 0 queries
                                     (Sim.start w queries))) in
  cells = [(4, 7, "1,200"); (5, 7, ""); (6, 7, "1,200")]
  /\ loop_writes 7 PDP_START_ROW (PDP_START_ROW + 3) cells.
Proof.
  intros cfg w queries cells.
  split; [vm_compute; reflexivity|].
  exact (loop_writes_result_values cfg 10 7 queries (Sim.start w queries)).
Defined.

(** X11, on a whole run over two queries. *)
Lemma main_writes_new_column_witness :
  let cfg := Sim.config true 300000 5000 in
  let w := Sim.calm (fun _ _ => "<html>") (fun _ => "About 1,200 results") in
  let s := Sim.start w ["alpha"; "beta"] in
  cells_written (out (main cfg 10 s))
  = [(2, 7, "25-May-2024"); (4, 7, "1,200"); (5, 7, "1,200")]
  /\ run_writes 6 (cells_written (out (main cfg 10 s))).
Proof.
  intros cfg w s.
  split; [vm_compute; reflexivity|].
  exact (main_writes_new_column cfg 10 s).
Defined.

(** X14, when the API refuses the stamp. *)
Lemma prepare_failure_logged_witness :
  let w := Sim.with_sheets refuse_stamp (Sim.calm (fun _ _ => "") (fun _ => "")) in
  let r := prepare_sheet_and_get_target_column (Sim.start w ["alpha"]) in
  res r = Raise (LibraryError "APIError")
  /\ count is_prepare_failure (out r) = 1.
Proof.
  intros w r.
  assert (Hres : res r = Raise (LibraryError "APIError"))
    by (vm_compute; reflexivity).
  destruct (prepare_failure_logged (Sim.start w ["alpha"])) as (_ & _ & Hraise).
  split; [exact Hres|]. exact (proj1 (Hraise _ Hres)).
Defined.
